(** * ppd534: the course notebooks, embedded and checked

    The repository holds four Jupyter notebooks,
      modules/03-coding-bootcamp-i/lecture.ipynb
      modules/06-data-visualization/lecture.ipynb
      modules/07-spatial-data/lecture.ipynb
      modules/12-statistical-models/lecture.ipynb
    Each code cell is straight-line Python: a few bindings and a sequence of
    calls into pandas, geopandas, seaborn, matplotlib and statsmodels.

    The development has two layers.
    - A shallow embedding of the cells whose values matter: the list
      conversions of module 03 ([Bootcamp]), the frames and their CRS in
      modules 07 and 12 ([Spatial], [Models]) and the regression cells of
      module 12.  A cell is a function on the kernel's namespace in an
      exception monad; the libraries and the data behind the URLs are the
      [Library] the cells are run against.
    - The call skeleton of every code cell of every notebook ([Skeleton],
      [Notebooks]): the statements of a cell, the calls each makes in
      order with their literal arguments, and how exceptions and effects
      on files flow through them. *)

From Stdlib Require Import ZArith List String Ascii DecimalString SpecFloat Lia.
From Stdlib Require Import DecimalFacts DecimalPos.
From stdpp Require Import base option list strings gmap.
Import ListNotations.

Open Scope Z_scope.
Open Scope string_scope.

(** ** Exceptions and the cell monad *)

(** The Python exceptions a modelled call can raise. *)
Inductive exn : Type :=
| NameError (name : string)
| KeyError (key : string)
| IndexError
| TypeError
| ValueError
| ZeroDivisionError
| SyntaxError
| URLError (url : string)
| FileNotFoundError (path : string).

(** A computation that returns a value or raises. *)
Inductive res (A : Type) : Type :=
| Ok (a : A)
| Raise (e : exn).
Arguments Ok {A} a.
Arguments Raise {A} e.

Definition bind {A B : Type} (m : res A) (k : A -> res B) : res B :=
  match m with
  | Ok a => k a
  | Raise e => Raise e
  end.

Declare Scope py_scope.
Delimit Scope py_scope with py.
Notation "x <- m ;; k" := (bind m (fun x => k))
  (at level 100, m at next level, right associativity) : py_scope.
Open Scope py_scope.

Definition is_ok {A : Type} (m : res A) : bool :=
  match m with Ok _ => true | Raise _ => false end.

(** A Python [for] over a list: the body runs once per element, in order,
    and the first exception ends the loop. *)
Fixpoint for_each {A S : Type} (body : A -> S -> res S) (l : list A) (s : S)
  : res S :=
  match l with
  | [] => Ok s
  | a :: l' => s' <- body a s ;; for_each body l' s'
  end.

(** ** Module 03: converting a list of ints to a list of strings *)

Module Bootcamp.

(** Python's [str] on an int: decimal digits, with a leading minus sign
    for negatives. *)
Definition str (n : Z) : string := NilZero.string_of_int (Z.to_int n).

(** [l[i]] for a literal index [i >= 0]. *)
Definition getitem {A : Type} (l : list A) (i : nat) : res A :=
  match l !! i with
  | Some a => Ok a
  | None => Raise IndexError
  end.

(** [l.append(x)] *)
Definition append {A : Type} (l : list A) (x : A) : list A := l ++ [x].

(** The names the conversion cells bind.  A name that is not bound yet
    is [None]; reading it raises NameError. *)
Record kernel : Type := Kernel {
  int_list : option (list Z);
  str_list : option (list string);
  new_list : option (list string)
}.

Definition fresh : kernel :=
  {| int_list := None; str_list := None; new_list := None |}.

Definition name {A : Type} (x : string) (v : option A) : res A :=
  match v with
  | Some a => Ok a
  | None => Raise (NameError x)
  end.

(** cell 91: [int_list = [2, 4, 6, 8, 10]] *)
Definition cell_91 (k : kernel) : res kernel :=
  Ok {| int_list := Some [2; 4; 6; 8; 10];
        str_list := str_list k; new_list := new_list k |}.

(** cell 97: [str_list = []] *)
Definition cell_97 (k : kernel) : res kernel :=
  Ok {| int_list := int_list k; str_list := Some []; new_list := new_list k |}.

(** [str_list.append(str(int_list[i]))] *)
Definition append_str_at (i : nat) (k : kernel) : res kernel :=
  sl <- name "str_list" (str_list k) ;;
  il <- name "int_list" (int_list k) ;;
  v <- getitem il i ;;
  Ok {| int_list := int_list k;
        str_list := Some (append sl (str v));
        new_list := new_list k |}.

(** cell 98: [str_list.append(str(int_list[0]))] *)
Definition cell_98 (k : kernel) : res kernel := append_str_at 0 k.

(** cell 100: the same statement for positions 1, 2, 3 and 4 *)
Definition cell_100 (k : kernel) : res kernel :=
  k1 <- append_str_at 1 k ;;
  k2 <- append_str_at 2 k1 ;;
  k3 <- append_str_at 3 k2 ;;
  append_str_at 4 k3.

(** cell 101: [str_list] *)
Definition cell_101 (k : kernel) : res (list string) :=
  name "str_list" (str_list k).

(** cell 103:
    [new_list = []]
    [for value in int_list: new_list.append(str(value))]
    [new_list] *)
Definition loop_body (value : Z) (acc : list string) : res (list string) :=
  Ok (append acc (str value)).

Definition cell_103 (k : kernel) : res (kernel * list string) :=
  il <- name "int_list" (int_list k) ;;
  nl <- for_each loop_body il [] ;;
  Ok ({| int_list := int_list k; str_list := str_list k;
         new_list := Some nl |}, nl).

(** cell 104: [[str(value) for value in int_list]] *)
Definition cell_104 (k : kernel) : res (list string) :=
  il <- name "int_list" (int_list k) ;;
  Ok (map str il).

(** The three methods on an arbitrary kernel state in which [int_list]
    is bound to [l] (the cells read no other name). *)
Definition with_ints (l : list Z) : kernel :=
  {| int_list := Some l; str_list := None; new_list := None |}.

Definition by_hand (l : list Z) : res (list string) :=
  k <- cell_97 (with_ints l) ;;
  k <- cell_98 k ;;
  k <- cell_100 k ;;
  cell_101 k.

Definition by_loop (l : list Z) : res (list string) :=
  r <- cell_103 (with_ints l) ;; Ok (snd r).

Definition by_comprehension (l : list Z) : res (list string) :=
  cell_104 (with_ints l).

(** The notebook's own run: cell 91 binds the list, then the cells above. *)
Definition notebook_by_hand : res (list string) :=
  k <- cell_91 fresh ;; k <- cell_97 k ;; k <- cell_98 k ;;
  k <- cell_100 k ;; cell_101 k.

Definition notebook_by_loop : res (list string) :=
  k <- cell_91 fresh ;; r <- cell_103 k ;; Ok (snd r).

Definition notebook_by_comprehension : res (list string) :=
  k <- cell_91 fresh ;; cell_104 k.

End Bootcamp.


(** ** Cells that keep what they bound before an exception

    A cell is run statement by statement against the kernel's namespace.
    An exception ends the cell there: the names bound by the statements
    before it stay bound. *)

Section Statements.
Context {K : Type}.

(** A statement takes the namespace to the namespace it leaves and the
    exception it raised, if it raised one. *)
Definition statement : Type := K -> K * option exn.

(** [name = e] *)
Definition bind_name {A : Type} (e : K -> res A) (set : A -> K -> K)
  : statement :=
  fun k => match e k with
           | Ok v => (set v k, None)
           | Raise x => (k, Some x)
           end.

(** An expression on a line of its own, or [print(e)]. *)
Definition evaluate {A : Type} (e : K -> res A) : statement :=
  fun k => (k, match e k with Ok _ => None | Raise x => Some x end).

(** [s] and then [t], unless [s] raised. *)
Definition sequence (s t : statement) : statement :=
  fun k => match s k with
           | (k', None) => t k'
           | stopped => stopped
           end.

(** A cell that ends with an expression: the notebook shows its value. *)
Definition shown {A : Type} (s : statement) (e : K -> res A)
  : K -> K * res A :=
  fun k => match s k with
           | (k', None) => (k', e k')
           | (k', Some x) => (k', Raise x)
           end.

(** Running a cell [n] times in a row, stopping at the first exception. *)
Fixpoint rerun (n : nat) (s : statement) : statement :=
  match n with
  | O => fun k => (k, None)
  | S n' => sequence s (rerun n' s)
  end.

End Statements.

(** ** Python's built-in operations on sequences, strings and ints *)

Module Builtins.

(** [l[i]]: a negative index counts from the end; IndexError outside
    [-len, len). *)
Definition item {A : Type} (l : list A) (i : Z) : res A :=
  let n := Z.of_nat (length l) in
  let j := if (i <? 0)%Z then i + n else i in
  if ((0 <=? j) && (j <? n))%Z then
    match l !! Z.to_nat j with
    | Some a => Ok a
    | None => Raise IndexError
    end
  else Raise IndexError.

(** A bound of a slice as the interpreter adjusts it: a negative bound
    counts from the end, and the result is clamped to [0, len]. *)
Definition clamp (len i : Z) : Z :=
  if (i <? 0)%Z then Z.max (i + len) 0 else Z.min i len.

(** [l[lo:hi]]; a missing bound is the end of the sequence on its side.
    No bound is out of range: a slice never raises. *)
Definition slice {A : Type} (l : list A) (lo hi : option Z) : list A :=
  let n := Z.of_nat (length l) in
  let start := match lo with Some i => clamp n i | None => 0 end in
  let stop := match hi with Some i => clamp n i | None => n end in
  take (Z.to_nat (stop - start)) (drop (Z.to_nat start) l).

(** [l[i] = v] for a list: IndexError outside [-len, len). *)
Definition set_item {A : Type} (l : list A) (i : Z) (v : A) : res (list A) :=
  let n := Z.of_nat (length l) in
  let j := if (i <? 0)%Z then i + n else i in
  if ((0 <=? j) && (j <? n))%Z then Ok (<[Z.to_nat j := v]> l)
  else Raise IndexError.

(** A string is the sequence of its characters. *)
Definition chars (s : string) : list ascii := list_ascii_of_string s.
Definition text (l : list ascii) : string := string_of_list_ascii l.

Definition str_item (s : string) (i : Z) : res string :=
  c <- item (chars s) i ;; Ok (String c EmptyString).

Definition str_slice (s : string) (lo hi : option Z) : string :=
  text (slice (chars s) lo hi).

(** [s * n]: [n] copies of [s], none when [n <= 0]. *)
Fixpoint copies (s : string) (n : nat) : string :=
  match n with
  | O => EmptyString
  | S n' => s ++ copies s n'
  end.

Definition times (s : string) (n : Z) : string := copies s (Z.to_nat n).

(** [s.replace(old, new)]: every occurrence of [old], found from the left
    and not overlapping the one before, becomes [new].  [skip] counts the
    characters of the occurrence just replaced that are still to be
    passed over. *)
Fixpoint replace_from (old new : string) (skip : nat) (s : string) : string :=
  match s with
  | EmptyString => EmptyString
  | String c s' =>
      match skip with
      | S n => replace_from old new n s'
      | O =>
          if String.prefix old s
          then new ++ replace_from old new (String.length old - 1) s'
          else String c (replace_from old new 0 s')
      end
  end.

(** With an empty [old], [new] goes before every character and at the
    end. *)
Fixpoint interleave (new s : string) : string :=
  match s with
  | EmptyString => new
  | String c s' => new ++ String c (interleave new s')
  end.

Definition replace (s old new : string) : string :=
  match old with
  | EmptyString => interleave new s
  | _ => replace_from old new 0 s
  end.

(** What [replace] does to one character when [old] is the character [a]
    and [new] the character [b]. *)
Definition swap (a b c : ascii) : ascii := if Ascii.eqb c a then b else c.

(** The interpreter's cap on the digits of a conversion between [int] and
    [str] (its default, [sys.get_int_max_str_digits()]). *)
Definition max_str_digits : nat := 4300.

(** [str(n)]: the digits of [Bootcamp.str], refused with ValueError when
    there are more than [max_str_digits] of them. *)
Definition str_of_int (n : Z) : res string :=
  let s := Bootcamp.str n in
  let digits := (String.length s - (if (n <? 0)%Z then 1 else 0))%nat in
  if (digits <=? max_str_digits)%nat then Ok s else Raise ValueError.

(** The whitespace [int] skips around an ASCII literal. *)
Definition is_space (c : ascii) : bool :=
  let n := nat_of_ascii c in
  (((9 <=? n) && (n <=? 13)) || (n =? 32))%nat.

Definition digit (c : ascii) : option Z :=
  let n := nat_of_ascii c in
  if ((48 <=? n) && (n <=? 57))%nat then Some (Z.of_nat (n - 48)) else None.

Fixpoint lstrip (l : list ascii) : list ascii :=
  match l with
  | c :: l' => if is_space c then lstrip l' else l
  | [] => []
  end.

Definition strip (l : list ascii) : list ascii :=
  rev (lstrip (rev (lstrip l))).

(** The digits of a literal, most significant first.  An underscore may
    stand between two digits and nowhere else; [count] is the number of
    digits read and [after_digit] whether the last character was one. *)
Fixpoint digits (l : list ascii) (acc : Z) (count : nat) (after_digit : bool)
  : option (Z * nat) :=
  match l with
  | [] => if after_digit then Some (acc, count) else None
  | c :: l' =>
      match digit c with
      | Some d => digits l' (10 * acc + d) (S count) true
      | None =>
          if Ascii.eqb c "_" && after_digit then digits l' acc count false
          else None
      end
  end.

(** [int(s)] for a string: whitespace around, an optional sign, decimal
    digits.  ValueError for anything else, and for more digits than
    [max_str_digits]. *)
Definition int_of_str (s : string) : res Z :=
  let body := strip (chars s) in
  let '(negative, rest) :=
    match body with
    | c :: l => if Ascii.eqb c "-" then (true, l)
                else if Ascii.eqb c "+" then (false, l)
                else (false, body)
    | [] => (false, body)
    end in
  match digits rest 0 0 false with
  | Some (n, count) =>
      if (count <=? max_str_digits)%nat
      then Ok (if negative then - n else n)
      else Raise ValueError
  | None => Raise ValueError
  end.

(** An int or a string: the two kinds of value the cells on strings and
    conversions bind to [zip_code]. *)
Inductive scalar : Type :=
| Int (n : Z)
| Str (s : string).

(** [a + b] *)
Definition add (a b : scalar) : res scalar :=
  match a, b with
  | Int m, Int n => Ok (Int (m + n))
  | Str s, Str t => Ok (Str (s ++ t))
  | _, _ => Raise TypeError
  end.

(** [a * b] *)
Definition mul (a b : scalar) : res scalar :=
  match a, b with
  | Int m, Int n => Ok (Int (m * n))
  | Str s, Int n | Int n, Str s => Ok (Str (times s n))
  | Str _, Str _ => Raise TypeError
  end.

(** [int(a)] *)
Definition int (a : scalar) : res Z :=
  match a with
  | Int n => Ok n
  | Str s => int_of_str s
  end.

(** [str(a)] *)
Definition str (a : scalar) : res string :=
  match a with
  | Int n => str_of_int n
  | Str s => Ok s
  end.

End Builtins.

(** ** Module 03: the cells on strings and on converting between types *)

Module StringCells.
Import Builtins.

(** The names these cells bind, each at the type the notebook binds it
    to ([zip_code] is first a string, then an int). *)
Record kernel : Type := Kernel {
  city : option string;
  sep : option string;
  state : option string;
  zip_code : option scalar;
  location : option string;
  rent_str : option string;
  rent_int : option Z
}.

Definition fresh : kernel :=
  {| city := None; sep := None; state := None; zip_code := None;
     location := None; rent_str := None; rent_int := None |}.

Definition set_city (v : string) (k : kernel) : kernel :=
  {| city := Some v; sep := sep k; state := state k; zip_code := zip_code k;
     location := location k; rent_str := rent_str k; rent_int := rent_int k |}.
Definition set_sep (v : string) (k : kernel) : kernel :=
  {| city := city k; sep := Some v; state := state k; zip_code := zip_code k;
     location := location k; rent_str := rent_str k; rent_int := rent_int k |}.
Definition set_state (v : string) (k : kernel) : kernel :=
  {| city := city k; sep := sep k; state := Some v; zip_code := zip_code k;
     location := location k; rent_str := rent_str k; rent_int := rent_int k |}.
Definition set_zip_code (v : scalar) (k : kernel) : kernel :=
  {| city := city k; sep := sep k; state := state k; zip_code := Some v;
     location := location k; rent_str := rent_str k; rent_int := rent_int k |}.
Definition set_location (v : string) (k : kernel) : kernel :=
  {| city := city k; sep := sep k; state := state k; zip_code := zip_code k;
     location := Some v; rent_str := rent_str k; rent_int := rent_int k |}.
Definition set_rent_str (v : string) (k : kernel) : kernel :=
  {| city := city k; sep := sep k; state := state k; zip_code := zip_code k;
     location := location k; rent_str := Some v; rent_int := rent_int k |}.
Definition set_rent_int (v : Z) (k : kernel) : kernel :=
  {| city := city k; sep := sep k; state := state k; zip_code := zip_code k;
     location := location k; rent_str := rent_str k; rent_int := Some v |}.

Definition name {A : Type} := @Bootcamp.name A.

(** [s + b] for a string [s]. *)
Definition concat (s : string) (b : scalar) : res string :=
  r <- add (Str s) b ;;
  match r with
  | Str t => Ok t
  | Int _ => Raise TypeError
  end.

(** [city + sep + state + " " + zip_code] *)
Definition joined (k : kernel) : res string :=
  c <- name "city" (city k) ;;
  s <- name "sep" (sep k) ;;
  st <- name "state" (state k) ;;
  z <- name "zip_code" (zip_code k) ;;
  concat (c ++ s ++ st ++ " ") z.

(** cell 55:
    [city = "Los Angeles"], [sep = ", "], [state = "CA"],
    [zip_code = "90089"],
    [location = city + sep + state + " " + zip_code],
    [print(location)] *)
Definition cell_55 : @statement kernel :=
  sequence (bind_name (fun _ => Ok "Los Angeles") set_city)
 (sequence (bind_name (fun _ => Ok ", ") set_sep)
 (sequence (bind_name (fun _ => Ok "CA") set_state)
 (sequence (bind_name (fun _ => Ok (Str "90089")) set_zip_code)
 (sequence (bind_name joined set_location)
      (evaluate (fun k => name "location" (location k))))))).

(** cell 56: [zip_code = 02115] is not Python: the cell is refused before
    any of it runs. *)
Definition cell_56 : @statement kernel := fun k => (k, Some SyntaxError).

(** cell 57: [zip_code = "02115"] *)
Definition cell_57 : @statement kernel :=
  bind_name (fun _ => Ok (Str "02115")) set_zip_code.

(** cell 58: [zip_code * 3] *)
Definition cell_58 (k : kernel) : res scalar :=
  z <- name "zip_code" (zip_code k) ;; mul z (Int 3).

(** cell 59: [print(location)], [location[0]] *)
Definition cell_59 (k : kernel) : res string :=
  l <- name "location" (location k) ;; str_item l 0.

(** cell 60: [print(location[0])], [print(location[1])],
    [print(location[2])]; the value is what was printed. *)
Definition cell_60 (k : kernel) : res (list string) :=
  l <- name "location" (location k) ;;
  a <- str_item l 0 ;;
  b <- str_item l 1 ;;
  c <- str_item l 2 ;;
  Ok [a; b; c].

(** cell 61: [len(location)] *)
Definition cell_61 (k : kernel) : res Z :=
  l <- name "location" (location k) ;; Ok (Z.of_nat (String.length l)).

(** cell 62: [location[4:7]] *)
Definition cell_62 (k : kernel) : res string :=
  l <- name "location" (location k) ;; Ok (str_slice l (Some 4) (Some 7)).

(** cell 63: [location[:5]] *)
Definition cell_63 (k : kernel) : res string :=
  l <- name "location" (location k) ;; Ok (str_slice l None (Some 5)).

(** cell 64: [location[5:]] *)
Definition cell_64 (k : kernel) : res string :=
  l <- name "location" (location k) ;; Ok (str_slice l (Some 5) None).

(** cell 65: [location[-8:]] *)
Definition cell_65 (k : kernel) : res string :=
  l <- name "location" (location k) ;; Ok (str_slice l (Some (-8)) None).

(** cell 66: [location.replace("e", "E")] *)
Definition cell_66 (k : kernel) : res string :=
  l <- name "location" (location k) ;; Ok (replace l "e" "E").

(** cell 71: [zip_code = int(zip_code)], [zip_code] *)
Definition cell_71 : kernel -> kernel * res scalar :=
  shown
    (bind_name (fun k => z <- name "zip_code" (zip_code k) ;;
                         n <- int z ;; Ok (Int n)) set_zip_code)
    (fun k => name "zip_code" (zip_code k)).

(** cell 73: [zip_code * 2] *)
Definition cell_73 (k : kernel) : res scalar :=
  z <- name "zip_code" (zip_code k) ;; mul z (Int 2).

(** cell 75: [rent_str = "2500.00"], [rent_int = int(rent_str)] *)
Definition cell_75 : @statement kernel :=
  sequence (bind_name (fun _ => Ok "2500.00") set_rent_str)
      (bind_name (fun k => s <- name "rent_str" (rent_str k) ;; int_of_str s)
                 set_rent_int).

(** cell 77: [city = "Los Angeles "], [zip_code = 90089],
    [city + zip_code] *)
Definition cell_77 : kernel -> kernel * res string :=
  shown
    (sequence (bind_name (fun _ => Ok "Los Angeles ") set_city)
         (bind_name (fun _ => Ok (Int 90089)) set_zip_code))
    (fun k => c <- name "city" (city k) ;;
              z <- name "zip_code" (zip_code k) ;;
              concat c z).

(** cell 78: [city + str(zip_code)] *)
Definition cell_78 (k : kernel) : res string :=
  c <- name "city" (city k) ;;
  z <- name "zip_code" (zip_code k) ;;
  s <- str z ;;
  Ok (c ++ s).

End StringCells.

(** ** Module 03: the cells on variables, lists and dictionaries *)

(** A cell that shows a value, as a statement. *)
Definition quiet {K A : Type} (c : K -> K * res A) : @statement K :=
  fun k => (fst (c k),
            match snd (c k) with Ok _ => None | Raise x => Some x end).

Module NameCells.

(** The names of the cells on variables; the notebook binds ints to
    them. *)
Record kernel : Type := Kernel {
  x : option Z;
  y : option Z
}.

Definition fresh : kernel := {| x := None; y := None |}.

Definition set_x (v : Z) (k : kernel) : kernel := {| x := Some v; y := y k |}.
Definition set_y (v : Z) (k : kernel) : kernel := {| x := x k; y := Some v |}.

Definition name {A : Type} := @Bootcamp.name A.

(** cell 17: [x = 5] *)
Definition cell_17 : @statement kernel := bind_name (fun _ => Ok 5) set_x.

(** cells 18, 20 and 22: [x] *)
Definition cell_18 (k : kernel) : res Z := name "x" (x k).

(** cell 19: [x + 3] *)
Definition cell_19 (k : kernel) : res Z := v <- name "x" (x k) ;; Ok (v + 3).

(** cell 21: [x = x + 3] *)
Definition cell_21 : @statement kernel :=
  bind_name (fun k => v <- name "x" (x k) ;; Ok (v + 3)) set_x.

(** cell 23: [x = 5], [y = x * 2], [y] *)
Definition cell_23 : kernel -> kernel * res Z :=
  shown
    (sequence (bind_name (fun _ => Ok 5) set_x)
         (bind_name (fun k => v <- name "x" (x k) ;; Ok (v * 2)) set_y))
    (fun k => name "y" (y k)).

(** cell 24: [x], [y]: two expressions, the notebook shows the last. *)
Definition cell_24 : kernel -> kernel * res Z :=
  shown (evaluate (fun k => name "x" (x k))) (fun k => name "y" (y k)).

End NameCells.

Module ListCells.
Import Builtins.

(** [my_tuple] holds ints; [my_list] ints and, from cell 88 on, a
    string. *)
Record kernel : Type := Kernel {
  my_tuple : option (list Z);
  my_list : option (list scalar)
}.

Definition fresh : kernel := {| my_tuple := None; my_list := None |}.

Definition set_my_tuple (v : list Z) (k : kernel) : kernel :=
  {| my_tuple := Some v; my_list := my_list k |}.
Definition set_my_list (v : list scalar) (k : kernel) : kernel :=
  {| my_tuple := my_tuple k; my_list := Some v |}.

Definition name {A : Type} := @Bootcamp.name A.

(** cell 81: [my_tuple = (3, 2, 1, 2)], [my_tuple] *)
Definition cell_81 : kernel -> kernel * res (list Z) :=
  shown (bind_name (fun _ => Ok [3; 2; 1; 2]) set_my_tuple)
        (fun k => name "my_tuple" (my_tuple k)).

(** cell 82: [sum(my_tuple)] *)
Definition cell_82 (k : kernel) : res Z :=
  t <- name "my_tuple" (my_tuple k) ;; Ok (fold_left Z.add t 0).

(** cell 83: [set(my_tuple)] *)
Definition cell_83 (k : kernel) : res (gset Z) :=
  t <- name "my_tuple" (my_tuple k) ;; Ok (list_to_set t).

(** cell 84: [my_list = [2, 4, 6, 8]] *)
Definition cell_84 : @statement kernel :=
  bind_name (fun _ => Ok [Int 2; Int 4; Int 6; Int 8]) set_my_list.

(** cell 85: [len(my_list)] *)
Definition cell_85 (k : kernel) : res Z :=
  l <- name "my_list" (my_list k) ;; Ok (Z.of_nat (length l)).

(** cell 86: [my_list[0]] *)
Definition cell_86 (k : kernel) : res scalar :=
  l <- name "my_list" (my_list k) ;; item l 0.

(** cell 87: [my_list[2] = 100], [my_list] *)
Definition cell_87 : kernel -> kernel * res (list scalar) :=
  shown
    (bind_name (fun k => l <- name "my_list" (my_list k) ;;
                         set_item l 2 (Int 100)) set_my_list)
    (fun k => name "my_list" (my_list k)).

(** cell 88: [my_list.append("hello")], [my_list] *)
Definition cell_88 : kernel -> kernel * res (list scalar) :=
  shown
    (bind_name (fun k => l <- name "my_list" (my_list k) ;;
                         Ok (Bootcamp.append l (Str "hello"))) set_my_list)
    (fun k => name "my_list" (my_list k)).

End ListCells.

Module DictCells.

(** A dict from strings to strings: its items in the order the keys were
    first inserted, which is the order [keys()], [values()] and [items()]
    go through them. *)
Definition dict : Type := list (string * string).

(** [d[key]] *)
Fixpoint get (d : dict) (key : string) : res string :=
  match d with
  | [] => Raise (KeyError key)
  | (k, v) :: d' => if String.eqb k key then Ok v else get d' key
  end.

(** [d[key] = value]: a key that is there keeps its place and gets the
    new value; a new key goes to the end. *)
Fixpoint set (d : dict) (key value : string) : dict :=
  match d with
  | [] => [(key, value)]
  | (k, v) :: d' =>
      if String.eqb k key then (k, value) :: d'
      else (k, v) :: set d' key value
  end.

(** A display [{k1: v1, ..., kn: vn}]: the items are inserted from left
    to right. *)
Definition display (items : list (string * string)) : dict :=
  fold_left (fun d kv => set d (fst kv) (snd kv)) items [].

Definition keys (d : dict) : list string := map fst d.
Definition values (d : dict) : list string := map snd d.
Definition items (d : dict) : list (string * string) := d.

Record kernel : Type := Kernel {
  antonyms : option dict
}.

Definition fresh : kernel := {| antonyms := None |}.

Definition set_antonyms (v : dict) (k : kernel) : kernel :=
  {| antonyms := Some v |}.

Definition name {A : Type} := @Bootcamp.name A.

(** cell 108:
    [antonyms = {"hot": "cold", "fast": "slow", "good": "bad"}],
    [antonyms] *)
Definition cell_108 : kernel -> kernel * res dict :=
  shown
    (bind_name
       (fun _ => Ok (display [("hot", "cold"); ("fast", "slow");
                              ("good", "bad")]))
       set_antonyms)
    (fun k => name "antonyms" (antonyms k)).

(** cell 109: [antonyms["hot"]] *)
Definition cell_109 (k : kernel) : res string :=
  d <- name "antonyms" (antonyms k) ;; get d "hot".

(** cell 110: [antonyms["hot"] = "freezing"], [antonyms] *)
Definition cell_110 : kernel -> kernel * res dict :=
  shown
    (bind_name (fun k => d <- name "antonyms" (antonyms k) ;;
                         Ok (set d "hot" "freezing")) set_antonyms)
    (fun k => name "antonyms" (antonyms k)).

(** cell 111: [antonyms.keys()] *)
Definition cell_111 (k : kernel) : res (list string) :=
  d <- name "antonyms" (antonyms k) ;; Ok (keys d).

(** cell 112: [antonyms.values()] *)
Definition cell_112 (k : kernel) : res (list string) :=
  d <- name "antonyms" (antonyms k) ;; Ok (values d).

(** cell 113: [antonyms.items()] *)
Definition cell_113 (k : kernel) : res (list (string * string)) :=
  d <- name "antonyms" (antonyms k) ;; Ok (items d).

End DictCells.

(** ** The call skeleton of a notebook *)

Module Skeleton.

(** The library that defines the object at the root of a call's receiver
    ([pd.], [gpd.], [sns.], [np.], [sm.] by the notebook's imports; a
    variable by the class of the value bound to it: a DataFrame is pandas,
    a GeoDataFrame geopandas, an Axes or Figure matplotlib, a model or a
    result statsmodels, a CRS pyproj).  [Builtin] is Python itself. *)
Inductive provider : Type :=
| Builtin | Numpy | Pandas | Geopandas | Pyproj | Seaborn | Matplotlib
| Statsmodels.

(** One operation of a statement: a function or method call, with the text
    of the called expression and the string literals passed directly as
    arguments (positional first, then keyword), or an operator application.
    Reading a name or an attribute and subscripting are not operations. *)
Inductive op : Type :=
| Call (lib : provider) (fn : string) (args : list string)
| Operator (lib : provider) (symbol : string).

(** A statement, with its operations in evaluation order. *)
#[warnings="-register-all"]
Inductive stmt : Type :=
| Assign (targets : list string) (rhs : list op)
| Expr (value : list op)
| For (target : string) (iter : list op) (body : list stmt)
| Comprehension (target : string) (iter : list op) (element : list op)
| Try (body : list stmt) (handler : list stmt)
| Import (modules : list string)
| Shell (command : string)
| Help (name : string)
| Invalid (text : string).

Definition cell : Type := list stmt.

Record notebook : Type := Notebook {
  path : string;
  cells : list (nat * cell)
}.

(** *** Traversals *)

Fixpoint stmt_ops (s : stmt) : list op :=
  match s with
  | Assign _ os | Expr os => os
  | For _ it body => it ++ flat_map stmt_ops body
  | Comprehension _ it el => it ++ el
  | Try body handler => flat_map stmt_ops body ++ flat_map stmt_ops handler
  | Import _ | Shell _ | Help _ | Invalid _ => []
  end.

(** The statements of a block with the bodies of its loops opened up. *)
Fixpoint stmt_flat (s : stmt) : list stmt :=
  match s with
  | For _ _ body => s :: flat_map stmt_flat body
  | Try body handler => s :: flat_map stmt_flat body ++ flat_map stmt_flat handler
  | _ => [s]
  end.

Fixpoint has_try (s : stmt) : bool :=
  match s with
  | Try _ _ => true
  | For _ _ body => existsb has_try body
  | _ => false
  end.

Definition cell_ops (c : cell) : list op := flat_map stmt_ops c.
Definition cell_stmts (c : cell) : list stmt := flat_map stmt_flat c.
Definition cell_has_try (c : cell) : bool := existsb has_try c.

Definition nb_ops (nb : notebook) : list op :=
  flat_map (fun ic => cell_ops (snd ic)) (cells nb).
Definition nb_stmts (nb : notebook) : list stmt :=
  flat_map (fun ic => cell_stmts (snd ic)) (cells nb).
Definition nb_has_try (nb : notebook) : bool :=
  existsb (fun ic => cell_has_try (snd ic)) (cells nb).

Definition op_lib (o : op) : provider :=
  match o with Call l _ _ | Operator l _ => l end.

Definition third_party (o : op) : bool :=
  match op_lib o with Builtin => false | _ => true end.

(** The name after the last dot of the called expression:
    [ax.get_figure().savefig] is [savefig], [print] is [print]. *)
Fixpoint after_last_dot (s acc : string) : string :=
  match s with
  | EmptyString => acc
  | String c s' =>
      if Ascii.eqb c "." then after_last_dot s' s' else after_last_dot s' acc
  end.

Definition method_name (o : op) : string :=
  match o with
  | Call _ fn _ => after_last_dot fn fn
  | Operator _ sym => sym
  end.

Definition first_arg (o : op) : option string :=
  match o with
  | Call _ _ (a :: _) => Some a
  | _ => None
  end.

Definition named (names : list string) (o : op) : bool :=
  match o with
  | Call _ _ _ => existsb (String.eqb (method_name o)) names
  | Operator _ _ => false
  end.

(** *** Exceptions

    A cell is run statement by statement.  Every operation is one
    evaluation step, and so is the rest of a simple statement (looking its
    names up, subscripting, binding the targets; importing; parsing).  Which
    steps raise is not the notebook's choice: [fault n] is the exception, if
    any, that the [n]-th step of the run raises.  [trip] is the number of
    elements a loop iterates over. *)

Inductive outcome : Type :=
| Done (clock : nat)
| Raised (e : exn) (clock : nat).

Definition and_then (o : outcome) (k : nat -> outcome) : outcome :=
  match o with
  | Done n => k n
  | Raised e n => Raised e n
  end.

Definition tick (fault : nat -> option exn) (n : nat) : outcome :=
  match fault n with
  | Some e => Raised e (S n)
  | None => Done (S n)
  end.

Section Run.
Variable fault : nat -> option exn.
Variable trip : nat.

Fixpoint run_ops (os : list op) (n : nat) : outcome :=
  match os with
  | [] => Done n
  | _ :: os' => and_then (tick fault n) (run_ops os')
  end.

Fixpoint iterate (body : nat -> outcome) (k : nat) (n : nat) : outcome :=
  match k with
  | O => Done n
  | S k' => and_then (body n) (iterate body k')
  end.

Fixpoint run_stmt (s : stmt) (n : nat) : outcome :=
  let run_block :=
    fix run_block (ss : list stmt) (n : nat) : outcome :=
      match ss with
      | [] => Done n
      | s' :: ss' => and_then (run_stmt s' n) (run_block ss')
      end in
  match s with
  | Assign _ os | Expr os => and_then (run_ops os n) (tick fault)
  | For _ it body =>
      and_then (and_then (run_ops it n) (tick fault))
               (iterate (run_block body) trip)
  | Comprehension _ it el =>
      and_then (and_then (run_ops it n) (tick fault))
               (iterate (run_ops el) trip)
  | Try body handler =>
      match run_block body n with
      | Done n' => Done n'
      | Raised _ n' => run_block handler n'
      end
  | Import _ | Shell _ | Help _ | Invalid _ => tick fault n
  end.

Fixpoint run_block (ss : list stmt) (n : nat) : outcome :=
  match ss with
  | [] => Done n
  | s :: ss' => and_then (run_stmt s n) (run_block ss')
  end.

(** Running a cell in a kernel whose step counter is at [n]. *)
Definition run_cell (c : cell) (n : nat) : outcome := run_block c n.

End Run.

(** The number of evaluation steps of a statement when nothing raises. *)
Fixpoint steps (trip : nat) (s : stmt) : nat :=
  match s with
  | Assign _ os | Expr os => S (length os)
  | For _ it body =>
      S (length it) + trip * list_sum (map (steps trip) body)
  | Comprehension _ it el => S (length it) + trip * length el
  | Try body handler => list_sum (map (steps trip) body)
  | Import _ | Shell _ | Help _ | Invalid _ => 1
  end%nat.

Definition cell_steps (trip : nat) (c : cell) : nat :=
  list_sum (map (steps trip) c).

(** The run in which nothing stops an exception: [len] steps from clock
    [n], ended by the first one that raises. *)
Fixpoint scan (fault : nat -> option exn) (len n : nat) : outcome :=
  match len with
  | O => Done n
  | S len' => and_then (tick fault n) (scan fault len')
  end.

(** *** Effects outside the kernel

    What a statement does to the world outside the kernel's memory is read
    off the name of the called function: pandas' and geopandas' readers
    open their first argument, the writers create it. *)

Inductive effect : Type :=
| Fetch (url : string)
| ReadLocal (file : option string)
| WriteLocal (writer : string) (file : option string)
| RunShell (command : string)
| LoadModule (name : string).

Definition readers : list string :=
  ["read_csv"; "read_file"; "read_table"; "read_excel"; "read_json";
   "read_pickle"; "read_parquet"; "read_feather"; "read_html"; "open";
   "load"; "loadtxt"; "genfromtxt"; "imread"].

Definition writers : list string :=
  ["savefig"; "to_csv"; "to_file"; "to_excel"; "to_json"; "to_pickle";
   "to_parquet"; "to_feather"; "to_html"; "save"; "savetxt"; "dump";
   "write"; "imsave"].

Definition is_url (p : string) : bool :=
  String.prefix "http://" p || String.prefix "https://" p.

Definition ends_with (suffix s : string) : bool :=
  String.prefix (String.rev suffix) (String.rev s).

Definition op_effects (o : op) : list effect :=
  if named readers o then
    match first_arg o with
    | Some p => if is_url p then [Fetch p] else [ReadLocal (Some p)]
    | None => [ReadLocal None]
    end
  else if named writers o then [WriteLocal (method_name o) (first_arg o)]
  else [].

Fixpoint stmt_effects (s : stmt) : list effect :=
  match s with
  | Assign _ os | Expr os => flat_map op_effects os
  | For _ it body => flat_map op_effects it ++ flat_map stmt_effects body
  | Comprehension _ it el => flat_map op_effects (it ++ el)
  | Try body handler =>
      flat_map stmt_effects body ++ flat_map stmt_effects handler
  | Import ms => map LoadModule ms
  | Shell cmd => [RunShell cmd]
  | Help _ | Invalid _ => []
  end.

Definition cell_effects (c : cell) : list effect := flat_map stmt_effects c.
Definition nb_effects (nb : notebook) : list effect :=
  flat_map (fun ic => cell_effects (snd ic)) (cells nb).

(** The files a notebook opens for reading (remote or local) and the files
    it creates. *)
Definition reads_of (e : effect) : list string :=
  match e with
  | Fetch u => [u]
  | ReadLocal (Some p) => [p]
  | _ => []
  end.

Definition writes_of (e : effect) : list string :=
  match e with
  | WriteLocal _ (Some p) => [p]
  | _ => []
  end.

Definition nb_reads (nb : notebook) : list string :=
  flat_map reads_of (nb_effects nb).
Definition nb_writes (nb : notebook) : list string :=
  flat_map writes_of (nb_effects nb).

(** The data effects the notebooks are said to have: a fetch from the
    course's GitHub URL, or a PNG written by [savefig]. *)
Definition data_host : string := "https://raw.githubusercontent.com/".

Definition remote_fetch (e : effect) : bool :=
  match e with
  | Fetch u => String.prefix data_host u
  | _ => false
  end.

Definition png_by_savefig (e : effect) : bool :=
  match e with
  | WriteLocal w (Some p) => String.eqb w "savefig" && ends_with ".png" p
  | _ => false
  end.

Definition loads_module (e : effect) : bool :=
  match e with LoadModule _ => true | _ => false end.

Definition pip_install (e : effect) : bool :=
  match e with
  | RunShell cmd => String.prefix "pip install " cmd
  | _ => false
  end.

(** An effect that puts something on the local disk: a writer call, or a
    shell command (pip downloads packages and installs them). *)
Definition touches_disk (e : effect) : bool :=
  match e with
  | WriteLocal _ _ | RunShell _ => true
  | _ => false
  end.

Definition reads_local (e : effect) : bool :=
  match e with ReadLocal _ => true | _ => false end.

(** *** Running the effects against a world

    A notebook starts in a fresh kernel, so what it computes is determined
    by its cells and by what its reads return.  [remote] is the content
    behind each URL, the disk is a finite map from file names to contents.
    A writer's output is some function [render] of the file name and of
    everything read so far.  A read of something that is not there raises
    and ends the run. *)

Section World.

Variable blob : Type.
Variable render : string -> list blob -> blob.

Record run_state : Type := RunState {
  seen : list blob;
  disk : gmap string blob;
  produced : list (string * blob)
}.

Definition do_effect (remote : string -> option blob) (e : effect)
  (r : run_state) : res run_state :=
  match e with
  | Fetch u =>
      match remote u with
      | Some b => Ok {| seen := seen r ++ [b]; disk := disk r;
                        produced := produced r |}
      | None => Raise (URLError u)
      end
  | ReadLocal (Some p) =>
      match disk r !! p with
      | Some b => Ok {| seen := seen r ++ [b]; disk := disk r;
                        produced := produced r |}
      | None => Raise (FileNotFoundError p)
      end
  | ReadLocal None => Raise TypeError
  | WriteLocal _ (Some p) =>
      let b := render p (seen r) in
      Ok {| seen := seen r; disk := <[p := b]> (disk r);
            produced := produced r ++ [(p, b)] |}
  | WriteLocal _ None => Raise TypeError
  | RunShell _ | LoadModule _ => Ok r
  end.

(** Effects in order; the state reached and, if a read failed, the
    exception that stopped the run. *)
Fixpoint do_effects (remote : string -> option blob) (es : list effect)
  (r : run_state) : run_state * option exn :=
  match es with
  | [] => (r, None)
  | e :: es' =>
      match do_effect remote e r with
      | Ok r' => do_effects remote es' r'
      | Raise x => (r, Some x)
      end
  end.

Definition start (d : gmap string blob) : run_state :=
  {| seen := []; disk := d; produced := [] |}.

Definition run_notebook (remote : string -> option blob) (nb : notebook)
  (d : gmap string blob) : run_state * option exn :=
  do_effects remote (nb_effects nb) (start d).

(** What a run shows and leaves behind: the data it read, the files it
    produced, and whether it was stopped. *)
Definition results (x : run_state * option exn)
  : list blob * list (string * blob) * option exn :=
  (seen (fst x), produced (fst x), snd x).

End World.

Arguments seen {blob} r.
Arguments disk {blob} r.
Arguments produced {blob} r.
Arguments do_effect {blob} render remote e r.
Arguments do_effects {blob} render remote es r.
Arguments start {blob} d.
Arguments run_notebook {blob} render remote nb d.
Arguments results {blob} x.

(** *** What a notebook does with data *)

Inductive activity : Type :=
| LoadTabular | LoadSpatial | MergeJoin | DescribeStats | Visualize | FitOLS.

Definition plotters : list string :=
  ["plot"; "boxplot"; "histplot"; "scatterplot"; "pairplot"; "heatmap";
   "regplot"; "countplot"; "barplot"; "lineplot"].

Definition statistics : list string :=
  ["describe"; "corr"; "mean"; "median"; "count"; "value_counts"].

Definition does (a : activity) (o : op) : bool :=
  third_party o &&
  match a with
  | LoadTabular => named ["read_csv"] o
  | LoadSpatial => named ["read_file"] o
  | MergeJoin => named ["merge"; "sjoin"] o
  | DescribeStats => named statistics o
  | Visualize => named plotters o
  | FitOLS => named ["OLS"] o
  end.

Definition performs (nb : notebook) (a : activity) : bool :=
  existsb (does a) (nb_ops nb).

(** The five activities of the course description: loading tabular and
    spatial data, merging or joining, descriptive statistics,
    visualization, and fitting a regression by ordinary least squares. *)
Definition performs_all_five (nb : notebook) : bool :=
  performs nb LoadTabular && performs nb LoadSpatial &&
  performs nb MergeJoin && performs nb DescribeStats &&
  performs nb Visualize && performs nb FitOLS.

(** *** Who computes

    A statement orchestrates when it calls into a third-party library, or
    when all it does is show a value ([print], [type], [len],
    [isinstance]) or bind literals.  A statement that computes with
    Python's own operators and built-ins only does neither. *)
Definition shows : list string := ["print"; "type"; "len"; "isinstance"].

Definition orchestrates_ops (os : list op) : bool :=
  existsb third_party os || forallb (named shows) os.

Definition orchestrates (s : stmt) : bool :=
  match s with
  | Assign _ os | Expr os => orchestrates_ops os
  | For _ it _ => orchestrates_ops it
  | Comprehension _ it el => orchestrates_ops (it ++ el)
  | Try _ _ | Import _ | Shell _ | Help _ | Invalid _ => true
  end.

Definition everything_orchestrated (nb : notebook) : bool :=
  forallb orchestrates (nb_stmts nb).

(** The computations the course is about, by the name of the call. *)
Definition ols_calls : list string := ["OLS"; "fit"; "add_constant"].
Definition spatial_predicates : list string := ["sjoin"; "within"; "intersects"].
Definition reprojections : list string := ["to_crs"].

Definition from_statsmodels (o : op) : bool :=
  match op_lib o with Statsmodels => true | _ => false end.
Definition from_geopandas (o : op) : bool :=
  match op_lib o with Geopandas => true | _ => false end.
Definition from_numpy (o : op) : bool :=
  match op_lib o with Numpy => true | _ => false end.

(** Each of those calls goes to the library that owns it. *)
Definition delegated (o : op) : bool :=
  implb (named ols_calls o) (from_statsmodels o) &&
  implb (named (spatial_predicates ++ reprojections) o) (from_geopandas o).

(** *** Packages

    The packages a [pip install] command names, and the package a module
    belongs to ([shapely.geometry] is in [shapely]). *)
Fixpoint split_on (sep : ascii) (s : string) : list string :=
  match s with
  | EmptyString => [EmptyString]
  | String c s' =>
      if Ascii.eqb c sep then EmptyString :: split_on sep s'
      else match split_on sep s' with
           | w :: ws => String c w :: ws
           | [] => [String c EmptyString]
           end
  end.

Definition pip_packages (command : string) : list string :=
  match split_on " " command with
  | "pip" :: "install" :: packages => packages
  | _ => []
  end.

Definition package_of (module_name : string) : string :=
  hd module_name (split_on "." module_name).

Definition installs (nb : notebook) : list string :=
  flat_map (fun e => match e with RunShell c => pip_packages c | _ => [] end)
           (nb_effects nb).

Definition imports (nb : notebook) : list string :=
  flat_map (fun e => match e with LoadModule m => [package_of m] | _ => [] end)
           (nb_effects nb).

(** Every package a notebook imports is installed by the notebook itself. *)
Definition self_contained (nb : notebook) : bool :=
  forallb (fun m => existsb (String.eqb m) (installs nb)) (imports nb).

(** *** The effects a notebook is allowed

    As the description of the external interfaces has it: data comes from
    the course's URLs, and the only thing written is a PNG by [savefig]
    (importing an installed module is neither). *)
Definition data_in_png_out (e : effect) : bool :=
  remote_fetch e || png_by_savefig e || loads_module e.

(** The same, with the installation of packages let through. *)
Definition data_in_png_out_or_pip (e : effect) : bool :=
  data_in_png_out e || pip_install e.

(** Calls that draw random numbers or start concurrent work, and the
    modules they come from. *)
Definition random_or_concurrent : list string :=
  ["random"; "rand"; "randn"; "randint"; "choice"; "shuffle"; "sample";
   "permutation"; "seed"; "default_rng"; "RandomState"; "Thread"; "Process";
   "Pool"; "ThreadPoolExecutor"; "ProcessPoolExecutor"; "submit";
   "create_task"; "gather"; "run_in_executor"].

Definition random_or_concurrent_modules : list string :=
  ["random"; "secrets"; "threading"; "multiprocessing"; "concurrent";
   "asyncio"].

Definition disjoint (xs ys : list string) : bool :=
  forallb (fun x => negb (existsb (String.eqb x) ys)) xs.

End Skeleton.

(** ** The four notebooks, cell by cell

    Each entry is a code cell: its position in the notebook's cell list
    (markdown cells are counted, so the numbers have gaps) and its
    statements.  A cell that holds only comments is empty. *)

Module Notebooks.
Import Skeleton.
Local Open Scope nat_scope.

(** modules/03-coding-bootcamp-i/lecture.ipynb *)
Definition cells03 : list (nat * cell) := [
  (5, [ Expr [Call Builtin "print" ["Hello World!"]] ]);
  (6, []);
  (9, [ Expr [Operator Builtin "+"] ]);
  (10, [ Expr [Operator Builtin "*"] ]);
  (11, [ Expr [Operator Builtin "*"] ]);
  (12, [ Expr [Operator Builtin "/"] ]);
  (13, [ Expr [Operator Builtin "**"] ]);
  (14, [ Expr [Operator Builtin "/"; Operator Builtin "**"] ]);
  (15, []);
  (17, [ Assign ["x"] [] ]);
  (18, [ Expr [] ]);
  (19, [ Expr [Operator Builtin "+"] ]);
  (20, [ Expr [] ]);
  (21, [ Assign ["x"] [Operator Builtin "+"] ]);
  (22, [ Expr [] ]);
  (23, [ Assign ["x"] [];
        Assign ["y"] [Operator Builtin "*"];
        Expr [] ]);
  (24, [ Expr [];
        Expr [] ]);
  (25, [ Expr [Call Builtin "print" []];
        Expr [Call Builtin "print" []] ]);
  (26, [ Expr [Call Builtin "print" []] ]);
  (27, [ Expr [Operator Builtin "*"; Call Builtin "print" []] ]);
  (28, []);
  (30, [ Help "len" ]);
  (31, [ Expr [] ]);
  (32, [ Assign ["number_of_students"] [] ]);
  (33, [ Expr [] ]);
  (34, [ Expr [Operator Builtin "/"] ]);
  (38, [ Expr [Call Builtin "type" []] ]);
  (39, [ Assign ["x"] [];
        Expr [Call Builtin "type" []] ]);
  (40, [ Expr [Call Builtin "isinstance" []] ]);
  (41, [ Assign ["some_rate"] [];
        Expr [Call Builtin "type" []] ]);
  (42, [ Expr [Call Builtin "isinstance" []] ]);
  (43, [ Assign ["some_rate"] [];
        Expr [Call Builtin "isinstance" []] ]);
  (44, [ Assign ["s"] [];
        Expr [Call Builtin "type" []] ]);
  (45, [ Assign ["my_list"] [];
        Expr [] ]);
  (46, [ Expr [Call Builtin "type" []] ]);
  (47, [ Assign ["person"] [];
        Expr [] ]);
  (48, [ Expr [Call Builtin "type" []] ]);
  (49, []);
  (51, [ Assign ["num1"] [];
        Assign ["num2"] [];
        Expr [Operator Builtin "/"] ]);
  (52, [ Assign ["num1"] [];
        Assign ["num2"] [];
        Expr [Operator Builtin "/"] ]);
  (53, [ Assign ["num1"] [];
        Expr [Call Builtin "type" []; Call Builtin "print" []];
        Assign ["num2"] [];
        Expr [Call Builtin "type" []; Call Builtin "print" []];
        Assign ["num3"] [Operator Builtin "/"];
        Expr [Call Builtin "type" []; Call Builtin "print" []];
        Expr [] ]);
  (55, [ Assign ["city"] [];
        Assign ["sep"] [];
        Assign ["state"] [];
        Assign ["zip_code"] [];
        Assign ["location"] [Operator Builtin "+"; Operator Builtin "+"; Operator Builtin "+"; Operator Builtin "+"];
        Expr [Call Builtin "print" []] ]);
  (56, [ Invalid "zip_code = 02115" ]);
  (57, [ Assign ["zip_code"] [] ]);
  (58, [ Expr [Operator Builtin "*"] ]);
  (59, [ Expr [Call Builtin "print" []];
        Expr [] ]);
  (60, [ Expr [Call Builtin "print" []];
        Expr [Call Builtin "print" []];
        Expr [Call Builtin "print" []] ]);
  (61, [ Expr [Call Builtin "len" []] ]);
  (62, [ Expr [] ]);
  (63, [ Expr [] ]);
  (64, [ Expr [] ]);
  (65, [ Expr [] ]);
  (66, [ Expr [Call Builtin "location.replace" ["e"; "E"]] ]);
  (67, []);
  (69, [ Expr [] ]);
  (70, [ Expr [Call Builtin "type" []] ]);
  (71, [ Assign ["zip_code"] [Call Builtin "int" []];
        Expr [] ]);
  (72, [ Expr [Call Builtin "type" []] ]);
  (73, [ Expr [Operator Builtin "*"] ]);
  (74, [ Assign ["x"] [];
        Expr [Operator Builtin "*"; Call Builtin "print" []];
        Assign ["y"] [Call Builtin "str" []];
        Expr [Operator Builtin "*"; Call Builtin "print" []] ]);
  (75, [ Assign ["rent_str"] [];
        Assign ["rent_int"] [Call Builtin "int" []] ]);
  (76, [ Assign ["rent_int"] [Call Builtin "float" []; Call Builtin "int" []];
        Expr [] ]);
  (77, [ Assign ["city"] [];
        Assign ["zip_code"] [];
        Expr [Operator Builtin "+"] ]);
  (78, [ Expr [Call Builtin "str" []; Operator Builtin "+"] ]);
  (79, []);
  (81, [ Assign ["my_tuple"] [];
        Expr [] ]);
  (82, [ Expr [Call Builtin "sum" []] ]);
  (83, [ Expr [Call Builtin "set" []] ]);
  (84, [ Assign ["my_list"] [] ]);
  (85, [ Expr [Call Builtin "len" []] ]);
  (86, [ Expr [] ]);
  (87, [ Assign ["my_list[2]"] [];
        Expr [] ]);
  (88, [ Expr [Call Builtin "my_list.append" ["hello"]];
        Expr [] ]);
  (89, [ Expr [Operator Builtin "+"] ]);
  (91, [ Assign ["int_list"] [] ]);
  (92, [ Expr [Call Builtin "len" []] ]);
  (93, [ Expr [] ]);
  (94, [ Expr [Call Builtin "type" []] ]);
  (95, [ Expr [Call Builtin "str" []] ]);
  (96, [ Expr [Call Builtin "str" []; Call Builtin "type" []] ]);
  (97, [ Assign ["str_list"] [] ]);
  (98, [ Expr [Call Builtin "str" []; Call Builtin "str_list.append" []] ]);
  (99, [ Expr [] ]);
  (100, [ Expr [Call Builtin "str" []; Call Builtin "str_list.append" []];
         Expr [Call Builtin "str" []; Call Builtin "str_list.append" []];
         Expr [Call Builtin "str" []; Call Builtin "str_list.append" []];
         Expr [Call Builtin "str" []; Call Builtin "str_list.append" []] ]);
  (101, [ Expr [] ]);
  (102, [ Expr [] ]);
  (103, [ Assign ["new_list"] [];
         For "value" [] [Expr [Call Builtin "str" []; Call Builtin "new_list.append" []]];
         Expr [] ]);
  (104, [ Comprehension "value" [] [Call Builtin "str" []] ]);
  (105, []);
  (106, []);
  (108, [ Assign ["antonyms"] [];
         Expr [] ]);
  (109, [ Expr [] ]);
  (110, [ Assign ["antonyms['hot']"] [];
         Expr [] ]);
  (111, [ Expr [Call Builtin "antonyms.keys" []] ]);
  (112, [ Expr [Call Builtin "antonyms.values" []] ]);
  (113, [ Expr [Call Builtin "antonyms.items" []] ]);
  (116, [])
].

(** modules/06-data-visualization/lecture.ipynb *)
Definition cells06 : list (nat * cell) := [
  (1, [ Shell "pip install numpy pandas seaborn" ]);
  (2, [ Import ["numpy"];
       Import ["pandas"];
       Import ["seaborn"] ]);
  (4, [ Assign ["df"] [Call Pandas "pd.read_csv" ["https://raw.githubusercontent.com/gboeing/ppd534/main/data/census_tracts_data_ca.csv"]];
       Expr [] ]);
  (5, [ Expr [] ]);
  (6, [ Assign ["df"] [Call Pandas "df.set_index" ["GEOID10"]];
       Expr [Call Pandas "df.head" []] ]);
  (8, [ Assign ["socal_counties"] [];
       Assign ["mask"] [Call Pandas "df['county_name'].isin" []];
       Assign ["df_sc"] [];
       Expr [] ]);
  (9, [ Expr [Call Pandas "df_sc['med_household_income'].describe" []] ]);
  (10, [ Expr [Call Pandas "df_sc.groupby" ["county_name"]; Call Pandas "df_sc.groupby('county_name')['med_household_income'].describe" []; Call Pandas "df_sc.groupby('county_name')['med_household_income'].describe().astype" []] ]);
  (12, [ Assign ["ax"] [Call Seaborn "sns.boxplot" []] ]);
  (14, [ Expr [Call Builtin "type" []] ]);
  (15, [ Assign ["fig"] [Call Matplotlib "ax.get_figure" []];
        Expr [Call Builtin "type" []] ]);
  (16, [ Assign ["fig"] [Call Matplotlib "ax.get_figure" []];
        Expr [Call Matplotlib "fig.set_size_inches" []];
        Expr [] ]);
  (18, [ Expr [Call Seaborn "sns.set_style" ["whitegrid"]];
        Expr [Call Seaborn "sns.set_context" ["paper"]];
        Assign ["ax"] [Call Seaborn "sns.boxplot" []];
        Expr [Call Matplotlib "ax.set_xlim" []];
        Expr [Call Matplotlib "ax.set_title" ["Box plot of tract-level median household income"]];
        Expr [Call Matplotlib "ax.set_xlabel" ["2017 inflation-adjusted USD"]];
        Expr [Call Matplotlib "ax.set_ylabel" [EmptyString]];
        Expr [Call Matplotlib "ax.get_figure" []; Call Matplotlib "ax.get_figure().savefig" ["figure-income-boxplot.png"; "tight"]] ]);
  (19, []);
  (21, [ Assign ["ax"] [Call Pandas "df['median_age'].dropna" []; Call Seaborn "sns.histplot" ["density"]] ]);
  (22, [ Assign ["ax"] [Call Pandas "df['median_age'].dropna" []; Call Seaborn "sns.histplot" ["density"]] ]);
  (24, [ Assign ["df_wht"] [Operator Pandas ">"];
        Assign ["df_hsp"] [Operator Pandas ">"] ]);
  (25, [ Assign ["ax"] [Call Pandas "df_wht['median_age'].dropna" []; Call Seaborn "sns.histplot" ["density"]];
        Assign ["ax"] [Call Pandas "df_hsp['median_age'].dropna" []; Call Seaborn "sns.histplot" ["density"; "orange"]] ]);
  (26, [ Assign ["ax"] [Call Pandas "df_wht['median_age'].dropna" []; Call Seaborn "sns.histplot" ["density"; "Majority White Tracts"]];
        Assign ["ax"] [Call Pandas "df_hsp['median_age'].dropna" []; Call Seaborn "sns.histplot" ["density"; "Majority Hispanic Tracts"; "orange"]];
        Expr [Call Matplotlib "ax.legend" []];
        Expr [Call Matplotlib "ax.set_xlim" []];
        Expr [Call Matplotlib "ax.set_xlabel" ["Median Age of Population (Years)"]];
        Expr [Call Matplotlib "ax.get_figure" []; Call Matplotlib "ax.get_figure().savefig" ["figure-age-distributions.png"; "tight"]] ]);
  (28, []);
  (30, [ Assign ["ax"] [Call Seaborn "sns.scatterplot" []] ]);
  (31, [ Assign ["counties"] [];
        Assign ["df_counties"] [Call Pandas "df['county_name'].isin" []];
        Assign ["ax"] [Call Seaborn "sns.scatterplot" []] ]);
  (32, [ Assign ["counties"] [];
        Assign ["df_counties"] [Call Pandas "df['county_name'].isin" []];
        Assign ["ax"] [Call Seaborn "sns.scatterplot" []];
        Assign ["handles"; "labels"] [Call Matplotlib "ax.get_legend_handles_labels" []];
        Expr [Call Matplotlib "ax.legend" []];
        Expr [Call Matplotlib "ax.set_xlim" []];
        Expr [Call Matplotlib "ax.set_ylim" []];
        Expr [Call Matplotlib "ax.set_xlabel" ["Tract population % with bachelor's degree or higher"]];
        Expr [Call Matplotlib "ax.set_ylabel" ["Tract median household income (2017 USD)"]];
        Expr [Call Matplotlib "ax.get_figure" []; Call Matplotlib "ax.get_figure().savefig" ["figure-income-degree.png"; "tight"]] ]);
  (33, []);
  (35, [ Assign ["df_sf"] [Operator Pandas "=="];
        Assign ["df_sf"] [];
        Expr [Call Pandas "df_sf.head" []] ]);
  (36, [ Assign ["ax"] [Call Pandas "df_sf.dropna" []; Call Seaborn "sns.pairplot" []] ]);
  (38, [ Assign ["correlations"] [Call Pandas "df_sf.corr" []];
        Expr [Call Pandas "correlations.round" []] ]);
  (39, [ Assign ["ax"] [Call Seaborn "sns.heatmap" ["coolwarm"]] ]);
  (40, [ Assign ["ax"] [Call Seaborn "sns.regplot" []];
        Expr [Call Matplotlib "ax.get_figure" []; Call Matplotlib "ax.get_figure().set_size_inches" []] ]);
  (42, [ Assign ["counts"] [Call Pandas "df_sc['county_name'].value_counts" []; Call Pandas "df_sc['county_name'].value_counts().sort_index" []];
        Expr [] ]);
  (43, [ Assign ["ax"] [Call Seaborn "sns.countplot" []] ]);
  (44, [ Assign ["order"] [Call Pandas "df_sc['county_name'].value_counts" []];
        Assign ["ax"] [Call Seaborn "sns.countplot" []];
        Expr [Call Matplotlib "ax.get_xticklabels" []; Call Matplotlib "ax.set_xticklabels" ["right"]];
        Expr [Call Matplotlib "ax.set_xlabel" ["Counties in Southern California"]];
        Expr [Call Matplotlib "ax.set_ylabel" ["Number of census tracts"]];
        Expr [Call Matplotlib "ax.get_figure" []; Call Matplotlib "ax.get_figure().savefig" ["county-tracts-countplot.png"; "tight"]] ]);
  (45, [ Assign ["ax"] [Call Seaborn "sns.barplot" []] ]);
  (46, [ Assign ["order"] [Call Pandas "df_sc.groupby" ["county_name"]; Call Pandas "df_sc.groupby('county_name')['med_household_income'].median" []; Call Pandas "df_sc.groupby('county_name')['med_household_income'].median().sort_values" []];
        Assign ["ax"] [Call Seaborn "sns.barplot" ["plasma"]] ]);
  (48, [ Assign ["df_gdp"] [Call Pandas "pd.read_csv" ["https://raw.githubusercontent.com/gboeing/ppd534/main/data/gdp.csv"]; Call Pandas "pd.read_csv('https://raw.githubusercontent.com/gboeing/ppd534/main/data/gdp.csv').set_index" ["year"]];
        Expr [] ]);
  (49, [ Expr [Call Pandas "df_gdp.tail" []] ]);
  (50, [ Assign ["ax"] [Call Seaborn "sns.lineplot" []] ]);
  (51, [ Assign ["ax"] [Call Seaborn "sns.lineplot" []] ]);
  (52, [ Assign ["ax"] [Call Seaborn "sns.lineplot" []] ]);
  (53, [ Assign ["ax"] [Call Seaborn "sns.lineplot" []];
        Expr [Call Matplotlib "ax.set_xlim" []];
        Expr [Call Matplotlib "ax.set_ylim" []];
        Expr [Call Matplotlib "ax.set_xlabel" [EmptyString]];
        Expr [Call Matplotlib "ax.set_ylabel" ["Real GDP per capita (2011 USD)"]];
        Expr [Call Matplotlib "ax.set_title" ["Per capita GDP, 1900-1950"]];
        Expr [Call Matplotlib "ax.get_figure" []; Call Matplotlib "ax.get_figure().savefig" ["country-gdp-lineplot.png"; "tight"]] ]);
  (54, []);
  (56, [ Expr [Call Seaborn "sns.color_palette" []; Call Seaborn "sns.palplot" []] ]);
  (57, [ Expr [Call Seaborn "sns.color_palette" ["Blues"]; Call Seaborn "sns.palplot" []] ]);
  (58, [ Expr [Call Seaborn "sns.color_palette" ["plasma"]; Call Seaborn "sns.palplot" []] ]);
  (59, []);
  (60, [])
].

(** modules/07-spatial-data/lecture.ipynb *)
Definition cells07 : list (nat * cell) := [
  (1, [ Shell "pip install geopandas mapclassify pandas shapely" ]);
  (2, [ Import ["geopandas"];
       Import ["pandas"];
       Import ["shapely.geometry"] ]);
  (5, [ Assign ["gdf"] [Call Geopandas "gpd.read_file" ["https://raw.githubusercontent.com/gboeing/ppd534/main/data/tl_2017_06_tract/tl_2017_06_tract.shp"]];
       Expr [] ]);
  (6, [ Expr [Call Geopandas "gdf.head" []] ]);
  (7, [ Assign ["ax"] [Call Geopandas "gdf.plot" []] ]);
  (8, [ Assign ["counties"] [];
       Assign ["gdf_tracts"] [Call Geopandas "gdf['COUNTYFP'].isin" []];
       Expr [] ]);
  (9, [ Expr [] ]);
  (11, [ Assign ["df"] [Call Pandas "pd.read_csv" ["https://raw.githubusercontent.com/gboeing/ppd534/main/data/listings-la_oc_vc.csv"]];
        Expr [] ]);
  (12, [ Expr [Call Pandas "df.head" []] ]);
  (14, [ Assign ["gdf_listings"] [Call Geopandas "gpd.GeoDataFrame" []];
        Expr [] ]);
  (15, [ Assign ["geometry"] [Call Geopandas "gpd.points_from_xy" []];
        Assign ["gdf_listings['geometry']"] [];
        Assign ["gdf_listings.crs"] [];
        Expr [] ]);
  (16, [ Expr [Call Geopandas "gdf_listings.head" []] ]);
  (17, [ Expr [] ]);
  (19, [ Expr [Operator Pyproj "=="] ]);
  (20, [ Assign ["gdf_tracts"] [Call Geopandas "gdf_tracts.to_crs" []];
        Expr [Operator Pyproj "=="] ]);
  (24, [ Assign ["unified_listings"] [];
        Expr [Call Builtin "type" []] ]);
  (25, [ Expr [] ]);
  (26, [ Assign ["mask"] [Call Geopandas "gdf_tracts.intersects" []];
        Expr [] ]);
  (27, [ Expr [Operator Pandas "~"] ]);
  (29, [ Expr [Call Geopandas "gdf_tracts.head" []] ]);
  (30, [ Assign ["gdf_counties"] [Call Geopandas "gdf_tracts.dissolve" ["COUNTYFP"; "sum"]];
        Expr [] ]);
  (31, [ Assign ["ax"] [Call Geopandas "gdf_counties.plot" ["plasma"]] ]);
  (33, [ Assign ["oc_geometry"] [];
        Expr [Call Builtin "type" []] ]);
  (34, [ Expr [] ]);
  (35, [ Assign ["mask"] [Call Geopandas "gdf_listings.within" []];
        Assign ["oc_listings"] [];
        Expr [] ]);
  (37, [ Assign ["ax"] [Call Geopandas "oc_listings.plot" []] ]);
  (38, [ Expr [Call Geopandas "oc_listings.head" []] ]);
  (39, [ Assign ["oc_listings_buffered"] [Call Geopandas "oc_listings.buffer" []];
        Expr [Call Geopandas "oc_listings_buffered.head" []] ]);
  (40, [ Assign ["ax"] [Call Geopandas "oc_listings_buffered.plot" ["k"]] ]);
  (42, [ Assign ["ax"] [Call Geopandas "gdf_tracts.plot" []];
        Assign ["ax"] [Call Geopandas "gdf_listings.plot" ["r"]] ]);
  (43, [ Assign ["usa_crs"] [];
        Assign ["gdf_tracts"] [Call Geopandas "gdf_tracts.to_crs" []];
        Assign ["gdf_listings"] [Call Geopandas "gdf_listings.to_crs" []] ]);
  (44, [ Assign ["ax"] [Call Geopandas "gdf_tracts.plot" []];
        Assign ["ax"] [Call Geopandas "gdf_listings.plot" ["r"]] ]);
  (45, [ Assign ["utm_11"] [];
        Assign ["gdf_tracts"] [Call Geopandas "gdf_tracts.to_crs" []];
        Assign ["gdf_listings"] [Call Geopandas "gdf_listings.to_crs" []] ]);
  (46, [ Assign ["ax"] [Call Geopandas "gdf_tracts.plot" []];
        Assign ["ax"] [Call Geopandas "gdf_listings.plot" ["r"]] ]);
  (47, [ Assign ["ax"] [Call Geopandas "gdf_tracts.plot" []];
        Assign ["ax"] [Call Geopandas "gdf_listings.buffer" []; Call Geopandas "gdf_listings.buffer(5000).plot" ["r"]] ]);
  (50, [ Assign ["tract_indicators"] [Call Pandas "pd.read_csv" ["https://raw.githubusercontent.com/gboeing/ppd534/main/data/census_tracts_data_ca.csv"]];
        Expr [] ]);
  (51, [ Expr [Call Pandas "tract_indicators.head" []] ]);
  (52, [ Expr [Call Geopandas "gdf_tracts.head" []] ]);
  (53, [ Assign ["gdf_tracts_ind"] [Call Pandas "pd.merge" ["left"; "GEOID"; "GEOID10"]];
        Expr [Call Geopandas "gdf_tracts_ind.head" []] ]);
  (54, [ Expr [] ]);
  (56, [ Expr [Operator Pyproj "=="] ]);
  (57, [ Assign ["gdf_counties"] [Call Geopandas "gdf_counties.to_crs" []];
        Expr [Operator Pyproj "=="] ]);
  (58, [ Assign ["gdf_listings_counties"] [Call Geopandas "gpd.sjoin" ["left"; "within"]];
        Expr [] ]);
  (59, [ Expr [Call Geopandas "gdf_listings_counties.head" []] ]);
  (60, [ Assign ["gdf_listings_counties"] [Call Geopandas "gdf_listings_counties.rename" []];
        Expr [Call Geopandas "gdf_listings_counties.head" []] ]);
  (61, [ Assign ["groups"] [Call Geopandas "gdf_listings_counties.groupby" ["county"]] ]);
  (62, [ Expr [Call Pandas "groups['rent'].median" []; Call Pandas "groups['rent'].median().sort_values" []] ]);
  (63, [ Expr [Call Pandas "groups['bedrooms'].mean" []; Call Pandas "groups['bedrooms'].mean().sort_values" []] ]);
  (64, [ Expr [Call Pandas "groups['geometry'].count" []; Call Pandas "groups['geometry'].count().sort_values" []] ]);
  (65, [ Assign ["oc_listings"] [Operator Geopandas "=="];
        Expr [] ]);
  (67, [ Assign ["oc_tracts_ind"] [Operator Geopandas "=="];
        Expr [Call Geopandas "oc_tracts_ind.head" []] ]);
  (68, [ Assign ["oc_tracts_ind"] [Operator Geopandas ">"] ]);
  (69, [ Assign ["ax"] [Call Geopandas "oc_tracts_ind.plot" ["med_household_income"; "plasma"; "k"]];
        Expr [Call Matplotlib "ax.axis" ["off"]];
        Expr [Call Matplotlib "ax.get_figure" []; Call Matplotlib "ax.get_figure().savefig" ["oc-income.png"; "tight"]] ]);
  (70, [ Assign ["ax"] [Call Geopandas "oc_tracts_ind.plot" ["pct_english_only"; "plasma"; "k"]];
        Expr [Call Matplotlib "ax.axis" ["off"]];
        Expr [Call Matplotlib "ax.get_figure" []; Call Matplotlib "ax.get_figure().savefig" ["oc-language.png"; "tight"]] ]);
  (71, [ Assign ["ax"] [Call Geopandas "oc_tracts_ind.plot" ["#aaaaaa"; "w"]];
        Assign ["ax"] [Call Geopandas "oc_listings.dropna" []; Call Geopandas "oc_listings.dropna().plot" ["plasma"; "rent"; "Quantiles"]];
        Expr [Call Matplotlib "ax.axis" ["off"]];
        Expr [Call Matplotlib "ax.set_title" ["Apartment Listings in Orange County by Asking Rent (USD)"]];
        Expr [Call Matplotlib "ax.get_figure" []; Call Matplotlib "ax.get_figure().savefig" ["oc-listings.png"; "tight"]] ]);
  (72, [])
].

(** modules/12-statistical-models/lecture.ipynb *)
Definition cells12 : list (nat * cell) := [
  (1, [ Shell "pip install geopandas numpy pandas seaborn statsmodels" ]);
  (2, [ Import ["geopandas"];
       Import ["numpy"];
       Import ["pandas"];
       Import ["seaborn"];
       Import ["statsmodels.api"] ]);
  (4, [ Assign ["gdf_tracts"] [Call Geopandas "gpd.read_file" ["https://raw.githubusercontent.com/gboeing/ppd534/main/data/tl_2017_06_tract/tl_2017_06_tract.shp"]];
       Expr [] ]);
  (5, [ Assign ["df_tracts"] [Call Pandas "pd.read_csv" ["https://raw.githubusercontent.com/gboeing/ppd534/main/data/census_tracts_data_ca.csv"]];
       Expr [] ]);
  (6, [ Assign ["gdf_tracts_data"] [Call Pandas "pd.merge" ["GEOID"; "GEOID10"; "left"]];
       Expr [] ]);
  (8, [ Assign ["df_listings"] [Call Pandas "pd.read_csv" ["https://raw.githubusercontent.com/gboeing/ppd534/main/data/listings-la_oc_vc.csv"]];
       Assign ["df_listings['geometry']"] [Call Geopandas "gpd.points_from_xy" []];
       Assign ["gdf_listings"] [Call Geopandas "gpd.GeoDataFrame" ["epsg:4326"]];
       Expr [] ]);
  (9, [ Expr [Operator Pyproj "=="] ]);
  (10, [ Assign ["gdf_listings"] [Call Geopandas "gdf_listings.to_crs" []] ]);
  (11, [ Assign ["gdf"] [Call Geopandas "gpd.sjoin" ["inner"; "within"]];
        Expr [] ]);
  (12, [ Expr [] ]);
  (14, [ Assign ["response"] [];
        Assign ["predictor"] [] ]);
  (15, [ Assign ["data"] [Call Geopandas "gdf[[response, predictor]].dropna" []];
        Expr [Call Builtin "print" []];
        Assign ["X"] [];
        Assign ["y"] [] ]);
  (16, [ Assign ["model"] [Call Statsmodels "sm.add_constant" []; Call Statsmodels "sm.OLS" []];
        Assign ["result"] [Call Statsmodels "model.fit" []];
        Expr [Call Statsmodels "result.summary" []; Call Builtin "print" []] ]);
  (18, [ Assign ["ax"] [Call Seaborn "sns.regplot" []] ]);
  (20, [ Assign ["response"] [];
        Assign ["predictors"] [];
        Assign ["data"] [Operator Builtin "+"; Call Geopandas "gdf[[response] + predictors].dropna" []];
        Assign ["X"] [];
        Assign ["y"] [];
        Assign ["model"] [Call Statsmodels "sm.add_constant" []; Call Statsmodels "sm.OLS" []];
        Assign ["result"] [Call Statsmodels "model.fit" []];
        Expr [Call Statsmodels "result.summary" []; Call Builtin "print" []] ]);
  (22, [ Assign ["response"] [];
        Assign ["predictors"] [];
        Assign ["data"] [Operator Builtin "+"; Call Geopandas "gdf[[response] + predictors].dropna" []];
        Assign ["X"] [];
        Assign ["y"] [];
        Assign ["model"] [Call Statsmodels "sm.add_constant" []; Call Statsmodels "sm.OLS" []];
        Assign ["result"] [Call Statsmodels "model.fit" []];
        Expr [Call Statsmodels "result.summary" []; Call Builtin "print" []] ]);
  (23, []);
  (25, [ Assign ["gdf['majority_white']"] [Operator Geopandas ">"; Call Geopandas "(gdf['pct_white'] > 50).astype" []] ]);
  (26, [ Assign ["response"] [];
        Assign ["predictors"] [];
        Assign ["data"] [Operator Builtin "+"; Call Geopandas "gdf[[response] + predictors].dropna" []];
        Assign ["X"] [];
        Assign ["y"] [];
        Assign ["model"] [Call Statsmodels "sm.add_constant" []; Call Statsmodels "sm.OLS" []];
        Assign ["result"] [Call Statsmodels "model.fit" []];
        Expr [Call Statsmodels "result.summary" []; Call Builtin "print" []] ]);
  (28, [ Assign ["variables"] [];
        Assign ["correlations"] [Call Geopandas "gdf[variables].corr" []; Call Geopandas "gdf[variables].corr().round" []];
        Expr [] ]);
  (29, [ Assign ["ax"] [Call Seaborn "sns.heatmap" ["coolwarm"]] ]);
  (30, [ Assign ["grid"] [Call Geopandas "gdf[variables].dropna" []; Call Seaborn "sns.pairplot" ["."]] ]);
  (31, [ Assign ["gdf['rent_log']"] [Call Numpy "np.log" []] ]);
  (32, [ Assign ["variables"] [];
        Assign ["correlations"] [Call Geopandas "gdf[variables].corr" []; Call Geopandas "gdf[variables].corr().round" []];
        Expr [] ]);
  (33, [ Assign ["response"] [];
        Assign ["predictors"] [];
        Assign ["data"] [Operator Builtin "+"; Call Geopandas "gdf[[response] + predictors].dropna" []];
        Assign ["X"] [];
        Assign ["y"] [];
        Assign ["model"] [Call Statsmodels "sm.add_constant" []; Call Statsmodels "sm.OLS" []];
        Assign ["result"] [Call Statsmodels "model.fit" []];
        Expr [Call Statsmodels "result.summary" []; Call Builtin "print" []] ])
].


Definition nb03 : notebook :=
  {| path := "modules/03-coding-bootcamp-i/lecture.ipynb"; cells := cells03 |}.
Definition nb06 : notebook :=
  {| path := "modules/06-data-visualization/lecture.ipynb"; cells := cells06 |}.
Definition nb07 : notebook :=
  {| path := "modules/07-spatial-data/lecture.ipynb"; cells := cells07 |}.
Definition nb12 : notebook :=
  {| path := "modules/12-statistical-models/lecture.ipynb"; cells := cells12 |}.

Definition all : list notebook := [nb03; nb06; nb07; nb12].

(** The code cell at a position of a notebook. *)
Definition cell_at (nb : notebook) (i : nat) : cell :=
  match List.find (fun ic => Nat.eqb (fst ic) i) (cells nb) with
  | Some ic => snd ic
  | None => []
  end.

(** The notebooks that import a library. *)
Definition data_notebooks : list notebook := [nb06; nb07; nb12].

End Notebooks.


(** ** The names each statement reads and binds *)

Module Names.

(** One statement of a cell: the names it reads, in the order Python
    evaluates them, and the names it binds.  A name read inside a
    comprehension that the comprehension binds for itself is not a read of
    the statement; a [for] is the statement of its header (it reads the
    iterable and binds the target) followed by the statements of its body;
    an [import] binds the names it imports.  A line for IPython ([!pip
    ...], [len?]) reads and binds nothing, and a cell that is not Python
    (cell 56 of module 03) has no statement. *)
Record use : Type := Use {
  reads : list string;
  binds : list string
}.

(** The built-in functions the notebooks call. *)
Definition builtins : list string :=
  ["float"; "int"; "isinstance"; "len"; "print"; "set"; "str"; "sum"; "type"].

Definition known (bound : list string) (x : string) : bool :=
  existsb (String.eqb x) bound.

(** The reads of the statements [us] of cell [i] that no earlier statement
    has bound, and the names bound after the last of them. *)
Fixpoint scan_cell (i : nat) (bound : list string) (us : list use)
  : list (nat * string) * list string :=
  match us with
  | [] => ([], bound)
  | u :: us' =>
      let missing := List.filter (fun x => negb (known bound x)) (reads u) in
      let r := scan_cell i (binds u ++ bound)%list us' in
      ((map (pair i) missing ++ fst r)%list, snd r)
  end.

Fixpoint scan_cells (bound : list string) (cells : list (nat * list use))
  : list (nat * string) :=
  match cells with
  | [] => []
  | (i, us) :: rest =>
      let r := scan_cell i bound us in
      (fst r ++ scan_cells (snd r) rest)%list
  end.

(** The reads of a notebook, cell by cell from the top, of a name that is
    neither built in nor bound by then. *)
Definition unbound (cells : list (nat * list use)) : list (nat * string) :=
  scan_cells builtins cells.

(** The statements of a notebook in the order they run. *)
Definition statements (cells : list (nat * list use)) : list use :=
  flat_map snd cells.

(** Every name a statement reads is built in or bound by a statement
    before it. *)
Definition bound_before_read (cells : list (nat * list use)) : Prop :=
  forall pre u post, statements cells = (pre ++ u :: post)%list ->
    forall x, In x (reads u) ->
      In x builtins \/ exists w, In w pre /\ In x (binds w).

Local Open Scope nat_scope.

Definition uses03 : list (nat * list use) :=
  [
    (5, [Use ["print"] []]);
    (9, [Use [] []]);
    (10, [Use [] []]);
    (11, [Use [] []]);
    (12, [Use [] []]);
    (13, [Use [] []]);
    (14, [Use [] []]);
    (17, [Use [] ["x"]]);
    (18, [Use ["x"] []]);
    (19, [Use ["x"] []]);
    (20, [Use ["x"] []]);
    (21, [Use ["x"] ["x"]]);
    (22, [Use ["x"] []]);
    (23, [Use [] ["x"];
        Use ["x"] ["y"];
        Use ["y"] []]);
    (24, [Use ["x"] [];
        Use ["y"] []]);
    (25, [Use ["print"; "x"] [];
        Use ["print"; "y"] []]);
    (26, [Use ["print"; "x"; "y"] []]);
    (27, [Use ["print"; "x"; "y"] []]);
    (31, [Use ["prin"] []]);
    (32, [Use [] ["number_of_students"]]);
    (33, [Use ["numbe"] []]);
    (34, [Use [] []]);
    (38, [Use ["type"] []]);
    (39, [Use [] ["x"];
        Use ["type"; "x"] []]);
    (40, [Use ["isinstance"; "x"; "int"] []]);
    (41, [Use [] ["some_rate"];
        Use ["type"; "some_rate"] []]);
    (42, [Use ["isinstance"; "some_rate"; "int"] []]);
    (43, [Use [] ["some_rate"];
        Use ["isinstance"; "some_rate"; "int"] []]);
    (44, [Use [] ["s"];
        Use ["type"; "s"] []]);
    (45, [Use [] ["my_list"];
        Use ["my_list"] []]);
    (46, [Use ["type"; "my_list"] []]);
    (47, [Use [] ["person"];
        Use ["person"] []]);
    (48, [Use ["type"; "person"] []]);
    (51, [Use [] ["num1"];
        Use [] ["num2"];
        Use ["num1"; "num2"] []]);
    (52, [Use [] ["num1"];
        Use [] ["num2"];
        Use ["num1"; "num2"] []]);
    (53, [Use [] ["num1"];
        Use ["print"; "type"; "num1"] [];
        Use [] ["num2"];
        Use ["print"; "type"; "num2"] [];
        Use ["num1"; "num2"] ["num3"];
        Use ["print"; "type"; "num3"] [];
        Use ["num3"] []]);
    (55, [Use [] ["city"];
        Use [] ["sep"];
        Use [] ["state"];
        Use [] ["zip_code"];
        Use ["city"; "sep"; "state"; "zip_code"] ["location"];
        Use ["print"; "location"] []]);
    (56, []);
    (57, [Use [] ["zip_code"]]);
    (58, [Use ["zip_code"] []]);
    (59, [Use ["print"; "location"] [];
        Use ["location"] []]);
    (60, [Use ["print"; "location"] [];
        Use ["print"; "location"] [];
        Use ["print"; "location"] []]);
    (61, [Use ["len"; "location"] []]);
    (62, [Use ["location"] []]);
    (63, [Use ["location"] []]);
    (64, [Use ["location"] []]);
    (65, [Use ["location"] []]);
    (66, [Use ["location"] []]);
    (69, [Use ["zip_code"] []]);
    (70, [Use ["type"; "zip_code"] []]);
    (71, [Use ["int"; "zip_code"] ["zip_code"];
        Use ["zip_code"] []]);
    (72, [Use ["type"; "zip_code"] []]);
    (73, [Use ["zip_code"] []]);
    (74, [Use [] ["x"];
        Use ["print"; "x"] [];
        Use ["str"; "x"] ["y"];
        Use ["print"; "y"] []]);
    (75, [Use [] ["rent_str"];
        Use ["int"; "rent_str"] ["rent_int"]]);
    (76, [Use ["int"; "float"; "rent_str"] ["rent_int"];
        Use ["rent_int"] []]);
    (77, [Use [] ["city"];
        Use [] ["zip_code"];
        Use ["city"; "zip_code"] []]);
    (78, [Use ["city"; "str"; "zip_code"] []]);
    (81, [Use [] ["my_tuple"];
        Use ["my_tuple"] []]);
    (82, [Use ["sum"; "my_tuple"] []]);
    (83, [Use ["set"; "my_tuple"] []]);
    (84, [Use [] ["my_list"]]);
    (85, [Use ["len"; "my_list"] []]);
    (86, [Use ["my_list"] []]);
    (87, [Use ["my_list"] [];
        Use ["my_list"] []]);
    (88, [Use ["my_list"] [];
        Use ["my_list"] []]);
    (89, [Use [] []]);
    (91, [Use [] ["int_list"]]);
    (92, [Use ["len"; "int_list"] []]);
    (93, [Use ["int_list"] []]);
    (94, [Use ["type"; "int_list"] []]);
    (95, [Use ["str"; "int_list"] []]);
    (96, [Use ["type"; "str"; "int_list"] []]);
    (97, [Use [] ["str_list"]]);
    (98, [Use ["str_list"; "str"; "int_list"] []]);
    (99, [Use ["str_list"] []]);
    (100, [Use ["str_list"; "str"; "int_list"] [];
        Use ["str_list"; "str"; "int_list"] [];
        Use ["str_list"; "str"; "int_list"] [];
        Use ["str_list"; "str"; "int_list"] []]);
    (101, [Use ["str_list"] []]);
    (102, [Use ["int_list"] []]);
    (103, [Use [] ["new_list"];
        Use ["int_list"] ["value"];
        Use ["new_list"; "str"; "value"] [];
        Use ["new_list"] []]);
    (104, [Use ["int_list"; "str"] []]);
    (108, [Use [] ["antonyms"];
        Use ["antonyms"] []]);
    (109, [Use ["antonyms"] []]);
    (110, [Use ["antonyms"] [];
        Use ["antonyms"] []]);
    (111, [Use ["antonyms"] []]);
    (112, [Use ["antonyms"] []]);
    (113, [Use ["antonyms"] []])
  ].

Definition uses06 : list (nat * list use) :=
  [
    (2, [Use [] ["np"];
        Use [] ["pd"];
        Use [] ["sns"]]);
    (4, [Use ["pd"; "str"] ["df"];
        Use ["df"] []]);
    (5, [Use ["df"] []]);
    (6, [Use ["df"] ["df"];
        Use ["df"] []]);
    (8, [Use [] ["socal_counties"];
        Use ["df"; "socal_counties"] ["mask"];
        Use ["df"; "mask"] ["df_sc"];
        Use ["df_sc"] []]);
    (9, [Use ["df_sc"] []]);
    (10, [Use ["df_sc"; "int"] []]);
    (12, [Use ["sns"; "df_sc"] ["ax"]]);
    (14, [Use ["type"; "ax"] []]);
    (15, [Use ["ax"] ["fig"];
        Use ["type"; "fig"] []]);
    (16, [Use ["ax"] ["fig"];
        Use ["fig"] [];
        Use ["fig"] []]);
    (18, [Use ["sns"] [];
        Use ["sns"] [];
        Use ["sns"; "df_sc"] ["ax"];
        Use ["ax"] [];
        Use ["ax"] [];
        Use ["ax"] [];
        Use ["ax"] [];
        Use ["ax"] []]);
    (21, [Use ["sns"; "df"] ["ax"]]);
    (22, [Use ["sns"; "df"] ["ax"]]);
    (24, [Use ["df"] ["df_wht"];
        Use ["df"] ["df_hsp"]]);
    (25, [Use ["sns"; "df_wht"] ["ax"];
        Use ["sns"; "df_hsp"] ["ax"]]);
    (26, [Use ["sns"; "df_wht"] ["ax"];
        Use ["sns"; "df_hsp"] ["ax"];
        Use ["ax"] [];
        Use ["ax"] [];
        Use ["ax"] [];
        Use ["ax"] []]);
    (30, [Use ["sns"; "df"] ["ax"]]);
    (31, [Use [] ["counties"];
        Use ["df"; "counties"] ["df_counties"];
        Use ["sns"; "df_counties"] ["ax"]]);
    (32, [Use [] ["counties"];
        Use ["df"; "counties"] ["df_counties"];
        Use ["sns"; "df_counties"] ["ax"];
        Use ["ax"] ["handles"; "labels"];
        Use ["ax"; "handles"; "labels"] [];
        Use ["ax"] [];
        Use ["ax"] [];
        Use ["ax"] [];
        Use ["ax"] [];
        Use ["ax"] []]);
    (35, [Use ["df"] ["df_sf"];
        Use ["df_sf"] ["df_sf"];
        Use ["df_sf"] []]);
    (36, [Use ["sns"; "df_sf"] ["ax"]]);
    (38, [Use ["df_sf"] ["correlations"];
        Use ["correlations"] []]);
    (39, [Use ["sns"; "correlations"] ["ax"]]);
    (40, [Use ["sns"; "df_sf"] ["ax"];
        Use ["ax"] []]);
    (42, [Use ["df_sc"] ["counts"];
        Use ["counts"] []]);
    (43, [Use ["sns"; "df_sc"] ["ax"]]);
    (44, [Use ["df_sc"] ["order"];
        Use ["sns"; "df_sc"; "order"] ["ax"];
        Use ["ax"] [];
        Use ["ax"] [];
        Use ["ax"] [];
        Use ["ax"] []]);
    (45, [Use ["sns"; "df_sc"] ["ax"]]);
    (46, [Use ["df_sc"] ["order"];
        Use ["sns"; "df_sc"; "np"; "order"] ["ax"]]);
    (48, [Use ["pd"] ["df_gdp"];
        Use ["df_gdp"] []]);
    (49, [Use ["df_gdp"] []]);
    (50, [Use ["sns"; "df_gdp"] ["ax"]]);
    (51, [Use ["sns"; "df_gdp"] ["ax"]]);
    (52, [Use ["sns"; "df_gdp"] ["ax"]]);
    (53, [Use ["sns"; "df_gdp"] ["ax"];
        Use ["ax"] [];
        Use ["ax"] [];
        Use ["ax"] [];
        Use ["ax"] [];
        Use ["ax"] [];
        Use ["ax"] []]);
    (56, [Use ["sns"] []]);
    (57, [Use ["sns"] []]);
    (58, [Use ["sns"] []])
  ].

Definition uses07 : list (nat * list use) :=
  [
    (2, [Use [] ["gpd"];
        Use [] ["pd"];
        Use [] ["Point"]]);
    (5, [Use ["gpd"] ["gdf"];
        Use ["gdf"] []]);
    (6, [Use ["gdf"] []]);
    (7, [Use ["gdf"] ["ax"]]);
    (8, [Use [] ["counties"];
        Use ["gdf"; "counties"] ["gdf_tracts"];
        Use ["gdf_tracts"] []]);
    (9, [Use ["gdf_tracts"] []]);
    (11, [Use ["pd"] ["df"];
        Use ["df"] []]);
    (12, [Use ["df"] []]);
    (14, [Use ["gpd"; "df"] ["gdf_listings"];
        Use ["gdf_listings"] []]);
    (15, [Use ["gpd"; "gdf_listings"] ["geometry"];
        Use ["geometry"; "gdf_listings"] [];
        Use ["gdf_listings"] [];
        Use ["gdf_listings"] []]);
    (16, [Use ["gdf_listings"] []]);
    (17, [Use ["gdf_listings"] []]);
    (19, [Use ["gdf_tracts"; "gdf_listings"] []]);
    (20, [Use ["gdf_tracts"; "gdf_listings"] ["gdf_tracts"];
        Use ["gdf_tracts"; "gdf_listings"] []]);
    (24, [Use ["gdf_listings"] ["unified_listings"];
        Use ["type"; "unified_listings"] []]);
    (25, [Use ["unified_listings"] []]);
    (26, [Use ["gdf_tracts"; "unified_listings"] ["mask"];
        Use ["gdf_tracts"; "mask"] []]);
    (27, [Use ["gdf_tracts"; "mask"] []]);
    (29, [Use ["gdf_tracts"] []]);
    (30, [Use ["gdf_tracts"] ["gdf_counties"];
        Use ["gdf_counties"] []]);
    (31, [Use ["gdf_counties"] ["ax"]]);
    (33, [Use ["gdf_counties"] ["oc_geometry"];
        Use ["type"; "oc_geometry"] []]);
    (34, [Use ["oc_geometry"] []]);
    (35, [Use ["gdf_listings"; "oc_geometry"] ["mask"];
        Use ["gdf_listings"; "mask"] ["oc_listings"];
        Use ["oc_listings"] []]);
    (37, [Use ["oc_listings"] ["ax"]]);
    (38, [Use ["oc_listings"] []]);
    (39, [Use ["oc_listings"] ["oc_listings_buffered"];
        Use ["oc_listings_buffered"] []]);
    (40, [Use ["oc_listings_buffered"] ["ax"]]);
    (42, [Use ["gdf_tracts"] ["ax"];
        Use ["gdf_listings"; "ax"] ["ax"]]);
    (43, [Use [] ["usa_crs"];
        Use ["gdf_tracts"; "usa_crs"] ["gdf_tracts"];
        Use ["gdf_listings"; "usa_crs"] ["gdf_listings"]]);
    (44, [Use ["gdf_tracts"] ["ax"];
        Use ["gdf_listings"; "ax"] ["ax"]]);
    (45, [Use [] ["utm_11"];
        Use ["gdf_tracts"; "utm_11"] ["gdf_tracts"];
        Use ["gdf_listings"; "utm_11"] ["gdf_listings"]]);
    (46, [Use ["gdf_tracts"] ["ax"];
        Use ["gdf_listings"; "ax"] ["ax"]]);
    (47, [Use ["gdf_tracts"] ["ax"];
        Use ["gdf_listings"; "ax"] ["ax"]]);
    (50, [Use ["pd"; "str"] ["tract_indicators"];
        Use ["tract_indicators"] []]);
    (51, [Use ["tract_indicators"] []]);
    (52, [Use ["gdf_tracts"] []]);
    (53, [Use ["pd"; "gdf_tracts"; "tract_indicators"] ["gdf_tracts_ind"];
        Use ["gdf_tracts_ind"] []]);
    (54, [Use ["gdf_tracts_ind"] []]);
    (56, [Use ["gdf_listings"; "gdf_counties"] []]);
    (57, [Use ["gdf_counties"; "gdf_listings"] ["gdf_counties"];
        Use ["gdf_listings"; "gdf_counties"] []]);
    (58, [Use ["gpd"; "gdf_listings"; "gdf_counties"] ["gdf_listings_counties"];
        Use ["gdf_listings_counties"] []]);
    (59, [Use ["gdf_listings_counties"] []]);
    (60, [Use ["gdf_listings_counties"] ["gdf_listings_counties"];
        Use ["gdf_listings_counties"] []]);
    (61, [Use ["gdf_listings_counties"] ["groups"]]);
    (62, [Use ["groups"] []]);
    (63, [Use ["groups"] []]);
    (64, [Use ["groups"] []]);
    (65, [Use ["gdf_listings_counties"] ["oc_listings"];
        Use ["oc_listings"] []]);
    (67, [Use ["gdf_tracts_ind"] ["oc_tracts_ind"];
        Use ["oc_tracts_ind"] []]);
    (68, [Use ["oc_tracts_ind"] ["oc_tracts_ind"]]);
    (69, [Use ["oc_tracts_ind"] ["ax"];
        Use ["ax"] [];
        Use ["ax"] []]);
    (70, [Use ["oc_tracts_ind"] ["ax"];
        Use ["ax"] [];
        Use ["ax"] []]);
    (71, [Use ["oc_tracts_ind"] ["ax"];
        Use ["oc_listings"; "ax"] ["ax"];
        Use ["ax"] [];
        Use ["ax"] [];
        Use ["ax"] []])
  ].

Definition uses12 : list (nat * list use) :=
  [
    (2, [Use [] ["gpd"];
        Use [] ["np"];
        Use [] ["pd"];
        Use [] ["sns"];
        Use [] ["sm"]]);
    (4, [Use ["gpd"] ["gdf_tracts"];
        Use ["gdf_tracts"] []]);
    (5, [Use ["pd"; "str"] ["df_tracts"];
        Use ["df_tracts"] []]);
    (6, [Use ["pd"; "gdf_tracts"; "df_tracts"] ["gdf_tracts_data"];
        Use ["gdf_tracts_data"] []]);
    (8, [Use ["pd"] ["df_listings"];
        Use ["gpd"; "df_listings"] [];
        Use ["gpd"; "df_listings"] ["gdf_listings"];
        Use ["gdf_listings"] []]);
    (9, [Use ["gdf_tracts_data"; "gdf_listings"] []]);
    (10, [Use ["gdf_listings"; "gdf_tracts_data"] ["gdf_listings"]]);
    (11, [Use ["gpd"; "gdf_listings"; "gdf_tracts_data"] ["gdf"];
        Use ["gdf"] []]);
    (12, [Use ["gdf"] []]);
    (14, [Use [] ["response"];
        Use [] ["predictor"]]);
    (15, [Use ["gdf"; "response"; "predictor"] ["data"];
        Use ["print"; "data"] [];
        Use ["data"; "predictor"] ["X"];
        Use ["data"; "response"] ["y"]]);
    (16, [Use ["sm"; "y"; "X"] ["model"];
        Use ["model"] ["result"];
        Use ["print"; "result"] []]);
    (18, [Use ["sns"; "X"; "y"] ["ax"]]);
    (20, [Use [] ["response"];
        Use [] ["predictors"];
        Use ["gdf"; "response"; "predictors"] ["data"];
        Use ["data"; "predictors"] ["X"];
        Use ["data"; "response"] ["y"];
        Use ["sm"; "y"; "X"] ["model"];
        Use ["model"] ["result"];
        Use ["print"; "result"] []]);
    (22, [Use [] ["response"];
        Use [] ["predictors"];
        Use ["gdf"; "response"; "predictors"] ["data"];
        Use ["data"; "predictors"] ["X"];
        Use ["data"; "response"] ["y"];
        Use ["sm"; "y"; "X"] ["model"];
        Use ["model"] ["result"];
        Use ["print"; "result"] []]);
    (25, [Use ["gdf"; "int"] []]);
    (26, [Use [] ["response"];
        Use [] ["predictors"];
        Use ["gdf"; "response"; "predictors"] ["data"];
        Use ["data"; "predictors"] ["X"];
        Use ["data"; "response"] ["y"];
        Use ["sm"; "y"; "X"] ["model"];
        Use ["model"] ["result"];
        Use ["print"; "result"] []]);
    (28, [Use [] ["variables"];
        Use ["gdf"; "variables"] ["correlations"];
        Use ["correlations"] []]);
    (29, [Use ["sns"; "correlations"] ["ax"]]);
    (30, [Use ["sns"; "gdf"; "variables"] ["grid"]]);
    (31, [Use ["np"; "gdf"] []]);
    (32, [Use [] ["variables"];
        Use ["gdf"; "variables"] ["correlations"];
        Use ["correlations"] []]);
    (33, [Use [] ["response"];
        Use [] ["predictors"];
        Use ["gdf"; "response"; "predictors"] ["data"];
        Use ["data"; "predictors"] ["X"];
        Use ["data"; "response"] ["y"];
        Use ["sm"; "y"; "X"] ["model"];
        Use ["model"] ["result"];
        Use ["print"; "result"] []])
  ].

End Names.

(** ** Frames: the tabular values the notebooks pass around *)

Module Frames.

(** One cell of a table.  Numbers read from a CSV are binary64 floats or
    ints; a missing entry is NaN (or None in an object column); a geometry
    is carried as its well-known text. *)
Inductive value : Type :=
| VFloat (f : spec_float)
| VInt (n : Z)
| VBool (b : bool)
| VStr (s : string)
| VGeom (wkt : string)
| VNone.

(** pandas' [isna]. *)
Definition isnull (v : value) : bool :=
  match v with
  | VFloat S754_nan | VNone => true
  | _ => false
  end.

(** A DataFrame: the column labels in order and the rows, each row a map
    from label to cell. *)
Record DataFrame : Type := Frame {
  columns : list string;
  rows : list (gmap string value)
}.

Definition cell_of (c : string) (r : gmap string value) : value :=
  default VNone (r !! c).

Definition has_column (df : DataFrame) (c : string) : bool :=
  existsb (String.eqb c) (columns df).

Definition nrows (df : DataFrame) : nat := length (rows df).

(** [df[c]]: the column as a Series, KeyError if there is no such label. *)
Definition column (df : DataFrame) (c : string) : res (list value) :=
  if has_column df c then Ok (map (cell_of c) (rows df))
  else Raise (KeyError c).

Definition restrict (cs : list string) (r : gmap string value)
  : gmap string value :=
  list_to_map (map (fun c => (c, cell_of c r)) cs).

(** [df[[c1, ..., cn]]]: the frame of those columns, KeyError at the first
    label that is missing. *)
Definition select (df : DataFrame) (cs : list string) : res DataFrame :=
  match List.find (fun c => negb (has_column df c)) cs with
  | Some c => Raise (KeyError c)
  | None => Ok {| columns := cs; rows := map (restrict cs) (rows df) |}
  end.

Definition complete (cs : list string) (r : gmap string value) : bool :=
  forallb (fun c => negb (isnull (cell_of c r))) cs.

(** [df.dropna()]: the rows without a null in any column. *)
Definition dropna (df : DataFrame) : DataFrame :=
  {| columns := columns df;
     rows := List.filter (complete (columns df)) (rows df) |}.

(** [df[c] = series]: replaces the column or appends it; the series must
    have one entry per row. *)
Definition assign (df : DataFrame) (c : string) (vs : list value)
  : res DataFrame :=
  if Nat.eqb (length vs) (nrows df) then
    Ok {| columns := if has_column df c then columns df else columns df ++ [c];
          rows := zip_with (fun r v => <[c := v]> r) (rows df) vs |}
  else Raise ValueError.

(** [df[df[c].isin(labels)]] *)
Definition is_in (labels : list string) (v : value) : bool :=
  match v with
  | VStr s => existsb (String.eqb s) labels
  | _ => false
  end.

Definition rows_isin (df : DataFrame) (c : string) (labels : list string)
  : res DataFrame :=
  if has_column df c then
    Ok {| columns := columns df;
          rows := List.filter (fun r => is_in labels (cell_of c r)) (rows df) |}
  else Raise (KeyError c).

(** The binary64 number 50. *)
Definition fifty : spec_float := S754_finite false 7036874417766400 (-47).

(** [v > 50] for one cell: IEEE comparison for a float (false for NaN),
    integer comparison for an int, TypeError for anything that is not a
    number. *)
Definition gt_50 (v : value) : res bool :=
  match v with
  | VFloat f => Ok (SFltb fifty f)
  | VInt n => Ok (Z.ltb 50 n)
  | VBool b => Ok false
  | VStr _ | VGeom _ | VNone => Raise TypeError
  end.

Fixpoint each {A B : Type} (f : A -> res B) (l : list A) : res (list B) :=
  match l with
  | [] => Ok []
  | a :: l' => b <- f a ;; bs <- each f l' ;; Ok (b :: bs)
  end.

(** [series.astype(int)] on a boolean Series. *)
Definition bool_to_int (b : bool) : value := VInt (if b then 1 else 0).

(** A GeoDataFrame: a frame with a geometry column and the CRS its
    coordinates are in, if one is set. *)
Record GeoDataFrame (CRS : Type) : Type := Geo {
  crs : option CRS;
  frame : DataFrame
}.
Arguments Geo {CRS} crs frame.
Arguments crs {CRS} g.
Arguments frame {CRS} g.

(** The arguments of [sm.OLS(endog, exog)]. *)
Record OLS : Type := Model {
  endog : list value;
  exog : DataFrame
}.

(** The libraries behind the calls, and the data behind the URLs. *)
Class Library : Type := {
  CRS : Type;
  from_user_input : string -> CRS;
  read_csv : string -> res DataFrame;
  read_file : string -> res (GeoDataFrame CRS);
  point : value -> value -> value;
  transform : CRS -> CRS -> value -> value;
  dissolve : string -> string -> DataFrame -> res DataFrame;
  merge : DataFrame -> DataFrame -> string -> string -> string -> res DataFrame;
  spatial_join : DataFrame -> DataFrame -> string -> string -> res DataFrame;
  add_constant : DataFrame -> DataFrame;
  np_log : value -> value;
  Results : Type;
  fit : OLS -> Results
}.

Section WithLibrary.
Context `{L : Library}.

(** [gpd.points_from_xy(x=df[x], y=df[y])] *)
Definition points_from_xy (df : DataFrame) (x y : string) : res (list value) :=
  xs <- column df x ;;
  ys <- column df y ;;
  Ok (zip_with point xs ys).

(** [gdf.to_crs(target)]: refuses a frame without a CRS and a missing
    target; the result carries the target CRS. *)
Definition to_crs (g : GeoDataFrame CRS) (target : option CRS)
  : res (GeoDataFrame CRS) :=
  match crs g, target with
  | None, _ => Raise ValueError
  | Some _, None => Raise ValueError
  | Some c, Some t =>
      Ok {| crs := Some t;
            frame := {| columns := columns (frame g);
                        rows := map (alter (transform c t) "geometry")
                                    (rows (frame g)) |} |}
  end.

(** [gpd.sjoin(left, right, how=..., op=...)].  The join does not compare
    the two CRSs (geopandas only warns when they differ); the result keeps
    the left frame's. *)
Definition sjoin (left right : GeoDataFrame CRS) (how op : string)
  : res (GeoDataFrame CRS) :=
  d <- spatial_join (frame left) (frame right) how op ;;
  Ok {| crs := crs left; frame := d |}.

(** [pd.merge(left=gdf, right=df, ...)]: a GeoDataFrame on the left gives
    a GeoDataFrame with the same CRS. *)
Definition pd_merge (left : GeoDataFrame CRS) (right : DataFrame)
  (left_on right_on how : string) : res (GeoDataFrame CRS) :=
  d <- merge (frame left) right left_on right_on how ;;
  Ok {| crs := crs left; frame := d |}.

(** What a name of the kernel can be bound to. *)
Inductive pyval : Type :=
| PStr (s : string)
| PStrs (l : list string)
| PSeries (name : option string) (s : list value)
| PFrame (d : DataFrame)
| PGeo (g : GeoDataFrame CRS)
| PModel (m : OLS)
| PResult (r : Results).

(** Reading a name: NameError if it is unbound, TypeError if the value is
    not of the kind the operation needs. *)
Definition get_str (k : gmap string pyval) (x : string) : res string :=
  match k !! x with
  | Some (PStr s) => Ok s
  | Some _ => Raise TypeError
  | None => Raise (NameError x)
  end.

Definition get_strs (k : gmap string pyval) (x : string) : res (list string) :=
  match k !! x with
  | Some (PStrs l) => Ok l
  | Some _ => Raise TypeError
  | None => Raise (NameError x)
  end.

Definition get_series (k : gmap string pyval) (x : string) : res (list value) :=
  match k !! x with
  | Some (PSeries _ s) => Ok s
  | Some _ => Raise TypeError
  | None => Raise (NameError x)
  end.

Definition get_frame (k : gmap string pyval) (x : string) : res DataFrame :=
  match k !! x with
  | Some (PFrame d) => Ok d
  | Some (PGeo g) => Ok (frame g)
  | Some _ => Raise TypeError
  | None => Raise (NameError x)
  end.

Definition get_geo (k : gmap string pyval) (x : string)
  : res (GeoDataFrame CRS) :=
  match k !! x with
  | Some (PGeo g) => Ok g
  | Some _ => Raise TypeError
  | None => Raise (NameError x)
  end.

(** A frame where a frame is needed: a named Series counts as the frame of
    its one column ([pd.DataFrame(series)]). *)
Definition get_table (k : gmap string pyval) (x : string) : res DataFrame :=
  match k !! x with
  | Some (PFrame d) => Ok d
  | Some (PGeo g) => Ok (frame g)
  | Some (PSeries (Some c) s) =>
      Ok {| columns := [c]; rows := map (fun v => {[c := v]}) s |}
  | Some _ => Raise TypeError
  | None => Raise (NameError x)
  end.

Definition get_model (k : gmap string pyval) (x : string) : res OLS :=
  match k !! x with
  | Some (PModel m) => Ok m
  | Some _ => Raise TypeError
  | None => Raise (NameError x)
  end.

End WithLibrary.

End Frames.

(** The three data files of the course. *)
Definition tracts_shp : string :=
  "https://raw.githubusercontent.com/gboeing/ppd534/main/data/tl_2017_06_tract/tl_2017_06_tract.shp".
Definition census_csv : string :=
  "https://raw.githubusercontent.com/gboeing/ppd534/main/data/census_tracts_data_ca.csv".
Definition listings_csv : string :=
  "https://raw.githubusercontent.com/gboeing/ppd534/main/data/listings-la_oc_vc.csv".

(** ** Module 07: the cells that bind the frames of the spatial join

    In this module and the next a cell is embedded by its bindings.  An
    expression that only shows a value (the [gdf.shape] that ends a cell, a
    [print(...)], the [crs == crs] comparison after a reprojection) reads
    names that the cell has just bound and binds nothing, and is left out. *)

Module Spatial.
Import Frames.

Section Cells.
Context `{L : Library}.

(** cell 5: [gdf = gpd.read_file(url)] *)
Definition cell_5 (k : gmap string pyval) : res (gmap string pyval) :=
  g <- read_file tracts_shp ;;
  Ok (<["gdf" := PGeo g]> k).

(** cell 8:
    [counties = ["037", "059", "111"]]
    [gdf_tracts = gdf[gdf["COUNTYFP"].isin(counties)]] *)
Definition cell_8 (k : gmap string pyval) : res (gmap string pyval) :=
  let k := <["counties" := PStrs ["037"; "059"; "111"]]> k in
  g <- get_geo k "gdf" ;;
  cs <- get_strs k "counties" ;;
  d <- rows_isin (frame g) "COUNTYFP" cs ;;
  Ok (<["gdf_tracts" := PGeo {| crs := crs g; frame := d |}]> k).

(** cell 11: [df = pd.read_csv(url)] *)
Definition cell_11 (k : gmap string pyval) : res (gmap string pyval) :=
  d <- read_csv listings_csv ;;
  Ok (<["df" := PFrame d]> k).

(** cell 14: [gdf_listings = gpd.GeoDataFrame(df)] *)
Definition cell_14 (k : gmap string pyval) : res (gmap string pyval) :=
  d <- get_frame k "df" ;;
  Ok (<["gdf_listings" := PGeo {| crs := None; frame := d |}]> k).

(** cell 15:
    [geometry = gpd.points_from_xy(x=gdf_listings["longitude"],
                                   y=gdf_listings["latitude"])]
    [gdf_listings["geometry"] = geometry]
    [gdf_listings.crs = "epsg:4326"] *)
Definition cell_15 (k : gmap string pyval) : res (gmap string pyval) :=
  g <- get_geo k "gdf_listings" ;;
  pts <- points_from_xy (frame g) "longitude" "latitude" ;;
  let k := <["geometry" := PSeries None pts]> k in
  g <- get_geo k "gdf_listings" ;;
  pts <- get_series k "geometry" ;;
  d <- assign (frame g) "geometry" pts ;;
  let k := <["gdf_listings" := PGeo {| crs := crs g; frame := d |}]> k in
  g <- get_geo k "gdf_listings" ;;
  Ok (<["gdf_listings" :=
          PGeo {| crs := Some (from_user_input "epsg:4326");
                  frame := frame g |}]> k).

(** cell 20: [gdf_tracts = gdf_tracts.to_crs(gdf_listings.crs)] *)
Definition cell_20 (k : gmap string pyval) : res (gmap string pyval) :=
  t <- get_geo k "gdf_tracts" ;;
  l <- get_geo k "gdf_listings" ;;
  t' <- to_crs t (crs l) ;;
  Ok (<["gdf_tracts" := PGeo t']> k).

(** cell 30: [gdf_counties = gdf_tracts.dissolve("COUNTYFP", aggfunc="sum")] *)
Definition cell_30 (k : gmap string pyval) : res (gmap string pyval) :=
  t <- get_geo k "gdf_tracts" ;;
  d <- dissolve "COUNTYFP" "sum" (frame t) ;;
  Ok (<["gdf_counties" := PGeo {| crs := crs t; frame := d |}]> k).

(** [name = literal; gdf_tracts = gdf_tracts.to_crs(name);
     gdf_listings = gdf_listings.to_crs(name)] *)
Definition project_both (name literal : string) (k : gmap string pyval)
  : res (gmap string pyval) :=
  let k := <[name := PStr literal]> k in
  t <- get_geo k "gdf_tracts" ;;
  c <- get_str k name ;;
  t' <- to_crs t (Some (from_user_input c)) ;;
  let k := <["gdf_tracts" := PGeo t']> k in
  l <- get_geo k "gdf_listings" ;;
  c <- get_str k name ;;
  l' <- to_crs l (Some (from_user_input c)) ;;
  Ok (<["gdf_listings" := PGeo l']> k).

(** cell 43: [usa_crs = "epsg:2163"], then both frames to it *)
Definition cell_43 (k : gmap string pyval) : res (gmap string pyval) :=
  project_both "usa_crs" "epsg:2163" k.

(** cell 45: [utm_11 = "+proj=utm +zone=11 ..."], then both frames to it *)
Definition utm_11 : string :=
  "+proj=utm +zone=11 +ellps=WGS84 +datum=WGS84 +units=m +no_defs".

Definition cell_45 (k : gmap string pyval) : res (gmap string pyval) :=
  project_both "utm_11" utm_11 k.

(** cell 57: [gdf_counties = gdf_counties.to_crs(gdf_listings.crs)] *)
Definition cell_57 (k : gmap string pyval) : res (gmap string pyval) :=
  c <- get_geo k "gdf_counties" ;;
  l <- get_geo k "gdf_listings" ;;
  c' <- to_crs c (crs l) ;;
  Ok (<["gdf_counties" := PGeo c']> k).

(** cell 58:
    [gdf_listings_counties = gpd.sjoin(gdf_listings, gdf_counties,
                                       how="left", op="within")]
    First the two arguments, then the call. *)
Definition join_arguments (k : gmap string pyval)
  : res (GeoDataFrame CRS * GeoDataFrame CRS) :=
  l <- get_geo k "gdf_listings" ;;
  c <- get_geo k "gdf_counties" ;;
  Ok (l, c).

Definition cell_58 (k : gmap string pyval) : res (gmap string pyval) :=
  a <- join_arguments k ;;
  j <- sjoin (fst a) (snd a) "left" "within" ;;
  Ok (<["gdf_listings_counties" := PGeo j]> k).

(** The cells above in notebook order, from a fresh kernel up to the join.
    The cells in between plot, show and bind other names. *)
Definition before_join : res (gmap string pyval) :=
  k <- cell_5 ∅ ;; k <- cell_8 k ;; k <- cell_11 k ;; k <- cell_14 k ;;
  k <- cell_15 k ;; k <- cell_20 k ;; k <- cell_30 k ;; k <- cell_43 k ;;
  k <- cell_45 k ;; cell_57 k.

(** The same run with cell 57 left out. *)
Definition before_join_unprojected : res (gmap string pyval) :=
  k <- cell_5 ∅ ;; k <- cell_8 k ;; k <- cell_11 k ;; k <- cell_14 k ;;
  k <- cell_15 k ;; k <- cell_20 k ;; k <- cell_30 k ;; k <- cell_43 k ;;
  cell_45 k.

End Cells.
End Spatial.

(** ** Module 12: the spatial join and the regression cells *)

Module Models.
Import Frames.

Section Cells.
Context `{L : Library}.

(** cell 4: [gdf_tracts = gpd.read_file(url)] *)
Definition cell_4 (k : gmap string pyval) : res (gmap string pyval) :=
  g <- read_file tracts_shp ;;
  Ok (<["gdf_tracts" := PGeo g]> k).

(** cell 5: [df_tracts = pd.read_csv(url, dtype=...)] *)
Definition cell_5 (k : gmap string pyval) : res (gmap string pyval) :=
  d <- read_csv census_csv ;;
  Ok (<["df_tracts" := PFrame d]> k).

(** cell 6: [gdf_tracts_data = pd.merge(left=gdf_tracts, right=df_tracts,
             left_on="GEOID", right_on="GEOID10", how="left")] *)
Definition cell_6 (k : gmap string pyval) : res (gmap string pyval) :=
  g <- get_geo k "gdf_tracts" ;;
  d <- get_frame k "df_tracts" ;;
  m <- pd_merge g d "GEOID" "GEOID10" "left" ;;
  Ok (<["gdf_tracts_data" := PGeo m]> k).

(** cell 8:
    [df_listings = pd.read_csv(url)]
    [df_listings["geometry"] = gpd.points_from_xy(x=df_listings["longitude"],
                                                  y=df_listings["latitude"])]
    [gdf_listings = gpd.GeoDataFrame(df_listings, crs="epsg:4326")] *)
Definition cell_8 (k : gmap string pyval) : res (gmap string pyval) :=
  d <- read_csv listings_csv ;;
  let k := <["df_listings" := PFrame d]> k in
  d <- get_frame k "df_listings" ;;
  pts <- points_from_xy d "longitude" "latitude" ;;
  d' <- assign d "geometry" pts ;;
  let k := <["df_listings" := PFrame d']> k in
  d <- get_frame k "df_listings" ;;
  Ok (<["gdf_listings" :=
          PGeo {| crs := Some (from_user_input "epsg:4326"); frame := d |}]> k).

(** cell 10: [gdf_listings = gdf_listings.to_crs(gdf_tracts_data.crs)] *)
Definition cell_10 (k : gmap string pyval) : res (gmap string pyval) :=
  l <- get_geo k "gdf_listings" ;;
  t <- get_geo k "gdf_tracts_data" ;;
  l' <- to_crs l (crs t) ;;
  Ok (<["gdf_listings" := PGeo l']> k).

(** cell 11: [gdf = gpd.sjoin(gdf_listings, gdf_tracts_data,
                              how="inner", op="within")] *)
Definition join_arguments (k : gmap string pyval)
  : res (GeoDataFrame CRS * GeoDataFrame CRS) :=
  l <- get_geo k "gdf_listings" ;;
  t <- get_geo k "gdf_tracts_data" ;;
  Ok (l, t).

Definition cell_11 (k : gmap string pyval) : res (gmap string pyval) :=
  a <- join_arguments k ;;
  j <- sjoin (fst a) (snd a) "inner" "within" ;;
  Ok (<["gdf" := PGeo j]> k).

Definition before_join : res (gmap string pyval) :=
  k <- cell_4 ∅ ;; k <- cell_5 k ;; k <- cell_6 k ;; k <- cell_8 k ;;
  cell_10 k.

(** cell 14: [response = "rent"; predictor = "sqft"] *)
Definition cell_14 (k : gmap string pyval) : res (gmap string pyval) :=
  Ok (<["predictor" := PStr "sqft"]> (<["response" := PStr "rent"]> k)).

(** cell 15:
    [data = gdf[[response, predictor]].dropna()]
    [X = data[predictor]]
    [y = data[response]] *)
Definition cell_15 (k : gmap string pyval) : res (gmap string pyval) :=
  gdf <- get_frame k "gdf" ;;
  r <- get_str k "response" ;;
  p <- get_str k "predictor" ;;
  sel <- select gdf [r; p] ;;
  let k := <["data" := PFrame (dropna sel)]> k in
  data <- get_frame k "data" ;;
  p <- get_str k "predictor" ;;
  x <- column data p ;;
  let k := <["X" := PSeries (Some p) x]> k in
  data <- get_frame k "data" ;;
  r <- get_str k "response" ;;
  y <- column data r ;;
  Ok (<["y" := PSeries (Some r) y]> k).

(** [model = sm.OLS(y, sm.add_constant(X))]
    [result = model.fit()] *)
Definition estimate (k : gmap string pyval) : res (gmap string pyval) :=
  y <- get_series k "y" ;;
  X <- get_table k "X" ;;
  let k := <["model" := PModel {| endog := y; exog := add_constant X |}]> k in
  m <- get_model k "model" ;;
  Ok (<["result" := PResult (fit m)]> k).

(** cell 16 *)
Definition cell_16 (k : gmap string pyval) : res (gmap string pyval) :=
  estimate k.

(** The cell the notebook repeats for each multiple regression:
    [response = ...; predictors = [...]]
    [data = gdf[[response] + predictors].dropna()]
    [X = data[predictors]]
    [y = data[response]]
    and then the two lines of [estimate]. *)
Definition regress (response : string) (predictors : list string)
  (k : gmap string pyval) : res (gmap string pyval) :=
  let k := <["response" := PStr response]> k in
  let k := <["predictors" := PStrs predictors]> k in
  gdf <- get_frame k "gdf" ;;
  r <- get_str k "response" ;;
  ps <- get_strs k "predictors" ;;
  sel <- select gdf ([r] ++ ps) ;;
  let k := <["data" := PFrame (dropna sel)]> k in
  data <- get_frame k "data" ;;
  ps <- get_strs k "predictors" ;;
  X <- select data ps ;;
  let k := <["X" := PFrame X]> k in
  data <- get_frame k "data" ;;
  r <- get_str k "response" ;;
  y <- column data r ;;
  let k := <["y" := PSeries (Some r) y]> k in
  estimate k.

(** cell 20 *)
Definition cell_20 (k : gmap string pyval) : res (gmap string pyval) :=
  regress "rent" ["bedrooms"; "sqft"] k.

(** cell 22 *)
Definition cell_22 (k : gmap string pyval) : res (gmap string pyval) :=
  regress "rent" ["bedrooms"; "sqft"; "med_home_value"; "mean_commute_time"] k.

(** A new column of a frame bound to [x], GeoDataFrame or not. *)
Definition set_column (k : gmap string pyval) (x c : string) (vs : list value)
  : res (gmap string pyval) :=
  match k !! x with
  | Some (PGeo g) =>
      d <- assign (frame g) c vs ;;
      Ok (<[x := PGeo {| crs := crs g; frame := d |}]> k)
  | Some (PFrame d) =>
      d' <- assign d c vs ;;
      Ok (<[x := PFrame d']> k)
  | Some _ => Raise TypeError
  | None => Raise (NameError x)
  end.

(** cell 25: [gdf["majority_white"] = (gdf["pct_white"] > 50).astype(int)] *)
Definition cell_25 (k : gmap string pyval) : res (gmap string pyval) :=
  gdf <- get_frame k "gdf" ;;
  pct <- column gdf "pct_white" ;;
  above <- each gt_50 pct ;;
  set_column k "gdf" "majority_white" (map bool_to_int above).

(** cell 26 *)
Definition cell_26 (k : gmap string pyval) : res (gmap string pyval) :=
  regress "rent"
    ["bedrooms"; "sqft"; "med_home_value"; "mean_commute_time";
     "majority_white"] k.

(** cell 31: [gdf["rent_log"] = np.log(gdf["rent"])] *)
Definition cell_31 (k : gmap string pyval) : res (gmap string pyval) :=
  gdf <- get_frame k "gdf" ;;
  rent <- column gdf "rent" ;;
  set_column k "gdf" "rent_log" (map np_log rent).

(** cell 33 *)
Definition cell_33 (k : gmap string pyval) : res (gmap string pyval) :=
  regress "rent_log"
    ["bedrooms"; "sqft"; "med_home_value"; "mean_commute_time"] k.

(** The five cells that fit a model, each with the response and the
    predictors it names. *)
Definition simple_fit (k : gmap string pyval) : res (gmap string pyval) :=
  k <- cell_14 k ;; k <- cell_15 k ;; cell_16 k.

Definition fits
  : list ((gmap string pyval -> res (gmap string pyval))
          * (string * list string)) :=
  [ (simple_fit, ("rent", ["sqft"]));
    (cell_20, ("rent", ["bedrooms"; "sqft"]));
    (cell_22, ("rent", ["bedrooms"; "sqft"; "med_home_value";
                        "mean_commute_time"]));
    (cell_26, ("rent", ["bedrooms"; "sqft"; "med_home_value";
                        "mean_commute_time"; "majority_white"]));
    (cell_33, ("rent_log", ["bedrooms"; "sqft"; "med_home_value";
                            "mean_commute_time"])) ].

End Cells.

(** The data handed to [sm.OLS(y, sm.add_constant(X))] is well posed for a
    frame [data] when [X] and [y] are the predictor columns and the
    response column of that one frame, so that they have a row each for
    every row of [data], and neither holds a null. *)
Definition no_nulls (cs : list string) (rs : list (gmap string value)) : Prop :=
  Forall (fun r => Forall (fun c => isnull (cell_of c r) = false) cs) rs.

Definition well_posed `{L : Library} (m : OLS) (response : string)
  (predictors : list string) (data X : DataFrame) : Prop :=
  select data predictors = Ok X /\
  exog m = add_constant X /\
  column data response = Ok (endog m) /\
  nrows X = nrows data /\
  length (endog m) = nrows data /\
  no_nulls predictors (rows X) /\
  Forall (fun v => isnull v = false) (endog m).

(** What [sm.add_constant] does to a frame [X] when it adds the constant: a
    first column [const] that is 1.0 in every row, before the columns of
    [X].  (statsmodels leaves a frame alone that already has a constant
    column; whether it does is the library's affair.) *)
Definition one : spec_float := S754_finite false 4503599627370496 (-52).

Definition adds_constant_to (add : DataFrame -> DataFrame) (X : DataFrame)
  : Prop :=
  columns (add X) = "const" :: columns X /\
  rows (add X) = map (fun r => <["const" := VFloat one]> r) (rows X).

Definition has_intercept (d : DataFrame) : Prop :=
  has_column d "const" = true /\
  Forall (fun r => cell_of "const" r = VFloat one) (rows d).

(** One fitting cell, with the response and the predictors it names: the
    cell runs when [gdf] has those columns; [data] is the selection of
    those columns of [gdf] without the rows that have a null; what is
    handed to [sm.OLS] is well posed for [data]; and where [add_constant]
    adds its column, the design matrix has the constant column and a row
    for each entry of [y]. *)
Definition fit_is_well_posed `{L : Library}
  (cell : gmap string pyval -> res (gmap string pyval))
  (response : string) (predictors : list string) : Prop :=
  forall k : gmap string pyval,
    (forall gdf, get_frame k "gdf" = Ok gdf ->
       forallb (has_column gdf) (response :: predictors) = true ->
       exists k', cell k = Ok k') /\
    (forall k', cell k = Ok k' ->
       exists gdf sel X m,
         get_frame k "gdf" = Ok gdf /\
         select gdf (response :: predictors) = Ok sel /\
         k' !! "data" = Some (PFrame (dropna sel)) /\
         k' !! "model" = Some (PModel m) /\
         well_posed m response predictors (dropna sel) X /\
         (adds_constant_to add_constant X ->
            has_intercept (exog m) /\ nrows (exog m) = length (endog m))).

(** A row of the frame after cell 25 is the row before with the dummy set
    from its [pct_white]. *)
Definition dummy_of (r r' : gmap string value) : Prop :=
  exists b : bool,
    gt_50 (cell_of "pct_white" r) = Ok b /\
    r' = <["majority_white" := VInt (if b then 1 else 0)]> r.

End Models.


(** ** Modules 06 and 07: boolean masks and the subsets they select *)

Module Subsets.
Import Frames.

(** The binary64 number 0. *)
Definition zero : spec_float := S754_zero false.

(** [v > 0] for one cell, as [gt_50] is [v > 50]. *)
Definition gt_0 (v : value) : res bool :=
  match v with
  | VFloat f => Ok (SFltb zero f)
  | VInt n => Ok (Z.ltb 0 n)
  | VBool b => Ok b
  | VStr _ | VGeom _ | VNone => Raise TypeError
  end.

(** [v == s] for a string [s]: no cell that is not that string equals it. *)
Definition eq_str (s : string) (v : value) : bool :=
  match v with
  | VStr t => String.eqb t s
  | _ => false
  end.

(** Whether the cell of column [c] is a number above 50. *)
Definition above_50 (c : string) (r : gmap string value) : bool :=
  match gt_50 (cell_of c r) with
  | Ok true => true
  | _ => false
  end.

Definition above_0 (c : string) (r : gmap string value) : bool :=
  match gt_0 (cell_of c r) with
  | Ok true => true
  | _ => false
  end.

(** Whether a cell is the int 1. *)
Definition is_one (v : value) : bool :=
  match v with
  | VInt 1 => true
  | _ => false
  end.

(** The rows of [l] at the positions where [mask] is True. *)
Fixpoint pick {A : Type} (mask : list bool) (l : list A) : list A :=
  match mask, l with
  | b :: mask', a :: l' => if b then a :: pick mask' l' else pick mask' l'
  | _, _ => []
  end.

(** [df[mask]] for a boolean Series with one entry per row of [df]
    (pandas refuses a mask that does not line up with the rows). *)
Definition keep (df : DataFrame) (mask : list bool) : res DataFrame :=
  if Nat.eqb (length mask) (nrows df)
  then Ok {| columns := columns df; rows := pick mask (rows df) |}
  else Raise ValueError.

(** [~mask] *)
Definition invert (mask : list bool) : list bool := map negb mask.

(** [df.rename(columns={old: new})]: the label [old] becomes [new] in the
    columns and in every row; a frame without the label [old] is returned
    as it is.  (The frames of these notebooks have no two columns of one
    name; [new] is not a label of the frame renamed.) *)
Definition rename_label (old new c : string) : string :=
  if String.eqb c old then new else c.

Definition rename_row (old new : string) (r : gmap string value)
  : gmap string value :=
  <[new := cell_of old r]> (delete old r).

Definition rename (df : DataFrame) (old new : string) : DataFrame :=
  if has_column df old
  then {| columns := map (rename_label old new) (columns df);
          rows := map (rename_row old new) (rows df) |}
  else df.

(** [df.set_index(c)]: the column [c] becomes the row labels and is no
    longer a column; KeyError when no column has that label.  (The row
    labels are not part of a [DataFrame] here.) *)
Definition set_index (df : DataFrame) (c : string) : res DataFrame :=
  if has_column df c
  then Ok {| columns := List.filter (fun x => negb (String.eqb x c))
                                    (columns df);
             rows := map (delete c) (rows df) |}
  else Raise (KeyError c).

(** [df.shape] *)
Definition shape (df : DataFrame) : nat * nat :=
  (nrows df, length (columns df)).

(** The geometry operations of shapely that the masks of module 07 are
    computed with. *)
Class Geometry : Type := {
  unary_union : list value -> value;
  intersects : value -> value -> bool;
  within : value -> value -> bool
}.

Section WithLibrary.
Context `{L : Library} `{G : Geometry}.

(** What the names of these cells are bound to: the values of [pyval], a
    boolean mask, or one geometry. *)
Inductive binding : Type :=
| Py (v : pyval)
| Mask (m : list bool)
| Shape (g : value).

Abbreviation kernel := (gmap string binding) (only parsing).

Definition get_py (k : kernel) (x : string) : res pyval :=
  match k !! x with
  | Some (Py v) => Ok v
  | Some _ => Raise TypeError
  | None => Raise (NameError x)
  end.

Definition get_mask (k : kernel) (x : string) : res (list bool) :=
  match k !! x with
  | Some (Mask m) => Ok m
  | Some _ => Raise TypeError
  | None => Raise (NameError x)
  end.

Definition get_shape (k : kernel) (x : string) : res value :=
  match k !! x with
  | Some (Shape g) => Ok g
  | Some _ => Raise TypeError
  | None => Raise (NameError x)
  end.

(** The frame of a DataFrame or a GeoDataFrame. *)
Definition table (v : pyval) : res DataFrame :=
  match v with
  | PFrame d => Ok d
  | PGeo g => Ok (frame g)
  | _ => Raise TypeError
  end.

(** The same kind of frame, with the CRS it had, around other rows. *)
Definition with_table (v : pyval) (d : DataFrame) : pyval :=
  match v with
  | PGeo g => PGeo {| crs := crs g; frame := d |}
  | _ => PFrame d
  end.

Definition get_strs (k : kernel) (x : string) : res (list string) :=
  v <- get_py k x ;;
  match v with
  | PStrs l => Ok l
  | _ => Raise TypeError
  end.

(** [x[c]] for the frame bound to [x] *)
Definition column_of (k : kernel) (x c : string) : res (list value) :=
  v <- get_py k x ;; d <- table v ;; column d c.

(** [x[mask]] for the frame bound to [x] *)
Definition subset (k : kernel) (x : string) (mask : list bool) : res pyval :=
  v <- get_py k x ;; d <- table v ;; d' <- keep d mask ;;
  Ok (with_table v d').

(** [x.shape] for a frame *)
Definition shape_of (v : pyval) : res (nat * nat) :=
  d <- table v ;; Ok (shape d).

Definition bind_py (target : string) (e : kernel -> res pyval)
  : @statement (kernel) :=
  bind_name e (fun v k => <[target := Py v]> k).

(** [target = x[x[c] == s]] *)
Definition bind_equal (target x c s : string) : @statement (kernel) :=
  bind_py target (fun k => col <- column_of k x c ;;
                           subset k x (map (eq_str s) col)).

(** [target = x[x[c] > 50]] *)
Definition bind_above_50 (target x c : string) : @statement (kernel) :=
  bind_py target (fun k => col <- column_of k x c ;;
                           mask <- each gt_50 col ;;
                           subset k x mask).

End WithLibrary.
End Subsets.

(** ** Module 06: the subsets the charts are drawn from *)

Module Charts.
Import Frames Subsets.

Section Cells.
Context `{L : Library} `{G : Geometry}.
Abbreviation kernel := (gmap string binding) (only parsing).

Definition socal_counties : list string :=
  ["Imperial"; "Kern"; "Los Angeles"; "Orange"; "Riverside";
   "San Bernardino"; "San Diego"; "San Luis Obispo"; "Santa Barbara";
   "Ventura"].

(** cell 6: [df = df.set_index("GEOID10")] ([df.head()] shows the frame
    just bound) *)
Definition cell_6 : @statement kernel :=
  bind_py "df" (fun k => v <- get_py k "df" ;; d <- table v ;;
                         d' <- set_index d "GEOID10" ;;
                         Ok (with_table v d')).

(** cell 8:
    [socal_counties = ["Imperial", ..., "Ventura"]]
    [mask = df["county_name"].isin(socal_counties)]
    [df_sc = df[mask]]
    [df_sc.shape] *)
Definition cell_8 : kernel -> kernel * res (nat * nat) :=
  shown
    (sequence (bind_py "socal_counties" (fun _ => Ok (PStrs socal_counties)))
    (sequence (bind_name (fun k => col <- column_of k "df" "county_name" ;;
                              labels <- get_strs k "socal_counties" ;;
                              Ok (Mask (map (is_in labels) col)))
                    (fun v k => <["mask" := v]> k))
         (bind_py "df_sc"
                  (fun k => m <- get_mask k "mask" ;; subset k "df" m))))
    (fun k => v <- get_py k "df_sc" ;; shape_of v).

(** cell 24:
    [df_wht = df[df["pct_white"] > 50]]
    [df_hsp = df[df["pct_hispanic"] > 50]] *)
Definition cell_24 : @statement (kernel) :=
  sequence (bind_above_50 "df_wht" "df" "pct_white")
      (bind_above_50 "df_hsp" "df" "pct_hispanic").

Definition sf_columns : list string :=
  ["pct_bachelors_degree"; "med_household_income"; "med_home_value";
   "mean_commute_time"].

(** cell 35:
    [df_sf = df[df["county_name"] == "San Francisco"]]
    [df_sf = df_sf[["pct_bachelors_degree", "med_household_income",
                    "med_home_value", "mean_commute_time"]]]
    ([df_sf.head()] shows the frame just bound) *)
Definition cell_35 : @statement (kernel) :=
  sequence (bind_equal "df_sf" "df" "county_name" "San Francisco")
      (bind_py "df_sf"
               (fun k => v <- get_py k "df_sf" ;; d <- table v ;;
                         d' <- select d sf_columns ;;
                         Ok (with_table v d'))).

(** cell 36: the frame handed to [sns.pairplot], [df_sf.dropna()] *)
Definition cell_36 (k : kernel) : res DataFrame :=
  v <- get_py k "df_sf" ;; d <- table v ;; Ok (dropna d).

End Cells.
End Charts.

(** ** Module 07: masks from geometry, renaming and the Orange County
    subsets *)

Module Overlays.
Import Frames Subsets.

Section Cells.
Context `{L : Library} `{G : Geometry}.
Abbreviation kernel := (gmap string binding) (only parsing).

(** cell 24: [unified_listings = gdf_listings["geometry"].unary_union] *)
Definition cell_24 : @statement (kernel) :=
  bind_name (fun k => col <- column_of k "gdf_listings" "geometry" ;;
                      Ok (Shape (unary_union col)))
            (fun v k => <["unified_listings" := v]> k).

(** cell 26:
    [mask = gdf_tracts.intersects(unified_listings)]
    [gdf_tracts[mask].shape] *)
Definition cell_26 : kernel -> kernel * res (nat * nat) :=
  shown
    (bind_name (fun k => col <- column_of k "gdf_tracts" "geometry" ;;
                         u <- get_shape k "unified_listings" ;;
                         Ok (Mask (map (fun g => intersects g u) col)))
               (fun v k => <["mask" := v]> k))
    (fun k => m <- get_mask k "mask" ;;
              v <- subset k "gdf_tracts" m ;;
              shape_of v).

(** cell 27: [gdf_tracts[~mask].shape] *)
Definition cell_27 (k : kernel) : res (nat * nat) :=
  m <- get_mask k "mask" ;;
  v <- subset k "gdf_tracts" (invert m) ;;
  shape_of v.

(** cell 35:
    [mask = gdf_listings.within(oc_geometry)]
    [oc_listings = gdf_listings[mask]]
    [oc_listings.shape] *)
Definition cell_35 : kernel -> kernel * res (nat * nat) :=
  shown
    (sequence (bind_name (fun k => col <- column_of k "gdf_listings" "geometry" ;;
                              g <- get_shape k "oc_geometry" ;;
                              Ok (Mask (map (fun p => within p g) col)))
                    (fun v k => <["mask" := v]> k))
         (bind_py "oc_listings"
                  (fun k => m <- get_mask k "mask" ;;
                            subset k "gdf_listings" m)))
    (fun k => v <- get_py k "oc_listings" ;; shape_of v).

(** cell 60:
    [gdf_listings_counties =
       gdf_listings_counties.rename(columns={"index_right": "county"})] *)
Definition cell_60 : @statement (kernel) :=
  bind_py "gdf_listings_counties"
          (fun k => v <- get_py k "gdf_listings_counties" ;;
                    d <- table v ;;
                    Ok (with_table v (rename d "index_right" "county"))).

(** cell 65:
    [oc_listings =
       gdf_listings_counties[gdf_listings_counties["county"] == "059"]] *)
Definition cell_65 : @statement (kernel) :=
  bind_equal "oc_listings" "gdf_listings_counties" "county" "059".

(** cell 67:
    [oc_tracts_ind = gdf_tracts_ind[gdf_tracts_ind["COUNTYFP"] == "059"]] *)
Definition cell_67 : @statement (kernel) :=
  bind_equal "oc_tracts_ind" "gdf_tracts_ind" "COUNTYFP" "059".

(** cell 68: [oc_tracts_ind = oc_tracts_ind[oc_tracts_ind["ALAND"] > 0]] *)
Definition cell_68 : @statement (kernel) :=
  bind_py "oc_tracts_ind"
          (fun k => col <- column_of k "oc_tracts_ind" "ALAND" ;;
                    mask <- each gt_0 col ;;
                    subset k "oc_tracts_ind" mask).

End Cells.
End Overlays.

(** ** A small world to run the cells on

    One census tract and three listings, one of them without a floor area;
    the libraries do the least that their signatures allow. *)

Module Sample.
Import Frames.

Definition float_62_5 : spec_float := S754_finite false 8796093022208000 (-47).
Definition float_35 : spec_float := S754_finite false 4925812092436480 (-47).

Definition row (l : list (string * value)) : gmap string value := list_to_map l.

Definition listings : DataFrame :=
  {| columns := ["rent"; "sqft"; "bedrooms"; "longitude"; "latitude"];
     rows :=
       [ row [("rent", VInt 2400); ("sqft", VInt 900); ("bedrooms", VInt 2);
              ("longitude", VFloat float_35); ("latitude", VFloat float_35)];
         row [("rent", VInt 1800); ("sqft", VFloat S754_nan);
              ("bedrooms", VInt 1);
              ("longitude", VFloat float_35); ("latitude", VFloat float_35)];
         row [("rent", VInt 3100); ("sqft", VInt 1200); ("bedrooms", VInt 3);
              ("longitude", VFloat float_35); ("latitude", VFloat float_35)] ] |}.

Definition census : DataFrame :=
  {| columns := ["GEOID10"; "pct_white"; "med_home_value"; "mean_commute_time"];
     rows :=
       [ row [("GEOID10", VStr "06059001"); ("pct_white", VFloat float_62_5);
              ("med_home_value", VInt 650000);
              ("mean_commute_time", VInt 28)] ] |}.

Definition tracts : GeoDataFrame string :=
  {| crs := Some "epsg:4269";
     frame :=
       {| columns := ["GEOID"; "COUNTYFP"; "ALAND"; "geometry"];
          rows :=
            [ row [("GEOID", VStr "06059001"); ("COUNTYFP", VStr "059");
                   ("ALAND", VInt 1000); ("geometry", VGeom "POLYGON")] ] |} |}.

Definition serve_csv (url : string) : res DataFrame :=
  if String.eqb url listings_csv then Ok listings
  else if String.eqb url census_csv then Ok census
  else Raise (URLError url).

Definition serve_shp (url : string) : res (GeoDataFrame string) :=
  if String.eqb url tracts_shp then Ok tracts else Raise (URLError url).

Definition value_eqb (a b : value) : bool :=
  match a, b with
  | VStr s, VStr t => String.eqb s t
  | VInt n, VInt m => Z.eqb n m
  | _, _ => false
  end.

(** A left merge on one key: each left row with the first right row that
    has the same key, if there is one. *)
Definition merge_left (l r : DataFrame) (left_on right_on how : string)
  : res DataFrame :=
  if has_column l left_on && has_column r right_on then
    Ok {| columns := columns l ++ columns r;
          rows :=
            map (fun lr =>
                   match List.find (fun rr => value_eqb (cell_of left_on lr)
                                                (cell_of right_on rr)) (rows r)
                   with
                   | Some rr => lr ∪ rr
                   | None => lr
                   end) (rows l) |}
  else Raise (KeyError left_on).

(** Every left row lies within the first right row's polygon. *)
Definition join_first (l r : DataFrame) (how op : string) : res DataFrame :=
  match rows r with
  | rr :: _ =>
      Ok {| columns := columns l ++ "index_right" :: columns r;
            rows := map (fun lr => <["index_right" := VInt 0]> (lr ∪ rr))
                        (rows l) |}
  | [] => Ok {| columns := columns l ++ "index_right" :: columns r; rows := [] |}
  end.

Definition prepend_ones (X : DataFrame) : DataFrame :=
  {| columns := "const" :: columns X;
     rows := map (fun r => <["const" := VFloat Models.one]> r) (rows X) |}.

#[export] Instance library : Library := {|
  CRS := string;
  from_user_input := fun s => s;
  read_csv := serve_csv;
  read_file := serve_shp;
  point := fun _ _ => VGeom "POINT";
  transform := fun _ _ v => v;
  dissolve := fun _ _ d => Ok d;
  merge := merge_left;
  spatial_join := join_first;
  add_constant := prepend_ones;
  np_log := fun v => v;
  Results := OLS;
  fit := fun m => m
|}.

(** Module 12 up to the join, on this world. *)
Definition joined : res (gmap string pyval) :=
  k <- Models.before_join ;; Models.cell_11 k.

(** A kernel in which [gdf] is bound to three joined listings: one in a
    tract that is 62.5% white, one in a tract that is 35% white, and one
    whose tract has no census data. *)
Definition joined_listings : GeoDataFrame string :=
  {| crs := Some "epsg:4269";
     frame :=
       {| columns := ["rent"; "sqft"; "pct_white"];
          rows :=
            [ row [("rent", VInt 2400); ("sqft", VInt 900);
                   ("pct_white", VFloat float_62_5)];
              row [("rent", VInt 1800); ("sqft", VInt 700);
                   ("pct_white", VFloat float_35)];
              row [("rent", VInt 3100); ("sqft", VInt 1200);
                   ("pct_white", VFloat S754_nan)] ] |} |}.

Definition after_join : gmap string pyval :=
  {["gdf" := PGeo joined_listings]}.

(** A run in which the very first step fails: the listings are not
    served. *)
Definition listings_down (n : nat) : option exn :=
  if Nat.eqb n 0 then Some (URLError listings_csv) else None.

End Sample.


(** ** Small kernels to run the cells above on *)

Module Examples.
Import Frames Subsets.

(** Module 03 after cell 55, after cell 57, after cell 84 and after cell
    108, each from a fresh kernel. *)
Definition after_cell_55 : StringCells.kernel :=
  fst (StringCells.cell_55 StringCells.fresh).

Definition after_cell_57 : StringCells.kernel :=
  fst (StringCells.cell_57 StringCells.fresh).

Definition after_cell_84 : ListCells.kernel :=
  fst (ListCells.cell_84 ListCells.fresh).

Definition after_cell_108 : DictCells.kernel :=
  fst (DictCells.cell_108 DictCells.fresh).

(** Four census tracts: one in Los Angeles county, two in San Francisco
    county (one without a home value), one in Kern county without its
    percentages. *)
Definition census : DataFrame :=
  {| columns := ["GEOID10"; "county_name"; "pct_white"; "pct_hispanic";
                 "pct_bachelors_degree"; "med_household_income";
                 "med_home_value"; "mean_commute_time"];
     rows :=
       [ Sample.row [("GEOID10", VStr "06037001");
                     ("county_name", VStr "Los Angeles");
                     ("pct_white", VFloat Sample.float_35);
                     ("pct_hispanic", VFloat Sample.float_62_5);
                     ("pct_bachelors_degree", VInt 20);
                     ("med_household_income", VInt 48000);
                     ("med_home_value", VInt 410000);
                     ("mean_commute_time", VInt 31)];
         Sample.row [("GEOID10", VStr "06075001");
                     ("county_name", VStr "San Francisco");
                     ("pct_white", VFloat Sample.float_62_5);
                     ("pct_hispanic", VFloat Sample.float_35);
                     ("pct_bachelors_degree", VInt 60);
                     ("med_household_income", VInt 120000);
                     ("med_home_value", VInt 1100000);
                     ("mean_commute_time", VInt 33)];
         Sample.row [("GEOID10", VStr "06075002");
                     ("county_name", VStr "San Francisco");
                     ("pct_white", VFloat Sample.float_35);
                     ("pct_hispanic", VFloat Sample.float_35);
                     ("pct_bachelors_degree", VInt 55);
                     ("med_household_income", VInt 98000);
                     ("med_home_value", VFloat S754_nan);
                     ("mean_commute_time", VInt 29)];
         Sample.row [("GEOID10", VStr "06029001");
                     ("county_name", VStr "Kern");
                     ("pct_white", VFloat S754_nan);
                     ("pct_hispanic", VFloat S754_nan);
                     ("pct_bachelors_degree", VInt 15);
                     ("med_household_income", VInt 51000);
                     ("med_home_value", VInt 230000);
                     ("mean_commute_time", VInt 24)] ] |}.

(** Three tracts: two in county 059, one of them all water, and one in
    county 037. *)
Definition tracts : GeoDataFrame string :=
  {| crs := Some "epsg:4269";
     frame :=
       {| columns := ["GEOID"; "COUNTYFP"; "ALAND"; "geometry"];
          rows :=
            [ Sample.row [("GEOID", VStr "06059001"); ("COUNTYFP", VStr "059");
                          ("ALAND", VInt 1000); ("geometry", VGeom "POLYGON A")];
              Sample.row [("GEOID", VStr "06059990"); ("COUNTYFP", VStr "059");
                          ("ALAND", VInt 0); ("geometry", VGeom "POLYGON B")];
              Sample.row [("GEOID", VStr "06037001"); ("COUNTYFP", VStr "037");
                          ("ALAND", VInt 500); ("geometry", VGeom "POLYGON C")] ] |} |}.

(** Two listings as a spatial join leaves them. *)
Definition listings_counties : GeoDataFrame string :=
  {| crs := Some "epsg:4269";
     frame :=
       {| columns := ["rent"; "geometry"; "index_right"];
          rows :=
            [ Sample.row [("rent", VInt 2400); ("geometry", VGeom "POINT");
                          ("index_right", VStr "059")];
              Sample.row [("rent", VInt 1800); ("geometry", VGeom "POINT");
                          ("index_right", VStr "037")] ] |} |}.

(** The listings lie in the first tract only. *)
#[export] Instance geometry : Geometry := {|
  unary_union := fun _ => VGeom "MULTIPOINT";
  intersects := fun g _ =>
    match g with VGeom wkt => String.eqb wkt "POLYGON A" | _ => false end;
  within := fun _ g =>
    match g with VGeom wkt => String.eqb wkt "POLYGON A" | _ => false end
|}.

Definition charts : gmap string (binding (L := Sample.library)) :=
  {["df" := Py (PFrame census)]}.

Definition overlays : gmap string (binding (L := Sample.library)) :=
  <["unified_listings" := Shape (VGeom "MULTIPOINT")]>
    (<["gdf_tracts" := Py (PGeo (L := Sample.library) tracts)]>
       (<["gdf_tracts_ind" := Py (PGeo (L := Sample.library) tracts)]>
          {["gdf_listings_counties" :=
              Py (PGeo (L := Sample.library) listings_counties)]})).

(** Two joined listings with the columns the fits of module 12 name. *)
Definition joined : DataFrame :=
  {| columns := ["rent"; "bedrooms"; "sqft"; "med_home_value";
                 "mean_commute_time"; "pct_white"];
     rows :=
       [ Sample.row [("rent", VInt 2400); ("bedrooms", VInt 2);
                     ("sqft", VInt 900); ("med_home_value", VInt 650000);
                     ("mean_commute_time", VInt 28);
                     ("pct_white", VFloat Sample.float_62_5)];
         Sample.row [("rent", VInt 1800); ("bedrooms", VInt 1);
                     ("sqft", VInt 700); ("med_home_value", VInt 480000);
                     ("mean_commute_time", VInt 35);
                     ("pct_white", VFloat Sample.float_35)] ] |}.

Definition fitting : gmap string (pyval (L := Sample.library)) :=
  {["gdf" := PFrame joined]}.

End Examples.

(** * Theorems *)

(** ** The exception monad *)

Lemma bind_ok {A B : Type} (m : res A) (f : A -> res B) (b : B) :
  bind m f = Ok b -> exists a, m = Ok a /\ f a = Ok b.
Proof. destruct m as [a|e]; simpl; [eauto|discriminate]. Qed.

(** ** Module 03 *)

Lemma loop_appends (l : list Z) (acc : list string) :
  for_each Bootcamp.loop_body l acc = Ok (acc ++ map Bootcamp.str l)%list.
Proof.
  revert acc. induction l as [|v l IH]; intros acc; simpl.
  - by rewrite app_nil_r.
  - rewrite IH. unfold Bootcamp.append. by rewrite <- app_assoc.
Qed.

Lemma by_loop_is_map (l : list Z) :
  Bootcamp.by_loop l = Ok (map Bootcamp.str l).
Proof.
  unfold Bootcamp.by_loop, Bootcamp.cell_103. simpl.
  rewrite loop_appends. reflexivity.
Qed.

(** The five appends by hand do the same on any list of five, and stop
    with IndexError on a shorter one. *)
Lemma by_hand_five (a b c d e : Z) :
  Bootcamp.by_hand [a; b; c; d; e] = Bootcamp.by_loop [a; b; c; d; e].
Proof. rewrite by_loop_is_map. reflexivity. Qed.

Lemma by_hand_short (a b c : Z) :
  Bootcamp.by_hand [a; b; c] = Raise IndexError.
Proof. reflexivity. Qed.


(** ** Frames *)

Section FrameFacts.
Import Frames.

Lemma has_column_In (df : DataFrame) (c : string) :
  has_column df c = true <-> In c (columns df).
Proof.
  unfold has_column. rewrite existsb_exists. split.
  - intros (x & Hx & Heq). apply String.eqb_eq in Heq. by subst.
  - intros H. exists c. split; [done|apply String.eqb_refl].
Qed.

Lemma restrict_cell (cs : list string) (r : gmap string value) (c : string) :
  In c cs -> cell_of c (restrict cs r) = cell_of c r.
Proof.
  unfold cell_of, restrict. induction cs as [|c0 cs IH]; intros Hin; [done|].
  simpl. destruct (decide (c0 = c)) as [->|Hne].
  - by rewrite lookup_insert_eq.
  - rewrite lookup_insert_ne by done. apply IH. destruct Hin; congruence.
Qed.

Lemma select_inv (df X : DataFrame) (cs : list string) :
  select df cs = Ok X ->
  X = {| columns := cs; rows := map (restrict cs) (rows df) |} /\
  Forall (fun c => has_column df c = true) cs.
Proof.
  unfold select. destruct (List.find _ cs) eqn:E; [discriminate|].
  intros [= <-]. split; [done|]. apply List.Forall_forall. intros c Hc.
  apply (find_none _ _ E) in Hc. by destruct (has_column df c).
Qed.

Lemma select_total (df : DataFrame) (cs : list string) :
  forallb (has_column df) cs = true ->
  select df cs = Ok {| columns := cs; rows := map (restrict cs) (rows df) |}.
Proof.
  intros H. unfold select.
  destruct (List.find _ cs) as [c|] eqn:E; [|done].
  apply find_some in E as [Hin Hc]. rewrite forallb_forall in H.
  rewrite (H c Hin) in Hc. discriminate.
Qed.

Lemma column_inv (df : DataFrame) (c : string) (vs : list value) :
  column df c = Ok vs ->
  vs = map (cell_of c) (rows df) /\ has_column df c = true.
Proof. unfold column. destruct (has_column df c); [|discriminate]. by intros [= <-]. Qed.

Lemma column_total (df : DataFrame) (c : string) :
  has_column df c = true -> column df c = Ok (map (cell_of c) (rows df)).
Proof. intros H. unfold column. by rewrite H. Qed.

Lemma dropna_complete (df : DataFrame) :
  Forall (fun r => complete (columns df) r = true) (rows (dropna df)).
Proof.
  apply List.Forall_forall. intros r Hr. simpl in Hr.
  by apply filter_In in Hr as [_ Hr].
Qed.

Lemma complete_cell (cs : list string) (r : gmap string value) (c : string) :
  complete cs r = true -> In c cs -> isnull (cell_of c r) = false.
Proof.
  unfold complete. rewrite forallb_forall. intros H Hin.
  specialize (H c Hin). by destruct (isnull (cell_of c r)).
Qed.

Lemma each_inv {A B : Type} (f : A -> res B) (l : list A) (bs : list B) :
  each f l = Ok bs -> Forall2 (fun a b => f a = Ok b) l bs.
Proof.
  revert bs. induction l as [|a l IH]; intros bs; simpl.
  - intros [= <-]. constructor.
  - destruct (f a) as [b|] eqn:Ea; [|discriminate]. simpl.
    destruct (each f l) as [bs'|]; [|discriminate]. simpl. intros [= <-].
    constructor; [done|by apply IH].
Qed.

Lemma each_total {A B : Type} (f : A -> res B) (l : list A) :
  Forall (fun a => is_ok (f a) = true) l -> exists bs, each f l = Ok bs.
Proof.
  induction 1 as [|a l Ha _ [bs IH]]; simpl; [eauto|].
  destruct (f a) as [b|]; [|discriminate]. simpl. rewrite IH. simpl. eauto.
Qed.

Lemma assign_inv (df df' : DataFrame) (c : string) (vs : list value) :
  assign df c vs = Ok df' ->
  length vs = nrows df /\
  rows df' = zip_with (fun r v => <[c := v]> r) (rows df) vs /\
  has_column df' c = true.
Proof.
  unfold assign. destruct (Nat.eqb_spec (length vs) (nrows df)); [|discriminate].
  intros [= <-]. repeat split; [done|]. simpl.
  destruct (has_column df c) eqn:E; [done|].
  apply has_column_In. simpl. apply in_or_app. right. by left.
Qed.

Lemma assign_total (df : DataFrame) (c : string) (vs : list value) :
  length vs = nrows df -> exists df', assign df c vs = Ok df'.
Proof.
  intros H. unfold assign. rewrite H, Nat.eqb_refl. eauto.
Qed.

End FrameFacts.

(** ** Module 12: the dummy variable *)

Section Dummy.
Import Frames.
Context `{L : Library}.

Lemma dummy_rows (rs : list (gmap string value)) (above : list bool) :
  Forall2 (fun v b => gt_50 v = Ok b) (map (cell_of "pct_white") rs) above ->
  Forall2 Models.dummy_of rs
    (zip_with (fun r v => <["majority_white" := v]> r) rs
              (map bool_to_int above)).
Proof.
  revert above. induction rs as [|r rs IH]; intros above H; simpl in *.
  - constructor.
  - inversion H as [|v b vs bs Hb Hrest]; subst. simpl.
    constructor; [by exists b|by apply IH].
Qed.

Lemma cell_25_inv (k k' : gmap string pyval) (g : GeoDataFrame CRS) :
  k !! "gdf" = Some (PGeo g) -> Models.cell_25 k = Ok k' ->
  exists d, k' = <["gdf" := PGeo {| crs := crs g; frame := d |}]> k /\
    has_column d "majority_white" = true /\
    Forall2 Models.dummy_of (rows (frame g)) (rows d).
Proof.
  intros Hg H. unfold Models.cell_25, get_frame, Models.set_column in H.
  rewrite Hg in H. simpl in H.
  apply bind_ok in H as (pct & Hpct & H).
  apply bind_ok in H as (above & Habove & H).
  apply bind_ok in H as (d & Hd & H). injection H as <-.
  apply column_inv in Hpct as [-> _]. apply each_inv in Habove.
  apply assign_inv in Hd as (_ & Hrows & Hcol).
  exists d. repeat split; [done|]. rewrite Hrows. by apply dummy_rows.
Qed.

Lemma cell_25_total (k : gmap string pyval) (g : GeoDataFrame CRS) :
  k !! "gdf" = Some (PGeo g) ->
  has_column (frame g) "pct_white" = true ->
  Forall (fun r => is_ok (gt_50 (cell_of "pct_white" r)) = true)
         (rows (frame g)) ->
  exists k', Models.cell_25 k = Ok k'.
Proof.
  intros Hg Hcol Hnum. unfold Models.cell_25, get_frame, Models.set_column.
  rewrite Hg. simpl. unfold column. rewrite Hcol. simpl.
  destruct (each_total gt_50 (map (cell_of "pct_white") (rows (frame g))))
    as [above Habove].
  { by apply Forall_map. }
  rewrite Habove. simpl.
  destruct (assign_total (frame g) "majority_white" (map bool_to_int above))
    as [d Hd].
  { apply each_inv, Forall2_length in Habove.
    rewrite length_map in Habove |- *. by rewrite <- Habove. }
  rewrite Hd. simpl. eauto.
Qed.

End Dummy.

(** C10: cell 25 of module 12 sets [majority_white], row by row, to 1 where
    [pct_white > 50] holds and to 0 where it does not (a missing
    [pct_white], NaN, compares false and gives 0); the value is always 0 or
    1 and never both; the cell runs whenever [gdf] has a numeric
    [pct_white] column. *)
Theorem majority_white_is_a_dummy `{L : Frames.Library}
  (k : gmap string Frames.pyval) (g : Frames.GeoDataFrame Frames.CRS) :
  k !! "gdf" = Some (Frames.PGeo g) ->
  (Frames.has_column (Frames.frame g) "pct_white" = true ->
   Forall (fun r => is_ok (Frames.gt_50 (Frames.cell_of "pct_white" r)) = true)
          (Frames.rows (Frames.frame g)) ->
   exists k', Models.cell_25 k = Ok k') /\
  (forall k', Models.cell_25 k = Ok k' ->
   exists g',
     k' !! "gdf" = Some (Frames.PGeo g') /\
     Frames.has_column (Frames.frame g') "majority_white" = true /\
     Forall2
       (fun r r' =>
          let pct := Frames.cell_of "pct_white" r in
          let dummy := Frames.cell_of "majority_white" r' in
          (dummy = Frames.VInt 1 \/ dummy = Frames.VInt 0) /\
          (dummy = Frames.VInt 1 <-> Frames.gt_50 pct = Ok true) /\
          (dummy = Frames.VInt 0 <-> Frames.gt_50 pct = Ok false) /\
          (forall f, pct = Frames.VFloat f ->
             dummy = Frames.VInt (if SFltb Frames.fifty f then 1 else 0)) /\
          (pct = Frames.VFloat S754_nan -> dummy = Frames.VInt 0))
       (Frames.rows (Frames.frame g)) (Frames.rows (Frames.frame g'))).
Proof.
  intros Hg. split; [apply (cell_25_total k g Hg)|].
  intros k' H. destruct (cell_25_inv k k' g Hg H) as (d & -> & Hcol & Hrows).
  eexists. split; [apply lookup_insert_eq|]. simpl. split; [done|].
  eapply Forall2_impl; [exact Hrows|].
  intros r r' (b & Hb & ->). cbn zeta.
  assert (Frames.cell_of "majority_white"
            (<["majority_white" := Frames.VInt (if b then 1 else 0)]> r)
          = Frames.VInt (if b then 1 else 0)) as ->.
  { unfold Frames.cell_of. by rewrite lookup_insert_eq. }
  rewrite Hb. repeat split.
  - destruct b; [by left|by right].
  - destruct b; [done|discriminate].
  - destruct b; [done|discriminate].
  - destruct b; [discriminate|done].
  - destruct b; [discriminate|done].
  - intros f Hf. rewrite Hf in Hb. simpl in Hb. by injection Hb as <-.
  - intros Hf. rewrite Hf in Hb. simpl in Hb. by injection Hb as <-.
Qed.

(** ** Module 12: what is handed to [sm.OLS] *)

Section Regression.
Import Frames.
Context `{L : Library}.

Lemma get_frame_insert_ne (k : gmap string pyval) (x y : string) (v : pyval) :
  x <> y -> get_frame (<[y := v]> k) x = get_frame k x.
Proof. intros H. unfold get_frame. by rewrite lookup_insert_ne. Qed.

(** The frame [data] of a regression cell: the chosen columns of [gdf],
    without the rows that have a null in one of them. *)
Lemma sliced_is_well_posed (gdf sel : DataFrame) (response : string)
  (predictors : list string) (y : list value) (X : DataFrame) :
  select gdf (response :: predictors) = Ok sel ->
  select (dropna sel) predictors = Ok X ->
  column (dropna sel) response = Ok y ->
  Models.well_posed {| endog := y; exog := add_constant X |}
                    response predictors (dropna sel) X.
Proof.
  intros Hsel HX Hy.
  apply select_inv in Hsel as [-> _].
  pose proof (dropna_complete
    {| columns := response :: predictors;
       rows := map (restrict (response :: predictors)) (rows gdf) |}) as Hc.
  simpl columns in Hc. rewrite List.Forall_forall in Hc.
  pose proof HX as HX'. apply select_inv in HX' as [-> _].
  pose proof Hy as Hy'. apply column_inv in Hy' as [-> _].
  repeat split; try done.
  - unfold nrows. simpl. by rewrite length_map.
  - simpl. by rewrite length_map.
  - apply List.Forall_forall. intros r Hr. simpl in Hr.
    apply in_map_iff in Hr as (r0 & <- & Hr0).
    apply List.Forall_forall. intros c Hin.
    rewrite restrict_cell by done.
    apply (complete_cell (response :: predictors)); [by apply Hc|by right].
  - apply List.Forall_forall. intros v Hv. simpl in Hv.
    apply in_map_iff in Hv as (r0 & <- & Hr0).
    apply (complete_cell (response :: predictors)); [by apply Hc|by left].
Qed.

Lemma intercept_added (y : list value) (X data : DataFrame) :
  Models.adds_constant_to add_constant X ->
  nrows X = nrows data -> length y = nrows data ->
  Models.has_intercept (add_constant X) /\
  nrows (add_constant X) = length y.
Proof.
  intros [Hcols Hrows] HX Hy. split; [split|].
  - apply has_column_In. rewrite Hcols. by left.
  - rewrite Hrows. apply List.Forall_forall. intros r Hr.
    apply in_map_iff in Hr as (r0 & <- & _). unfold cell_of.
    by rewrite lookup_insert_eq.
  - unfold nrows in *. rewrite Hrows, length_map. congruence.
Qed.

Lemma estimate_inv (k k' : gmap string pyval) (y : list value) (X : DataFrame) :
  get_series k "y" = Ok y -> get_table k "X" = Ok X ->
  Models.estimate k = Ok k' ->
  k' = <["result" := PResult (fit {| endog := y; exog := add_constant X |})]>
         (<["model" := PModel {| endog := y; exog := add_constant X |}]> k).
Proof.
  intros Hy HX H. unfold Models.estimate in H. rewrite Hy, HX in H. simpl in H.
  unfold get_model in H. rewrite lookup_insert_eq in H. simpl in H.
  by injection H as <-.
Qed.

Lemma regress_inv (response : string) (predictors : list string)
  (k k' : gmap string pyval) :
  Models.regress response predictors k = Ok k' ->
  exists gdf sel X y,
    get_frame k "gdf" = Ok gdf /\
    select gdf (response :: predictors) = Ok sel /\
    select (dropna sel) predictors = Ok X /\
    column (dropna sel) response = Ok y /\
    k' !! "data" = Some (PFrame (dropna sel)) /\
    k' !! "model" = Some (PModel {| endog := y; exog := add_constant X |}).
Proof.
  intros H. unfold Models.regress in H.
  rewrite !get_frame_insert_ne in H by done.
  apply bind_ok in H as (gdf & Hgdf & H).
  unfold get_str at 1 in H. rewrite lookup_insert_ne, lookup_insert_eq in H by done.
  simpl in H.
  unfold get_strs at 1 in H. rewrite lookup_insert_eq in H. simpl in H.
  apply bind_ok in H as (sel & Hsel & H).
  unfold get_frame at 1 in H. rewrite lookup_insert_eq in H. simpl in H.
  unfold get_strs at 1 in H.
  rewrite lookup_insert_ne, lookup_insert_eq in H by done. simpl in H.
  apply bind_ok in H as (X & HX & H).
  unfold get_frame at 1 in H.
  rewrite lookup_insert_ne, lookup_insert_eq in H by done. simpl in H.
  unfold get_str at 1 in H.
  rewrite !lookup_insert_ne, lookup_insert_eq in H by done. simpl in H.
  apply bind_ok in H as (y & Hy & H).
  eapply estimate_inv in H.
  2: { unfold get_series. by rewrite lookup_insert_eq. }
  2: { unfold get_table. by rewrite lookup_insert_ne, lookup_insert_eq. }
  subst k'. exists gdf, sel, X, y. repeat split; try done.
  - repeat (rewrite lookup_insert_ne by done). apply lookup_insert_eq.
  - repeat (rewrite lookup_insert_ne by done). apply lookup_insert_eq.
Qed.

Lemma regress_total (response : string) (predictors : list string)
  (k : gmap string pyval) (gdf : DataFrame) :
  get_frame k "gdf" = Ok gdf ->
  forallb (has_column gdf) (response :: predictors) = true ->
  exists k', Models.regress response predictors k = Ok k'.
Proof.
  intros Hgdf Hcols. unfold Models.regress.
  rewrite !get_frame_insert_ne by done. rewrite Hgdf. simpl bind.
  unfold get_str at 1. rewrite lookup_insert_ne, lookup_insert_eq by done.
  simpl bind. unfold get_strs at 1. rewrite lookup_insert_eq. simpl bind.
  rewrite (select_total _ _ Hcols). simpl bind.
  unfold get_frame at 1. rewrite lookup_insert_eq. simpl bind.
  unfold get_strs at 1. rewrite lookup_insert_ne, lookup_insert_eq by done.
  simpl bind.
  rewrite select_total.
  2: { apply forallb_forall. intros c Hc. apply has_column_In. simpl. by right. }
  simpl bind.
  unfold get_frame at 1. rewrite lookup_insert_ne, lookup_insert_eq by done.
  simpl bind.
  unfold get_str at 1. rewrite !lookup_insert_ne, lookup_insert_eq by done.
  simpl bind.
  unfold column at 1.
  replace (has_column (dropna _) response) with true.
  2: { symmetry. apply has_column_In. simpl. by left. }
  simpl bind. unfold Models.estimate, get_series. rewrite lookup_insert_eq.
  simpl bind. unfold get_table. rewrite lookup_insert_ne, lookup_insert_eq by done.
  simpl bind. unfold get_model. rewrite lookup_insert_eq. simpl. eauto.
Qed.

Lemma series_frame (p : string) (data : DataFrame) :
  {| columns := [p];
     rows := map (fun v => {[p := v]}) (map (cell_of p) (rows data)) |}
  = {| columns := [p]; rows := map (restrict [p]) (rows data) |}.
Proof. f_equal. rewrite map_map. reflexivity. Qed.

Lemma simple_fit_inv (k k' : gmap string pyval) :
  Models.simple_fit k = Ok k' ->
  exists gdf sel X y,
    get_frame k "gdf" = Ok gdf /\
    select gdf ["rent"; "sqft"] = Ok sel /\
    select (dropna sel) ["sqft"] = Ok X /\
    column (dropna sel) "rent" = Ok y /\
    k' !! "data" = Some (PFrame (dropna sel)) /\
    k' !! "model" = Some (PModel {| endog := y; exog := add_constant X |}).
Proof.
  intros H. unfold Models.simple_fit, Models.cell_14 in H. simpl bind in H.
  apply bind_ok in H as (k1 & H & H16).
  unfold Models.cell_15 in H.
  rewrite !get_frame_insert_ne in H by done.
  apply bind_ok in H as (gdf & Hgdf & H).
  unfold get_str at 1 in H. rewrite lookup_insert_ne, lookup_insert_eq in H by done.
  simpl in H.
  unfold get_str at 1 in H. rewrite lookup_insert_eq in H. simpl in H.
  apply bind_ok in H as (sel & Hsel & H).
  unfold get_frame at 1 in H. rewrite lookup_insert_eq in H. simpl in H.
  unfold get_str at 1 in H.
  rewrite lookup_insert_ne, lookup_insert_eq in H by done. simpl in H.
  apply bind_ok in H as (x & Hx & H).
  unfold get_frame at 1 in H.
  rewrite lookup_insert_ne, lookup_insert_eq in H by done. simpl in H.
  unfold get_str at 1 in H.
  rewrite !lookup_insert_ne, lookup_insert_eq in H by done. simpl in H.
  apply bind_ok in H as (y & Hy & H). injection H as <-.
  unfold Models.cell_16 in H16. eapply estimate_inv in H16.
  2: { unfold get_series. by rewrite lookup_insert_eq. }
  2: { unfold get_table. by rewrite lookup_insert_ne, lookup_insert_eq. }
  pose proof Hx as Hx'. apply column_inv in Hx' as [-> Hcol].
  rewrite series_frame in H16.
  subst k'. eexists gdf, sel, _, y. repeat split; try done.
  - apply select_total. simpl. by rewrite Hcol.
  - repeat (rewrite lookup_insert_ne by done). apply lookup_insert_eq.
  - repeat (rewrite lookup_insert_ne by done). apply lookup_insert_eq.
Qed.

Lemma simple_fit_total (k : gmap string pyval) (gdf : DataFrame) :
  get_frame k "gdf" = Ok gdf ->
  forallb (has_column gdf) ["rent"; "sqft"] = true ->
  exists k', Models.simple_fit k = Ok k'.
Proof.
  intros Hgdf Hcols.
  unfold Models.simple_fit, Models.cell_14, Models.cell_15, Models.cell_16,
    Models.estimate.
  cbn [bind]. rewrite !get_frame_insert_ne by done. rewrite Hgdf. cbn [bind].
  unfold get_str, get_frame, get_series, get_table, get_model.
  repeat first [rewrite lookup_insert_eq | rewrite lookup_insert_ne by done].
  cbn [bind]. rewrite (select_total _ _ Hcols). cbn [bind].
  repeat first [rewrite lookup_insert_eq | rewrite lookup_insert_ne by done].
  cbn [bind]. rewrite column_total by reflexivity. cbn [bind].
  repeat first [rewrite lookup_insert_eq | rewrite lookup_insert_ne by done].
  cbn [bind]. rewrite column_total by reflexivity. cbn [bind].
  repeat first [rewrite lookup_insert_eq | rewrite lookup_insert_ne by done].
  cbn [bind].
  repeat first [rewrite lookup_insert_eq | rewrite lookup_insert_ne by done].
  cbn [bind]. eauto.
Qed.

Lemma sliced_fit (k k' : gmap string pyval) (gdf sel X : DataFrame)
  (y : list value) (response : string) (predictors : list string) :
  get_frame k "gdf" = Ok gdf ->
  select gdf (response :: predictors) = Ok sel ->
  select (dropna sel) predictors = Ok X ->
  column (dropna sel) response = Ok y ->
  k' !! "data" = Some (PFrame (dropna sel)) ->
  k' !! "model" = Some (PModel {| endog := y; exog := add_constant X |}) ->
  exists gdf sel X m,
    get_frame k "gdf" = Ok gdf /\
    select gdf (response :: predictors) = Ok sel /\
    k' !! "data" = Some (PFrame (dropna sel)) /\
    k' !! "model" = Some (PModel m) /\
    Models.well_posed m response predictors (dropna sel) X /\
    (Models.adds_constant_to add_constant X ->
       Models.has_intercept (exog m) /\ nrows (exog m) = length (endog m)).
Proof.
  intros Hgdf Hsel HX Hy Hd Hm.
  pose proof (sliced_is_well_posed _ _ _ _ _ _ Hsel HX Hy) as Hwp.
  exists gdf, sel, X, {| endog := y; exog := add_constant X |}.
  repeat split; try done; try apply Hwp.
  - destruct Hwp as (_ & _ & _ & HnX & Hny & _). simpl in Hny.
    by apply (intercept_added y X (dropna sel)).
  - destruct Hwp as (_ & _ & _ & HnX & Hny & _). simpl in Hny.
    by apply (intercept_added y X (dropna sel)).
  - destruct Hwp as (_ & _ & _ & HnX & Hny & _). simpl in Hny.
    by apply (intercept_added y X (dropna sel)).
Qed.

Lemma regress_well_posed (response : string) (predictors : list string) :
  Models.fit_is_well_posed (Models.regress response predictors) response predictors.
Proof.
  intros k. split; [apply regress_total|].
  intros k' H.
  apply regress_inv in H as (gdf & sel & X & y & Hgdf & Hsel & HX & Hy & Hd & Hm).
  by apply (sliced_fit k k' gdf sel X y).
Qed.

Lemma simple_fit_well_posed :
  Models.fit_is_well_posed Models.simple_fit "rent" ["sqft"].
Proof.
  intros k. split; [apply simple_fit_total|].
  intros k' H.
  apply simple_fit_inv in H as (gdf & sel & X & y & Hgdf & Hsel & HX & Hy & Hd & Hm).
  by apply (sliced_fit k k' gdf sel X y).
Qed.

End Regression.


(** ** Modules 07 and 12: the CRS at the spatial join *)

Section Joins.
Import Frames.
Context `{L : Library}.

Lemma to_crs_inv (g g' : GeoDataFrame CRS) (target : option CRS) :
  to_crs g target = Ok g' ->
  exists c t, crs g = Some c /\ target = Some t /\ crs g' = Some t.
Proof.
  unfold to_crs. destruct (crs g) as [c|]; [|discriminate].
  destruct target as [t|]; [|discriminate]. intros [= <-]. by exists c, t.
Qed.

Lemma to_crs_total (g : GeoDataFrame CRS) (c t : CRS) :
  crs g = Some c -> exists g', to_crs g (Some t) = Ok g' /\ crs g' = Some t.
Proof. intros H. unfold to_crs. rewrite H. eauto. Qed.

Lemma get_geo_inv (k : gmap string pyval) (x : string) (g : GeoDataFrame CRS) :
  get_geo k x = Ok g -> k !! x = Some (PGeo g).
Proof.
  unfold get_geo. destruct (k !! x) as [[]|]; try discriminate.
  by intros [= ->].
Qed.

Lemma get_geo_bound (k : gmap string pyval) (x : string) (g : GeoDataFrame CRS) :
  k !! x = Some (PGeo g) -> get_geo k x = Ok g.
Proof. intros H. unfold get_geo. by rewrite H. Qed.

(** A reprojection of [x] to the CRS of [y], as in cell 57 of module 07
    and cell 10 of module 12, leaves the two frames in one CRS. *)
Lemma reprojected_to_other (x y : string) (k0 k : gmap string pyval) :
  x <> y ->
  (a <- get_geo k0 x ;; b <- get_geo k0 y ;; a' <- to_crs a (crs b) ;;
   Ok (<[x := PGeo a']> k0)) = Ok k ->
  exists a' b,
    get_geo k x = Ok a' /\ get_geo k y = Ok b /\
    crs a' = crs b /\ is_Some (crs b).
Proof.
  intros Hne H.
  apply bind_ok in H as (a & Ha & H). apply bind_ok in H as (b & Hb & H).
  apply bind_ok in H as (a' & Ha' & H). injection H as <-.
  apply to_crs_inv in Ha' as (c & t & _ & Ht & Ha').
  exists a', b. repeat split.
  - apply get_geo_bound, lookup_insert_eq.
  - apply get_geo_bound. rewrite lookup_insert_ne by done. by apply get_geo_inv.
  - congruence.
  - rewrite Ht. eauto.
Qed.

Lemma cell_57_establishes (k0 k : gmap string pyval) :
  Spatial.cell_57 k0 = Ok k ->
  exists l c, Spatial.join_arguments k = Ok (l, c) /\
              crs l = crs c /\ is_Some (crs l).
Proof.
  intros H. apply (reprojected_to_other "gdf_counties" "gdf_listings") in H
    as (c & l & Hc & Hl & Heq & Hsome); [|done].
  exists l, c. unfold Spatial.join_arguments. rewrite Hl, Hc. simpl.
  repeat split; congruence.
Qed.

Lemma cell_10_establishes (k0 k : gmap string pyval) :
  Models.cell_10 k0 = Ok k ->
  exists l t, Models.join_arguments k = Ok (l, t) /\
              crs l = crs t /\ is_Some (crs l).
Proof.
  intros H. apply (reprojected_to_other "gdf_listings" "gdf_tracts_data") in H
    as (l & t & Hl & Ht & Heq & Hsome); [|done].
  exists l, t. unfold Models.join_arguments. rewrite Hl, Ht. simpl.
  repeat split; [done|congruence].
Qed.

End Joins.

(** Stepping through a run from the empty kernel: a name is looked up by
    computing in the map; the result of a call that the libraries or the
    world decide is named, and the run goes on where the call returns. *)
Ltac innermost t :=
  match t with
  | bind ?m _ => innermost m
  | _ => t
  end.

Ltac step H :=
  cbn [bind fst snd] in H;
  unfold Frames.get_geo, Frames.get_frame, Frames.get_str, Frames.get_strs,
    Frames.get_series in H;
  match type of H with
  | ?lhs = Ok _ =>
      let m := innermost lhs in
      lazymatch m with
      | Ok _ => fail
      | match ?look with _ => _ end =>
          let o := fresh "o" in
          let E := fresh "E" in
          remember look as o eqn:E in H;
          repeat first [ rewrite lookup_insert_eq in E
                       | rewrite lookup_insert_ne in E by done
                       | rewrite lookup_empty in E ];
          subst o
      | _ =>
          let E := fresh "E" in
          destruct m eqn:E; [|discriminate H]
      end
  end;
  cbn [bind fst snd] in H.

(** The same in a goal: a lookup is computed, a call is replaced by the
    result a hypothesis gives it. *)
Ltac look :=
  cbn [bind fst snd Frames.frame Frames.crs];
  unfold Frames.get_geo, Frames.get_frame, Frames.get_str, Frames.get_strs,
    Frames.get_series;
  repeat
    (match goal with
     | |- context [match ?l with _ => _ end] =>
         match l with
         | context [lookup] =>
             let o := fresh "o" in
             let E := fresh "E" in
             remember l as o eqn:E;
             progress repeat first [ rewrite lookup_insert_eq in E
                                   | rewrite lookup_insert_ne in E by done
                                   | rewrite lookup_empty in E ];
             subst o
         end
     end; cbn [bind fst snd Frames.frame Frames.crs]).

Section Runs.
Import Frames.
Context `{L : Library}.

Lemma points_assignable (d : DataFrame) (x y : string) (pts : list value) :
  points_from_xy d x y = Ok pts -> exists d', assign d "geometry" pts = Ok d'.
Proof.
  intros H. unfold points_from_xy in H.
  apply bind_ok in H as (xs & Hx & H). apply bind_ok in H as (ys & Hy & H).
  injection H as <-. apply column_inv in Hx as [-> _].
  apply column_inv in Hy as [-> _]. apply assign_total.
  rewrite length_zip_with, !length_map. unfold nrows. lia.
Qed.

Lemma points_total (d : DataFrame) (x y : string) :
  has_column d x = true -> has_column d y = true ->
  exists pts, points_from_xy d x y = Ok pts.
Proof.
  intros Hx Hy. unfold points_from_xy.
  rewrite (column_total _ _ Hx), (column_total _ _ Hy). simpl. eauto.
Qed.

(** Module 07, as the notebook runs it: both arguments of the join are in
    UTM zone 11. *)
Lemma spatial_run_crs (k : gmap string pyval) :
  Spatial.before_join = Ok k ->
  exists l c, Spatial.join_arguments k = Ok (l, c) /\
    crs l = Some (from_user_input Spatial.utm_11) /\
    crs c = Some (from_user_input Spatial.utm_11).
Proof.
  intros H.
  unfold Spatial.before_join, Spatial.cell_5, Spatial.cell_8, Spatial.cell_11,
    Spatial.cell_14, Spatial.cell_15, Spatial.cell_20, Spatial.cell_30,
    Spatial.cell_43, Spatial.cell_45, Spatial.project_both, Spatial.cell_57 in H.
  repeat step H. injection H as <-.
  unfold Spatial.join_arguments. look. eexists _, _. split; [reflexivity|].
  repeat match goal with
         | E : to_crs _ _ = Ok _ |- _ =>
             apply to_crs_inv in E as (? & ? & ? & ? & ?)
         end.
  simpl in *. simplify_eq. split; congruence.
Qed.

(** Without cell 57 the counties would still be in the CRS they were
    dissolved in, and the join would be called all the same. *)
Lemma spatial_run_unprojected (k : gmap string pyval) :
  Spatial.before_join_unprojected = Ok k ->
  exists l c, Spatial.join_arguments k = Ok (l, c) /\
    crs l = Some (from_user_input Spatial.utm_11) /\
    crs c = Some (from_user_input "epsg:4326") /\
    Spatial.cell_58 k =
      (j <- sjoin l c "left" "within" ;;
       Ok (<["gdf_listings_counties" := PGeo j]> k)).
Proof.
  intros H.
  unfold Spatial.before_join_unprojected, Spatial.cell_5, Spatial.cell_8,
    Spatial.cell_11, Spatial.cell_14, Spatial.cell_15, Spatial.cell_20,
    Spatial.cell_30, Spatial.cell_43, Spatial.cell_45, Spatial.project_both in H.
  repeat step H. injection H as <-.
  unfold Spatial.cell_58, Spatial.join_arguments. look.
  eexists _, _. split; [reflexivity|].
  repeat match goal with
         | E : to_crs _ _ = Ok _ |- _ =>
             apply to_crs_inv in E as (? & ? & ? & ? & ?)
         end.
  simpl in *. simplify_eq. repeat split; congruence.
Qed.

(** Module 12, as the notebook runs it: both arguments of the join are in
    the CRS of the tract shapefile. *)
Lemma models_run_crs (k : gmap string pyval) :
  Models.before_join = Ok k ->
  exists g l t, read_file tracts_shp = Ok g /\
    Models.join_arguments k = Ok (l, t) /\
    crs l = crs g /\ crs t = crs g /\ is_Some (crs g).
Proof.
  intros H.
  unfold Models.before_join, Models.cell_4, Models.cell_5, Models.cell_6,
    Models.cell_8, Models.cell_10, pd_merge in H.
  repeat step H. injection H as <-.
  unfold Models.join_arguments. look.
  eexists _, _, _. split; [reflexivity|]. split; [reflexivity|].
  repeat match goal with
         | E : to_crs _ _ = Ok _ |- _ =>
             apply to_crs_inv in E as (? & ? & ? & ? & ?)
         end.
  simpl in *. simplify_eq. repeat split; try congruence. eauto.
Qed.

(** The runs do get to the join, when the files are served, the shapefile
    carries a CRS, the columns the cells name are there and the library
    calls on the way succeed. *)
Lemma spatial_run_reaches_join (g : GeoDataFrame CRS) (d : DataFrame) :
  read_file tracts_shp = Ok g -> is_Some (crs g) ->
  has_column (frame g) "COUNTYFP" = true ->
  read_csv listings_csv = Ok d ->
  has_column d "longitude" = true -> has_column d "latitude" = true ->
  (forall t, is_ok (dissolve "COUNTYFP" "sum" t) = true) ->
  exists k, Spatial.before_join = Ok k.
Proof.
  intros Hg [c0 Hc0] Hcounty Hd Hlon Hlat Hdis.
  unfold Spatial.before_join, Spatial.cell_5, Spatial.cell_8, Spatial.cell_11,
    Spatial.cell_14, Spatial.cell_15, Spatial.cell_20, Spatial.cell_30,
    Spatial.cell_43, Spatial.cell_45, Spatial.project_both, Spatial.cell_57.
  rewrite Hg. look. unfold rows_isin. rewrite Hcounty. look.
  rewrite Hd. look.
  destruct (points_total d "longitude" "latitude" Hlon Hlat) as [pts Hpts].
  rewrite Hpts. look.
  destruct (points_assignable _ _ _ _ Hpts) as [d' Hd']. rewrite Hd'. look.
  unfold to_crs at 1. simpl crs. rewrite Hc0. look.
  match goal with |- context [dissolve ?a ?b ?t] =>
    specialize (Hdis t); destruct (dissolve a b t); [|discriminate] end.
  look. unfold to_crs. simpl. eauto.
Qed.

Lemma models_run_reaches_join (g : GeoDataFrame CRS) (census listings : DataFrame) :
  read_file tracts_shp = Ok g -> is_Some (crs g) ->
  read_csv census_csv = Ok census ->
  read_csv listings_csv = Ok listings ->
  has_column listings "longitude" = true ->
  has_column listings "latitude" = true ->
  is_ok (merge (frame g) census "GEOID" "GEOID10" "left") = true ->
  exists k, Models.before_join = Ok k.
Proof.
  intros Hg [c0 Hc0] Hcensus Hlist Hlon Hlat Hmerge.
  unfold Models.before_join, Models.cell_4, Models.cell_5, Models.cell_6,
    Models.cell_8, Models.cell_10, pd_merge.
  rewrite Hg. look. rewrite Hcensus. look.
  destruct (merge (frame g) census "GEOID" "GEOID10" "left"); [|discriminate].
  look. rewrite Hlist. look.
  destruct (points_total listings "longitude" "latitude" Hlon Hlat)
    as [pts Hpts].
  rewrite Hpts. look.
  destruct (points_assignable _ _ _ _ Hpts) as [d' Hd']. rewrite Hd'. look.
  unfold to_crs. simpl. rewrite Hc0. eauto.
Qed.

End Runs.

(** C4: the notebooks call [gpd.sjoin] twice, for the left join of
    listings to counties in cell 58 of module 07 and for the inner join of
    listings to tracts in cell 11 of module 12; at both, the two frames
    passed to [gpd.sjoin] have the same CRS, and one is set.  It is the [to_crs] of the cell before (cell 57,
    cell 10) that makes it so, whatever the kernel held until then; in the
    notebooks' own runs the common CRS is UTM zone 11 in module 07 and the
    shapefile's CRS in module 12.  Nothing else enforces it: with cell 57
    left out the join of module 07 is called with frames in two different
    CRSs.  Both runs reach the join when the data is served and has the
    columns the cells name. *)
Theorem sjoin_arguments_share_a_crs `{L : Frames.Library} :
  List.filter (Skeleton.named ["sjoin"]) (flat_map Skeleton.nb_ops Notebooks.all)
  = [Skeleton.Call Skeleton.Geopandas "gpd.sjoin" ["left"; "within"];
     Skeleton.Call Skeleton.Geopandas "gpd.sjoin" ["inner"; "within"]] /\
  (forall k0 k, Spatial.cell_57 k0 = Ok k ->
     exists l c, Spatial.join_arguments k = Ok (l, c) /\
       Frames.crs l = Frames.crs c /\ is_Some (Frames.crs l)) /\
  (forall k0 k, Models.cell_10 k0 = Ok k ->
     exists l t, Models.join_arguments k = Ok (l, t) /\
       Frames.crs l = Frames.crs t /\ is_Some (Frames.crs l)) /\
  (forall k, Spatial.before_join = Ok k ->
     exists l c, Spatial.join_arguments k = Ok (l, c) /\
       Frames.crs l = Some (Frames.from_user_input Spatial.utm_11) /\
       Frames.crs c = Some (Frames.from_user_input Spatial.utm_11)) /\
  (forall k, Models.before_join = Ok k ->
     exists g l t, Frames.read_file tracts_shp = Ok g /\
       Models.join_arguments k = Ok (l, t) /\
       Frames.crs l = Frames.crs g /\ Frames.crs t = Frames.crs g /\
       is_Some (Frames.crs g)) /\
  (forall k, Spatial.before_join_unprojected = Ok k ->
     exists l c, Spatial.join_arguments k = Ok (l, c) /\
       Frames.crs l = Some (Frames.from_user_input Spatial.utm_11) /\
       Frames.crs c = Some (Frames.from_user_input "epsg:4326") /\
       Spatial.cell_58 k =
         (j <- Frames.sjoin l c "left" "within" ;;
          Ok (<["gdf_listings_counties" := Frames.PGeo j]> k))) /\
  (forall g d,
     Frames.read_file tracts_shp = Ok g -> is_Some (Frames.crs g) ->
     Frames.has_column (Frames.frame g) "COUNTYFP" = true ->
     Frames.read_csv listings_csv = Ok d ->
     Frames.has_column d "longitude" = true ->
     Frames.has_column d "latitude" = true ->
     (forall t, is_ok (Frames.dissolve "COUNTYFP" "sum" t) = true) ->
     exists k, Spatial.before_join = Ok k) /\
  (forall g census listings,
     Frames.read_file tracts_shp = Ok g -> is_Some (Frames.crs g) ->
     Frames.read_csv census_csv = Ok census ->
     Frames.read_csv listings_csv = Ok listings ->
     Frames.has_column listings "longitude" = true ->
     Frames.has_column listings "latitude" = true ->
     is_ok (Frames.merge (Frames.frame g) census "GEOID" "GEOID10" "left") = true ->
     exists k, Models.before_join = Ok k).
Proof.
  split; [vm_compute; reflexivity|].
  split; [apply cell_57_establishes|]. split; [apply cell_10_establishes|].
  split; [apply spatial_run_crs|]. split; [apply models_run_crs|].
  split; [apply spatial_run_unprojected|].
  split; [apply spatial_run_reaches_join|apply models_run_reaches_join].
Qed.

(** ** Exceptions in the notebooks *)

Section Propagation.
Import Skeleton.
Variable fault : nat -> option exn.
Variable trip : nat.

Lemma and_then_assoc (o : outcome) (f g : nat -> outcome) :
  and_then (and_then o f) g = and_then o (fun n => and_then (f n) g).
Proof. destruct o; reflexivity. Qed.

Lemma and_then_ext (o : outcome) (f g : nat -> outcome) :
  (forall n, f n = g n) -> and_then o f = and_then o g.
Proof. intros H. destruct o; simpl; auto. Qed.

Lemma scan_add (a b n : nat) :
  scan fault (a + b) n = and_then (scan fault a n) (scan fault b).
Proof.
  revert n. induction a as [|a IH]; intros n; simpl; [reflexivity|].
  rewrite and_then_assoc. apply and_then_ext. intros m. apply IH.
Qed.

Lemma run_ops_scan (os : list op) (n : nat) :
  run_ops fault os n = scan fault (length os) n.
Proof.
  revert n. induction os as [|o os IH]; intros n; simpl; [reflexivity|].
  apply and_then_ext, IH.
Qed.

Lemma iterate_scan (body : nat -> outcome) (len k n : nat) :
  (forall m, body m = scan fault len m) ->
  iterate body k n = scan fault (k * len) n.
Proof.
  intros Hb. revert n. induction k as [|k IH]; intros n; simpl; [reflexivity|].
  rewrite scan_add, Hb. apply and_then_ext, IH.
Qed.

Lemma simple_scan (os : list op) (n : nat) :
  and_then (run_ops fault os n) (tick fault) = scan fault (S (length os)) n.
Proof.
  rewrite run_ops_scan. replace (S (length os)) with (length os + 1)%nat by lia.
  rewrite scan_add. apply and_then_ext. intros m. simpl.
  destruct (tick fault m); reflexivity.
Qed.

Lemma run_block_scan_from (ss : list stmt) :
  Forall (fun s => has_try s = false ->
                   forall n, run_stmt fault trip s n = scan fault (steps trip s) n) ss ->
  existsb has_try ss = false ->
  forall n, run_block fault trip ss n
            = scan fault (list_sum (map (steps trip) ss)) n.
Proof.
  induction 1 as [|s ss Hs _ IH]; intros Hno n; simpl; [reflexivity|].
  simpl in Hno. apply orb_false_iff in Hno as [H1 H2].
  rewrite scan_add, (Hs H1). apply and_then_ext. intros m. apply IH, H2.
Qed.

Lemma run_stmt_scan (s : stmt) :
  has_try s = false ->
  forall n, run_stmt fault trip s n = scan fault (steps trip s) n.
Proof.
  revert s. fix IH 1. intros s Hno n.
  destruct s as [ts os|os|t it body|t it el|body handler|ms|cmd|x|txt];
    try discriminate Hno.
  - apply simple_scan.
  - apply simple_scan.
  - simpl in Hno.
    change (run_stmt fault trip (For t it body) n)
      with (and_then (and_then (run_ops fault it n) (tick fault))
                     (iterate (run_block fault trip body) trip)).
    cbn [steps]. rewrite scan_add, simple_scan. apply and_then_ext. intros m.
    apply iterate_scan. intros m'. apply run_block_scan_from; [|exact Hno].
    clear -IH. induction body as [|b body IHb]; constructor; [apply IH|exact IHb].
  - cbn [run_stmt steps]. rewrite scan_add, simple_scan. apply and_then_ext.
    intros m. apply iterate_scan. apply run_ops_scan.
  - cbn. destruct (tick fault n); reflexivity.
  - cbn. destruct (tick fault n); reflexivity.
  - cbn. destruct (tick fault n); reflexivity.
  - cbn. destruct (tick fault n); reflexivity.
Qed.

Lemma run_cell_scan (c : cell) (n : nat) :
  cell_has_try c = false ->
  run_cell fault trip c n = scan fault (cell_steps trip c) n.
Proof.
  intros Hno. apply run_block_scan_from; [|exact Hno].
  apply Forall_forall. intros s _. apply run_stmt_scan.
Qed.

Lemma scan_quiet (len n : nat) :
  (forall j, (j < len)%nat -> fault (n + j)%nat = None) ->
  scan fault len n = Done (n + len)%nat.
Proof.
  revert n. induction len as [|len IH]; intros n Hq; simpl.
  - f_equal. lia.
  - unfold tick. rewrite <- (Nat.add_0_r n) at 1. rewrite (Hq 0%nat) by lia.
    simpl. rewrite IH; [f_equal; lia|].
    intros j Hj. replace (S n + j)%nat with (n + S j)%nat by lia. apply Hq. lia.
Qed.

Lemma scan_first (len n j : nat) (e : exn) :
  (j < len)%nat -> fault (n + j)%nat = Some e ->
  (forall j', (j' < j)%nat -> fault (n + j')%nat = None) ->
  scan fault len n = Raised e (S (n + j)).
Proof.
  revert n j. induction len as [|len IH]; intros n j Hj He Hq; [lia|].
  simpl. unfold tick. destruct j as [|j].
  - rewrite Nat.add_0_r in He. rewrite He. simpl. f_equal. lia.
  - rewrite <- (Nat.add_0_r n) at 1. rewrite (Hq 0%nat) by lia. simpl.
    rewrite (IH (S n) j); [f_equal; lia|lia| |].
    + replace (S n + j)%nat with (n + S j)%nat by lia. exact He.
    + intros j' Hj'. replace (S n + j')%nat with (n + S j')%nat by lia.
      apply Hq. lia.
Qed.

End Propagation.

(** A handler does stop an exception: the semantics can tell a notebook
    with [try] from one without. *)
Example try_swallows :
  Skeleton.run_cell (fun n => if Nat.eqb n 0 then Some ZeroDivisionError else None)
    0 [Skeleton.Try [Skeleton.Expr [Skeleton.Operator Skeleton.Builtin "/"]] []] 0
  = Skeleton.Done 1.
Proof. reflexivity. Qed.

(** C5: no notebook has a [try] statement, and so, in every code cell of
    every notebook and from any point of a run, the first evaluation step
    that raises ends the cell with exactly that exception (it is not
    caught, replaced or followed by further steps); a cell in which no
    step raises runs all its steps. *)
Theorem exceptions_reach_the_interpreter
  (nb : Skeleton.notebook) (i : nat) (c : Skeleton.cell)
  (fault : nat -> option exn) (trip n : nat) :
  In nb Notebooks.all -> In (i, c) (Skeleton.cells nb) ->
  Skeleton.nb_has_try nb = false /\
  (forall (j : nat) (e : exn),
     (j < Skeleton.cell_steps trip c)%nat ->
     fault (n + j)%nat = Some e ->
     (forall j', (j' < j)%nat -> fault (n + j')%nat = None) ->
     Skeleton.run_cell fault trip c n = Skeleton.Raised e (S (n + j))) /\
  ((forall j, (j < Skeleton.cell_steps trip c)%nat -> fault (n + j)%nat = None) ->
   Skeleton.run_cell fault trip c n
   = Skeleton.Done (n + Skeleton.cell_steps trip c)).
Proof.
  intros Hnb Hc.
  assert (Hno : Skeleton.nb_has_try nb = false).
  { simpl in Hnb. destruct Hnb as [<-|[<-|[<-|[<-|[]]]]]; vm_compute; reflexivity. }
  assert (Hcell : Skeleton.cell_has_try c = false).
  { unfold Skeleton.nb_has_try in Hno.
    destruct (Skeleton.cell_has_try c) eqn:E; [|done].
    assert (existsb (fun ic => Skeleton.cell_has_try ic.2) (Skeleton.cells nb) = true)
      as Hex; [|congruence].
    apply existsb_exists. by exists (i, c). }
  split; [exact Hno|]. split.
  - intros j e Hj He Hq. rewrite run_cell_scan by exact Hcell.
    by apply scan_first.
  - intros Hq. rewrite run_cell_scan by exact Hcell. by apply scan_quiet.
Qed.

(** ** Effects of the notebooks *)

Section WorldFacts.
Import Skeleton.
Context {blob : Type}.
Variable render : string -> list blob -> blob.
Variable remote : string -> option blob.

(** Without a read from the disk, what a run reads, produces and ends with
    does not depend on the disk it starts from. *)
Lemma do_effects_ignore_disk (es : list effect) (r1 r2 : run_state blob) :
  existsb reads_local es = false ->
  seen r1 = seen r2 -> produced r1 = produced r2 ->
  results (do_effects render remote es r1)
  = results (do_effects render remote es r2).
Proof.
  revert r1 r2. induction es as [|e es IH]; intros r1 r2 Hno Hs Hp.
  - unfold results. simpl. by rewrite Hs, Hp.
  - simpl in Hno. apply orb_false_iff in Hno as [He Hes].
    destruct e as [u|[p|]|w [p|]|cmd|m]; simpl in He; try discriminate; simpl.
    + destruct (remote u) as [b|].
      * apply IH; [done|simpl; by rewrite Hs|done].
      * unfold results. simpl. by rewrite Hs, Hp.
    + apply IH; [done|done|simpl; by rewrite Hs, Hp].
    + unfold results. simpl. by rewrite Hs, Hp.
    + by apply IH.
    + by apply IH.
Qed.

(** A run leaves every file alone that it does not write. *)
Lemma do_effects_frame (es : list effect) (r : run_state blob) (p : string) :
  ~ In p (flat_map writes_of es) ->
  disk (fst (do_effects render remote es r)) !! p = disk r !! p.
Proof.
  revert r. induction es as [|e es IH]; intros r Hp; [done|].
  simpl in Hp. rewrite in_app_iff in Hp.
  assert (~ In p (writes_of e)) as He by tauto.
  assert (~ In p (flat_map writes_of es)) as Hes by tauto.
  simpl. destruct (do_effect render remote e r) as [r'|x] eqn:E; [|done].
  rewrite IH by done.
  destruct e as [u|[q|]|w [q|]|cmd|m]; simpl in E.
  - destruct (remote u); [|discriminate]. by injection E as <-.
  - destruct (disk r !! q); [|discriminate]. by injection E as <-.
  - discriminate.
  - injection E as <-. simpl. apply lookup_insert_ne. simpl in He. tauto.
  - discriminate.
  - by injection E as <-.
  - by injection E as <-.
Qed.

Lemma run_ignores_disk (nb : notebook) (d d' : gmap string blob) :
  existsb reads_local (nb_effects nb) = false ->
  results (run_notebook render remote nb d)
  = results (run_notebook render remote nb d').
Proof. intros H. by apply do_effects_ignore_disk. Qed.

End WorldFacts.

Lemma disjoint_sound (xs ys : list string) :
  Skeleton.disjoint xs ys = true -> forall p, In p xs -> ~ In p ys.
Proof.
  unfold Skeleton.disjoint. rewrite forallb_forall. intros H p Hx Hy.
  specialize (H p Hx). apply negb_true_iff in H.
  assert (existsb (String.eqb p) ys = true) as Hex; [|congruence].
  apply existsb_exists. exists p. split; [done|apply String.eqb_refl].
Qed.

(** C3 as stated fails in the three notebooks that start with
    [!pip install ...]: that shell command
    is neither a fetch of course data nor a PNG written by [savefig]. *)
Lemma pip_install_is_an_effect :
  In (Skeleton.RunShell "pip install numpy pandas seaborn")
     (Skeleton.nb_effects Notebooks.nb06) /\
  Skeleton.touches_disk (Skeleton.RunShell "pip install numpy pandas seaborn")
  = true /\
  ~ Forall (fun nb => forallb Skeleton.data_in_png_out (Skeleton.nb_effects nb) = true)
           Notebooks.all.
Proof.
  split; [vm_compute; by left|]. split; [reflexivity|].
  intros H. inversion H as [|? ? _ H']. inversion H' as [|? ? H06 _].
  vm_compute in H06. discriminate.
Qed.

(** C3 (amended): every effect of every notebook outside the kernel is a
    fetch of a file under https://raw.githubusercontent.com/ by [read_csv]
    or [read_file], a PNG written by [savefig], the import of a module, or
    the [pip install] shell command; that command is the first code cell of
    modules 06, 07 and 12 and occurs nowhere else, and module 03 has no
    effect at all.  No call reads a local file, the only writer called is
    [savefig] (there is no [to_csv] or [to_file]), and a run leaves every
    file of the working directory alone that is not one of its PNGs. *)
Theorem data_comes_from_urls_and_only_pngs_are_written :
  Forall (fun nb =>
            forallb Skeleton.data_in_png_out_or_pip (Skeleton.nb_effects nb) = true /\
            existsb Skeleton.reads_local (Skeleton.nb_effects nb) = false /\
            forallb (fun o => implb (Skeleton.named Skeleton.writers o)
                                    (Skeleton.named ["savefig"] o))
                    (Skeleton.nb_ops nb) = true /\
            existsb (Skeleton.named ["to_csv"; "to_file"]) (Skeleton.nb_ops nb) = false /\
            forallb (Skeleton.ends_with ".png") (Skeleton.nb_writes nb) = true)
         Notebooks.all /\
  Skeleton.nb_effects Notebooks.nb03 = [] /\
  Forall (fun nb =>
            exists cmd rest,
              Skeleton.cells nb = (1%nat, [Skeleton.Shell cmd]) :: rest /\
              String.prefix "pip install " cmd = true /\
              existsb Skeleton.pip_install
                (flat_map (fun ic => Skeleton.cell_effects ic.2) rest) = false)
         Notebooks.data_notebooks /\
  (forall (blob : Type) (render : string -> list blob -> blob)
          (remote : string -> option blob) (d : gmap string blob) (p : string),
     Forall (fun nb =>
               ~ In p (Skeleton.nb_writes nb) ->
               Skeleton.disk (fst (Skeleton.run_notebook render remote nb d)) !! p
               = d !! p)
            Notebooks.all).
Proof.
  split.
  { repeat (apply List.Forall_cons; [vm_compute; by repeat split|]).
    apply List.Forall_nil. }
  split; [reflexivity|]. split.
  { repeat (apply List.Forall_cons;
            [eexists _, _; split; [reflexivity|split; vm_compute; reflexivity]|]).
    apply List.Forall_nil. }
  intros blob render remote d p. apply List.Forall_forall. intros nb _ Hp.
  unfold Skeleton.run_notebook. by rewrite do_effects_frame.
Qed.


(** ** What each notebook does *)




(** No call in any notebook draws random numbers or starts concurrent
    work, and no notebook imports a module that would. *)
Lemma no_call_is_random_or_concurrent :
  Forall (fun nb =>
            existsb (Skeleton.named Skeleton.random_or_concurrent)
                    (Skeleton.nb_ops nb) = false /\
            Skeleton.disjoint (Skeleton.imports nb)
                              Skeleton.random_or_concurrent_modules = true)
         Notebooks.all.
Proof.
  repeat (apply List.Forall_cons; [split; vm_compute; reflexivity|]).
  apply List.Forall_nil.
Qed.


(** * Further properties of the cells *)

(** ** Module 03: slices, indexing and [replace] *)

Section Sequences.
Import Builtins.

Lemma chars_length (s : string) : length (chars s) = String.length s.
Proof. unfold chars. induction s as [|c s IH]; simpl; congruence. Qed.

Lemma text_length (l : list ascii) : String.length (text l) = length l.
Proof. unfold text. induction l as [|c l IH]; simpl; congruence. Qed.

Lemma append_nil (s : string) : EmptyString ++ s = s.
Proof. reflexivity. Qed.

Lemma append_cons (c : ascii) (a b : string) :
  String c a ++ b = String c (a ++ b).
Proof. reflexivity. Qed.

Lemma text_app (a b : list ascii) : text (a ++ b)%list = text a ++ text b.
Proof.
  unfold text. induction a as [|c a IH]; simpl; [reflexivity|].
  rewrite append_cons. congruence.
Qed.

Lemma chars_app (a b : string) : chars (a ++ b) = (chars a ++ chars b)%list.
Proof.
  unfold chars. induction a as [|c a IH]; [reflexivity|].
  rewrite append_cons. simpl. congruence.
Qed.

Lemma text_chars (s : string) : text (chars s) = s.
Proof. apply string_of_list_ascii_of_string. Qed.

Lemma chars_text (l : list ascii) : chars (text l) = l.
Proof. apply list_ascii_of_string_of_list_ascii. Qed.

Lemma clamp_range (len i : Z) : 0 <= len -> 0 <= clamp len i <= len.
Proof. unfold clamp. destruct (Z.ltb_spec i 0); lia. Qed.

(** [l[:n] + l[n:] == l], for every [n]. *)
Lemma slice_split {A : Type} (l : list A) (n : Z) :
  (slice l None (Some n) ++ slice l (Some n) None)%list = l.
Proof.
  unfold slice.
  pose proof (clamp_range (Z.of_nat (length l)) n ltac:(lia)) as Hc.
  set (c := clamp (Z.of_nat (length l)) n) in *.
  rewrite Z.sub_0_r. change (Z.to_nat 0) with 0%nat. rewrite drop_0.
  rewrite (take_ge (drop _ _)) by (rewrite length_drop; lia).
  apply take_drop.
Qed.

(** A slice from [-n] to the end is the last [n] elements, or everything
    when there are fewer. *)
Lemma slice_last {A : Type} (l : list A) (n : nat) :
  (0 < n)%nat ->
  slice l (Some (- Z.of_nat n)) None = drop (length l - n) l.
Proof.
  intros Hn. unfold slice, clamp.
  destruct (Z.ltb_spec (- Z.of_nat n) 0); [|lia].
  rewrite take_ge by (rewrite length_drop; lia).
  f_equal. lia.
Qed.

Lemma slice_length {A : Type} (l : list A) (lo hi : nat) :
  length (slice l (Some (Z.of_nat lo)) (Some (Z.of_nat hi)))
  = (Nat.min hi (length l) - Nat.min lo (length l))%nat.
Proof.
  unfold slice, clamp.
  destruct (Z.ltb_spec (Z.of_nat lo) 0); [lia|].
  destruct (Z.ltb_spec (Z.of_nat hi) 0); [lia|].
  rewrite length_take, length_drop. lia.
Qed.

Lemma item_spec {A : Type} (l : list A) (i : nat) :
  item l (Z.of_nat i) = Bootcamp.getitem l i.
Proof.
  unfold item, Bootcamp.getitem.
  destruct (Z.ltb_spec (Z.of_nat i) 0); [lia|].
  rewrite Nat2Z.id.
  destruct (l !! i) eqn:E.
  - apply lookup_lt_Some in E.
    destruct (Z.leb_spec 0 (Z.of_nat i)); [|lia].
    destruct (Z.ltb_spec (Z.of_nat i) (Z.of_nat (length l))); [|lia].
    reflexivity.
  - destruct (_ && _); reflexivity.
Qed.

End Sequences.

Section StringFacts.
Import Builtins StringCells.

Lemma str_item_nat (s : string) (i : nat) :
  str_item s (Z.of_nat i)
  = (c <- Bootcamp.getitem (chars s) i ;; Ok (String c EmptyString)).
Proof. unfold str_item. rewrite item_spec. reflexivity. Qed.

Lemma str_slice_split (s : string) (n : Z) :
  str_slice s None (Some n) ++ str_slice s (Some n) None = s.
Proof.
  unfold str_slice. rewrite <- text_app, slice_split. apply text_chars.
Qed.

Lemma replace_one_character (a b : ascii) (s : string) :
  replace s (String a EmptyString) (String b EmptyString)
  = text (map (swap a b) (chars s)).
Proof.
  unfold replace, text, chars.
  induction s as [|c s IH]; [reflexivity|].
  cbn [replace_from String.prefix list_ascii_of_string map string_of_list_ascii].
  unfold swap at 1.
  destruct (ascii_dec a c) as [->|Hne].
  - rewrite Ascii.eqb_refl.
    assert (String.prefix EmptyString s = true) as -> by (destruct s; reflexivity).
    cbn [String.length Nat.sub]. rewrite append_cons, append_nil. congruence.
  - destruct (Ascii.eqb_spec c a) as [->|_]; [congruence|]. congruence.
Qed.

End StringFacts.

(** X1.  Cells 63 and 64 cut [location] in two at position 5:
    [location[:5] + location[5:]] is [location] again, whatever string it
    holds, also one shorter than five characters; with [location] unbound
    both cells raise NameError. *)
Theorem first_five_and_the_rest_rejoin (k : StringCells.kernel) :
  (a <- StringCells.cell_63 k ;; b <- StringCells.cell_64 k ;; Ok (a ++ b))
  = StringCells.name "location" (StringCells.location k).
Proof.
  unfold StringCells.cell_63, StringCells.cell_64, StringCells.name.
  destruct (StringCells.location k) as [s|]; [|reflexivity].
  cbn [Bootcamp.name bind]. f_equal. apply str_slice_split.
Qed.

(** X2.  A slice never raises: on any [location], cell 65
    ([location[-8:]]) shows its last eight characters, or all of it when
    it has fewer, and cell 62 ([location[4:7]]) what there is of the
    characters at positions 4, 5 and 6. *)
Theorem slices_take_what_there_is (k : StringCells.kernel) (s : string) :
  StringCells.location k = Some s ->
  (exists t u, StringCells.cell_65 k = Ok t /\ s = u ++ t
     /\ String.length t = Nat.min (String.length s) 8)
  /\ (exists t, StringCells.cell_62 k = Ok t
     /\ String.length t
        = (Nat.min 7 (String.length s) - Nat.min 4 (String.length s))%nat).
Proof.
  intros Hs. unfold StringCells.cell_65, StringCells.cell_62, StringCells.name.
  rewrite Hs. cbn [Bootcamp.name bind]. unfold Builtins.str_slice. split.
  - change (-8) with (- Z.of_nat 8). rewrite slice_last by lia.
    eexists _, (Builtins.text (take (length (Builtins.chars s) - 8)
                                    (Builtins.chars s))).
    split; [reflexivity|]. split.
    + rewrite <- text_app, take_drop, text_chars. reflexivity.
    + rewrite text_length, length_drop, chars_length. lia.
  - eexists. split; [reflexivity|].
    change 4 with (Z.of_nat 4). change 7 with (Z.of_nat 7).
    rewrite text_length, slice_length, chars_length. reflexivity.
Qed.

(** X3.  Indexing does raise: cell 59 ([location[0]]) raises IndexError
    exactly when [location] is the empty string and cell 60 (positions 0,
    1 and 2) exactly when it has fewer than three characters; otherwise
    they give the first character and the first three. *)
Theorem indexing_raises_past_the_end (k : StringCells.kernel) (s : string) :
  StringCells.location k = Some s ->
  (StringCells.cell_59 k = Raise IndexError <-> s = EmptyString)
  /\ (StringCells.cell_60 k = Raise IndexError <-> (String.length s < 3)%nat)
  /\ (forall c r, s = String c r ->
        StringCells.cell_59 k = Ok (String c EmptyString))
  /\ (forall a b c r, s = String a (String b (String c r)) ->
        StringCells.cell_60 k
        = Ok [String a EmptyString; String b EmptyString;
              String c EmptyString]).
Proof.
  intros Hs. unfold StringCells.cell_59, StringCells.cell_60, StringCells.name.
  rewrite Hs. cbn [Bootcamp.name bind].
  change 0 with (Z.of_nat 0). change 1 with (Z.of_nat 1).
  change 2 with (Z.of_nat 2). rewrite !str_item_nat.
  destruct s as [|a [|b [|c r]]]; cbn; repeat split;
    try congruence; try lia; intros; try discriminate; try congruence.
Qed.

(** X4.  Cell 66 ([location.replace("e", "E")]) works character by
    character: the result has the length of [location], an ["E"] wherever
    [location] has an ["e"] and the same character everywhere else, so no
    ["e"] is left and replacing again changes nothing. *)
Theorem replace_is_character_by_character
  (k : StringCells.kernel) (s : string) :
  StringCells.location k = Some s ->
  exists t, StringCells.cell_66 k = Ok t
    /\ Builtins.chars t = map (Builtins.swap "e" "E") (Builtins.chars s)
    /\ String.length t = String.length s
    /\ ~ In "e"%char (Builtins.chars t)
    /\ Builtins.replace t "e" "E" = t.
Proof.
  intros Hs. unfold StringCells.cell_66, StringCells.name.
  rewrite Hs. cbn [Bootcamp.name bind]. eexists. split; [reflexivity|].
  rewrite !replace_one_character, chars_text.
  assert (forall l, ~ In "e"%char (map (Builtins.swap "e" "E") l)) as Hno.
  { intros l [c [Hc _]]%in_map_iff. unfold Builtins.swap in Hc.
    destruct (Ascii.eqb_spec c "e"); congruence. }
  repeat split.
  - rewrite text_length, length_map. apply chars_length.
  - apply Hno.
  - f_equal. rewrite map_map. apply map_ext_in. intros c _.
    unfold Builtins.swap. destruct (Ascii.eqb_spec c "e") as [->|]; [reflexivity|].
    destruct (Ascii.eqb_spec c "e"); congruence.
Qed.

(** ** Module 03: converting between [int] and [str] *)

Section Conversions.
Import Builtins.

Lemma lstrip_keeps (l : list ascii) :
  match l with c :: _ => is_space c = false | [] => True end ->
  lstrip l = l.
Proof. destruct l as [|c l]; [reflexivity|]. simpl. intros ->. reflexivity. Qed.

Lemma strip_keeps (l : list ascii) :
  Forall (fun c => is_space c = false) l -> strip l = l.
Proof.
  intros H. unfold strip.
  rewrite (lstrip_keeps l) by (destruct H; auto).
  rewrite lstrip_keeps; [apply rev_involutive|].
  apply List.Forall_rev in H. destruct H; auto.
Qed.

(** The characters [str] writes for an unsigned decimal number. *)
Lemma uint_chars_digits (d : Decimal.uint) :
  Forall (fun c => is_space c = false /\ digit c <> None
                   /\ Ascii.eqb c "-" = false /\ Ascii.eqb c "+" = false)
         (chars (NilEmpty.string_of_uint d)).
Proof.
  unfold chars.
  induction d; simpl; constructor; auto; repeat split; discriminate.
Qed.

Lemma uint_chars_length (d : Decimal.uint) :
  String.length (NilEmpty.string_of_uint d) = Decimal.nb_digits d.
Proof. induction d; simpl; congruence. Qed.

Ltac eval_digit :=
  match goal with
  | |- context [digit ?c] =>
      let v := eval vm_compute in (digit c) in change (digit c) with v
  end.

Lemma digits_uint_acc (d : Decimal.uint) (a : positive) (n : nat) :
  digits (chars (NilEmpty.string_of_uint d)) (Z.pos a) n true
  = Some (Z.pos (Pos.of_uint_acc d a), (n + Decimal.nb_digits d)%nat).
Proof.
  unfold chars. revert a n.
  induction d; intros a n; simpl list_ascii_of_string;
    cbn [digits Pos.of_uint_acc Decimal.nb_digits];
    [ f_equal; f_equal; lia | .. ];
    eval_digit; cbv iota;
    match goal with
    | |- digits _ ?acc _ _ = Some (Z.pos (Pos.of_uint_acc _ ?p), _) =>
        replace acc with (Z.pos p) by lia
    end; rewrite IHd; f_equal; f_equal; lia.
Qed.

Lemma digits_uint (d : Decimal.uint) (n : nat) (b : bool) :
  d <> Decimal.Nil ->
  digits (chars (NilEmpty.string_of_uint d)) 0 n b
  = Some (Z.of_N (Pos.of_uint d), (n + Decimal.nb_digits d)%nat).
Proof.
  unfold chars. revert n b.
  induction d; intros n b Hd; [congruence| ..]; simpl list_ascii_of_string;
    cbn [digits Pos.of_uint Decimal.nb_digits]; eval_digit; cbv iota.
  1: { destruct d;
       [ cbn; f_equal; f_equal; lia
       | change (10 * 0 + 0) with 0;
         rewrite IHd by discriminate; f_equal; f_equal; lia .. ]. }
  all: match goal with
    | |- digits _ ?acc _ _ = Some (Z.of_N (N.pos (Pos.of_uint_acc _ ?p)), _) =>
        change acc with (Z.pos p)
    end; fold (chars (NilEmpty.string_of_uint d));
    rewrite digits_uint_acc; f_equal; f_equal; lia.
Qed.

Lemma int_of_str_uint (d : Decimal.uint) :
  d <> Decimal.Nil -> (Decimal.nb_digits d <= max_str_digits)%nat ->
  int_of_str (NilEmpty.string_of_uint d) = Ok (Z.of_N (Pos.of_uint d))
  /\ int_of_str (String "-" (NilEmpty.string_of_uint d))
     = Ok (- Z.of_N (Pos.of_uint d)).
Proof.
  intros Hd Hn. pose proof (uint_chars_digits d) as Hc.
  assert (Forall (fun c => is_space c = false)
                 (chars (NilEmpty.string_of_uint d))) as Hs.
  { eapply Forall_impl; [exact Hc|]. intros c H. apply H. }
  unfold int_of_str. split.
  - rewrite strip_keeps by exact Hs.
    destruct (chars (NilEmpty.string_of_uint d)) as [|c l] eqn:E.
    { unfold chars in E. destruct d; [congruence|discriminate..]. }
    apply List.Forall_inv in Hc. destruct Hc as (_ & _ & -> & ->).
    rewrite <- E, digits_uint by exact Hd. cbn [Nat.add].
    destruct (Nat.leb_spec (Decimal.nb_digits d) max_str_digits); [reflexivity|lia].
  - change (chars (String "-" ?x)) with ("-"%char :: chars x).
    rewrite strip_keeps by (constructor; [reflexivity|exact Hs]).
    cbn [Ascii.eqb Bool.eqb].
    rewrite digits_uint by exact Hd. cbn [Nat.add].
    destruct (Nat.leb_spec (Decimal.nb_digits d) max_str_digits); [reflexivity|lia].
Qed.

(** The decimal number [Bootcamp.str] writes for [n >= 0]. *)
Lemma str_unsigned (n : Z) :
  0 <= n ->
  exists d, Bootcamp.str n = NilEmpty.string_of_uint d /\ d <> Decimal.Nil
    /\ Z.of_N (Pos.of_uint d) = n.
Proof.
  intros Hn. destruct n as [|p|p]; [| |lia].
  - exists (Decimal.D0 Decimal.Nil). repeat split. discriminate.
  - exists (Pos.to_uint p). pose proof (Unsigned.to_uint_nonnil p) as Hd.
    split; [|split; [exact Hd|]].
    + unfold Bootcamp.str. cbn. destruct (Pos.to_uint p); [congruence|reflexivity..].
    + rewrite DecimalPos.Unsigned.of_to. reflexivity.
Qed.

Lemma str_negative (p : positive) :
  Bootcamp.str (Z.neg p) = String "-" (NilEmpty.string_of_uint (Pos.to_uint p)).
Proof.
  pose proof (Unsigned.to_uint_nonnil p) as Hd.
  unfold Bootcamp.str. cbn. destruct (Pos.to_uint p); [congruence|reflexivity..].
Qed.

Lemma zeros_in_front (m : nat) (d : Decimal.uint) :
  copies "0" m ++ NilEmpty.string_of_uint d
  = NilEmpty.string_of_uint (Nat.iter m Decimal.D0 d).
Proof.
  induction m as [|m IH]; [reflexivity|].
  change (Nat.iter (S m) Decimal.D0 d) with (Decimal.D0 (Nat.iter m Decimal.D0 d)).
  cbn [NilEmpty.string_of_uint]. rewrite <- IH. reflexivity.
Qed.

Lemma of_uint_zeros (m : nat) (d : Decimal.uint) :
  Pos.of_uint (Nat.iter m Decimal.D0 d) = Pos.of_uint d.
Proof. induction m as [|m IH]; [reflexivity|]. exact IH. Qed.

(** No character of a string that [int] accepts is anything but a digit,
    a sign, an underscore or whitespace. *)
Lemma digits_only (l : list ascii) (acc : Z) (n : nat) (b : bool) (r : Z * nat) :
  digits l acc n b = Some r ->
  Forall (fun c => digit c <> None \/ c = "_"%char) l.
Proof.
  revert acc n b. induction l as [|c l IH]; intros acc n b H; [constructor|].
  cbn [digits] in H. destruct (digit c) eqn:Ed.
  - constructor; [left; congruence|]. eapply IH, H.
  - destruct (Ascii.eqb_spec c "_"); [|discriminate].
    destruct b; [|discriminate]. constructor; [right; assumption|].
    eapply IH, H.
Qed.

Lemma lstrip_sublist (l : list ascii) (c : ascii) :
  In c l -> is_space c = false -> In c (lstrip l).
Proof.
  induction l as [|a l IH]; [easy|]. intros [->|Hin] Hc; cbn [lstrip].
  - rewrite Hc. left. reflexivity.
  - destruct (is_space a); [auto|right; exact Hin].
Qed.

Lemma strip_keeps_others (l : list ascii) (c : ascii) :
  In c l -> is_space c = false -> In c (strip l).
Proof.
  intros Hin Hc. unfold strip.
  apply in_rev. rewrite rev_involutive.
  apply lstrip_sublist; [|exact Hc]. apply -> in_rev.
  apply lstrip_sublist; assumption.
Qed.

Lemma int_of_str_alphabet (s : string) (n : Z) (c : ascii) :
  int_of_str s = Ok n -> In c (chars s) ->
  digit c <> None \/ In c ["_"; "+"; "-"]%char \/ is_space c = true.
Proof.
  unfold int_of_str. intros H Hin.
  destruct (is_space c) eqn:Hc; [auto|].
  apply strip_keeps_others in Hin; [|exact Hc].
  set (body := strip (chars s)) in *.
  assert (forall rest r, digits rest 0 0 false = Some r -> In c rest ->
            digit c <> None \/ In c ["_"; "+"; "-"]%char \/ false = true) as Hd.
  { intros rest r Hr Hi. apply digits_only in Hr.
    rewrite List.Forall_forall in Hr. destruct (Hr c Hi) as [?| ->]; [auto|].
    right. left. left. reflexivity. }
  destruct body as [|a l]; [destruct Hin|].
  destruct (Ascii.eqb_spec a "-") as [->|Hm].
  { destruct (digits l 0 0 false) as [r|] eqn:E; [|discriminate].
    destruct Hin as [<-|Hin]; [right; left; cbn; auto|]. eapply Hd; eauto. }
  destruct (Ascii.eqb_spec a "+") as [->|Hp].
  { destruct (digits l 0 0 false) as [r|] eqn:E; [|discriminate].
    destruct Hin as [<-|Hin]; [right; left; cbn; auto|]. eapply Hd; eauto. }
  destruct (digits (a :: l) 0 0 false) as [r|] eqn:E; [|discriminate].
  eapply Hd; eauto.
Qed.

Lemma int_of_str_raises (s : string) (e : exn) :
  int_of_str s = Raise e -> e = ValueError.
Proof.
  unfold int_of_str.
  destruct (match strip (chars s) with [] => _ | _ :: _ => _ end) as [neg rest].
  destruct (digits rest 0 0 false) as [[v c]|]; [|congruence].
  destruct (c <=? max_str_digits)%nat; congruence.
Qed.

End Conversions.

(** X5.  [int] undoes [str]: whenever [str(n)] gives a string for an int
    [n], [int] of that string is [n] again (cells 71 and 78 call the two
    on [zip_code]). *)
Theorem int_undoes_str (n : Z) (s : string) :
  Builtins.str (Builtins.Int n) = Ok s ->
  Builtins.int (Builtins.Str s) = Ok n.
Proof.
  cbn [Builtins.str Builtins.int]. unfold Builtins.str_of_int. intros H.
  destruct (Nat.leb_spec
    (String.length (Bootcamp.str n) - (if (n <? 0)%Z then 1 else 0))
    Builtins.max_str_digits) as [Hle|]; [|discriminate].
  injection H as <-.
  destruct (Z.ltb_spec n 0) as [Hneg|Hpos].
  - destruct n as [|p|p]; try lia.
    rewrite str_negative in *. cbn [String.length] in Hle.
    rewrite uint_chars_length in Hle.
    destruct (int_of_str_uint (Pos.to_uint p)) as [_ ->];
      [apply Unsigned.to_uint_nonnil|lia|].
    rewrite DecimalPos.Unsigned.of_to. reflexivity.
  - destruct (str_unsigned n Hpos) as (d & E & Hd & Hv).
    rewrite E in *. rewrite uint_chars_length in Hle.
    destruct (int_of_str_uint d) as [-> _]; [exact Hd|lia|].
    congruence.
Qed.

(** X6.  [str] does not undo [int]: cell 71 ([zip_code = int(zip_code)])
    run on a zip code written with leading zeros, as the ["02115"] of
    cell 57 is, binds the number without them, and [str] of that number
    is the shorter string. *)
Theorem int_drops_leading_zeros
  (k : StringCells.kernel) (m : nat) (n : Z) (s : string) :
  0 <= n ->
  Builtins.str_of_int n = Ok s ->
  (m + String.length s <= Builtins.max_str_digits)%nat ->
  StringCells.zip_code k
    = Some (Builtins.Str (Builtins.copies "0" m ++ s)) ->
  StringCells.cell_71 k
    = (StringCells.set_zip_code (Builtins.Int n) k, Ok (Builtins.Int n))
  /\ Builtins.str (Builtins.Int n) = Ok s
  /\ ((0 < m)%nat -> s <> Builtins.copies "0" m ++ s).
Proof.
  intros Hn Hs Hm Hz.
  assert (Builtins.int_of_str (Builtins.copies "0" m ++ s) = Ok n) as Hi.
  { unfold Builtins.str_of_int in Hs.
    destruct (_ <=? _)%nat; [|discriminate]. injection Hs as <-.
    destruct (str_unsigned n Hn) as (d & E & Hd & Hv). rewrite E in *.
    rewrite zeros_in_front.
    rewrite uint_chars_length in Hm.
    destruct (int_of_str_uint (Nat.iter m Decimal.D0 d)) as [-> _].
    - destruct m; [exact Hd|discriminate].
    - rewrite nb_digits_iter_D0. exact Hm.
    - rewrite of_uint_zeros. congruence. }
  split; [|split].
  - unfold StringCells.cell_71, shown, bind_name, StringCells.name.
    rewrite Hz. cbn [Bootcamp.name bind Builtins.int]. rewrite Hi. reflexivity.
  - exact Hs.
  - intros Hpos E. apply (f_equal String.length) in E.
    rewrite <- (text_chars (_ ++ s)), text_length, chars_app, length_app,
      !chars_length in E.
    destruct m; [lia|]. cbn [Builtins.copies] in E.
    rewrite append_cons in E. cbn [String.length] in E. lia.
Qed.

(** X7.  [int] refuses every string with a decimal point in it, so cell 75
    ([rent_str = "2500.00"], [rent_int = int(rent_str)]) ends in
    ValueError on any kernel; its first line has run by then: [rent_str]
    is bound, and [rent_int] is what it was. *)
Theorem a_decimal_point_stops_int (k : StringCells.kernel) :
  (forall s, In "."%char (Builtins.chars s) ->
     Builtins.int_of_str s = Raise ValueError)
  /\ StringCells.cell_75 k
     = (StringCells.set_rent_str "2500.00" k, Some ValueError)
  /\ StringCells.rent_str (fst (StringCells.cell_75 k)) = Some "2500.00"
  /\ StringCells.rent_int (fst (StringCells.cell_75 k))
     = StringCells.rent_int k.
Proof.
  assert (forall s, In "."%char (Builtins.chars s) ->
            Builtins.int_of_str s = Raise ValueError) as Hdot.
  { intros s Hin. destruct (Builtins.int_of_str s) as [n|e] eqn:E.
    - destruct (int_of_str_alphabet s n "." E Hin) as [H|[H|H]].
      + exfalso. apply H. reflexivity.
      + exfalso. cbn in H. intuition discriminate.
      + discriminate.
    - apply int_of_str_raises in E. congruence. }
  split; [exact Hdot|].
  assert (StringCells.cell_75 k
          = (StringCells.set_rent_str "2500.00" k, Some ValueError)) as E.
  { unfold StringCells.cell_75, sequence, bind_name, StringCells.name.
    cbn [StringCells.rent_str StringCells.set_rent_str Bootcamp.name bind].
    rewrite Hdot; [reflexivity|]. cbn. auto 10. }
  rewrite E. repeat split.
Qed.

(** X8.  Running cell 71 ([zip_code = int(zip_code)]) a second time
    changes nothing: the second run leaves the kernel of the first and
    shows the same value, or fails the same way. *)
Theorem converting_twice_is_converting_once (k : StringCells.kernel) :
  StringCells.cell_71 (fst (StringCells.cell_71 k)) = StringCells.cell_71 k.
Proof.
  unfold StringCells.cell_71, shown, bind_name, StringCells.name.
  destruct (StringCells.zip_code k) as [[n|s]|] eqn:Hz;
    cbn [Bootcamp.name bind Builtins.int].
  - cbn. reflexivity.
  - destruct (Builtins.int_of_str s) as [n|e] eqn:Hi; cbn.
    + reflexivity.
    + rewrite Hz. cbn. rewrite Hi. reflexivity.
  - cbn. rewrite Hz. reflexivity.
Qed.

(** ** Module 03: running a cell again *)

Section Reruns.

Lemma rerun_ok {K : Type} (s : @statement K) (n : nat) (k k' : K) :
  s k = (k', None) -> rerun (S n) s k = rerun n s k'.
Proof. intros H. cbn [rerun]. unfold sequence. rewrite H. reflexivity. Qed.

Lemma rerun_stop {K : Type} (s : @statement K) (n : nat) (k k' : K) (e : exn) :
  s k = (k', Some e) -> rerun (S n) s k = (k', Some e).
Proof. intros H. cbn [rerun]. unfold sequence. rewrite H. reflexivity. Qed.

End Reruns.

(** X9.  Cell 21 ([x = x + 3]) is not safe to run twice: each run adds 3,
    so after [n] runs [x] is [3 * n] more than it was and nothing else
    has changed.  With [x] unbound the cell raises NameError and binds
    nothing. *)
Theorem each_run_adds_three (n : nat) (k : NameCells.kernel) :
  (forall v, NameCells.x k = Some v ->
     rerun (S n) NameCells.cell_21 k
     = (NameCells.set_x (v + 3 * Z.of_nat (S n)) k, None))
  /\ (NameCells.x k = None ->
     rerun (S n) NameCells.cell_21 k = (k, Some (NameError "x"))).
Proof.
  split.
  - revert k. induction n as [|n IH]; intros k v Hx.
    + cbn [rerun]. unfold sequence, NameCells.cell_21, bind_name, NameCells.name.
      rewrite Hx. cbn [Bootcamp.name bind]. unfold NameCells.set_x.
      do 3 f_equal; lia.
    + rewrite (rerun_ok _ _ k (NameCells.set_x (v + 3) k)).
      * rewrite (IH _ (v + 3)) by reflexivity.
        unfold NameCells.set_x. cbn [NameCells.x NameCells.y]. do 3 f_equal; lia.
      * unfold NameCells.cell_21, bind_name, NameCells.name. rewrite Hx.
        reflexivity.
  - intros Hx. apply rerun_stop.
    unfold NameCells.cell_21, bind_name, NameCells.name. rewrite Hx.
    reflexivity.
Qed.

(** X10.  Cell 87 ([my_list[2] = 100]) on any list: with fewer than three
    elements it raises IndexError and the list is as it was; otherwise the
    list keeps its length, holds 100 at position 2 and is unchanged at
    every other position. *)
Theorem assigning_to_position_two
  (k : ListCells.kernel) (l : list Builtins.scalar) :
  ListCells.my_list k = Some l ->
  ((length l <= 2)%nat -> ListCells.cell_87 k = (k, Raise IndexError))
  /\ ((2 < length l)%nat ->
      exists l', ListCells.cell_87 k = (ListCells.set_my_list l' k, Ok l')
        /\ length l' = length l
        /\ l' !! 2%nat = Some (Builtins.Int 100)
        /\ forall i, i <> 2%nat -> l' !! i = l !! i).
Proof.
  intros Hl.
  unfold ListCells.cell_87, shown, bind_name, ListCells.name.
  rewrite Hl. cbn [Bootcamp.name bind]. unfold Builtins.set_item.
  change (2 <? 0)%Z with false. cbv iota.
  change (0 <=? 2)%Z with true. cbn [andb]. split; intros Hlen.
  - destruct (Z.ltb_spec 2 (Z.of_nat (length l))); [lia|reflexivity].
  - destruct (Z.ltb_spec 2 (Z.of_nat (length l))); [|lia].
    change (Z.to_nat 2) with 2%nat.
    exists (<[2%nat := Builtins.Int 100]> l). repeat split.
    + apply length_insert.
    + apply list_lookup_insert_eq. exact Hlen.
    + intros i Hi. apply list_lookup_insert_ne. congruence.
Qed.

(** X11.  Cell 88 ([my_list.append("hello")]) is not safe to run twice
    either: each run makes the list one longer, so [n] runs leave the
    list followed by [n] copies of ["hello"]. *)
Theorem each_run_appends_hello
  (n : nat) (k : ListCells.kernel) (l : list Builtins.scalar) :
  ListCells.my_list k = Some l ->
  rerun n (quiet ListCells.cell_88) k
  = (match n with
     | O => k
     | S _ => ListCells.set_my_list
                (l ++ replicate n (Builtins.Str "hello"))%list k
     end, None).
Proof.
  revert k l. induction n as [|n IH]; intros k l Hl; [reflexivity|].
  rewrite (rerun_ok _ _ k
    (ListCells.set_my_list (l ++ [Builtins.Str "hello"])%list k)).
  - rewrite (IH _ (l ++ [Builtins.Str "hello"])%list) by reflexivity.
    destruct n as [|n]; [reflexivity|].
    unfold ListCells.set_my_list. cbn [ListCells.my_tuple ListCells.my_list].
    do 3 f_equal. rewrite <- app_assoc. reflexivity.
  - unfold quiet, ListCells.cell_88, shown, bind_name, ListCells.name.
    rewrite Hl. reflexivity.
Qed.


(** ** Module 03: the dictionary *)

Section DictFacts.
Import DictCells.

Lemma get_set_same (d : dict) (key value : string) :
  get (set d key value) key = Ok value.
Proof.
  induction d as [|[k v] d IH]; cbn [set get].
  - rewrite String.eqb_refl. reflexivity.
  - destruct (String.eqb_spec k key) as [->|Hne]; cbn [get].
    + rewrite String.eqb_refl. reflexivity.
    + destruct (String.eqb_spec k key); [congruence|]. exact IH.
Qed.

Lemma get_set_other (d : dict) (key value other : string) :
  other <> key -> get (set d key value) other = get d other.
Proof.
  intros Hne. induction d as [|[k v] d IH]; cbn [set get].
  - destruct (String.eqb_spec key other); [congruence|reflexivity].
  - destruct (String.eqb_spec k key) as [->|Hk]; cbn [get].
    + destruct (String.eqb_spec key other); [congruence|reflexivity].
    + destruct (String.eqb_spec k other); [reflexivity|exact IH].
Qed.

Lemma keys_set_present (d : dict) (key value : string) :
  In key (keys d) -> keys (set d key value) = keys d.
Proof.
  induction d as [|[k v] d IH]; [intros []|]. cbn [set keys map fst].
  intros [->|Hin].
  - rewrite String.eqb_refl. reflexivity.
  - destruct (String.eqb_spec k key); [reflexivity|].
    cbn [map fst]. f_equal. apply IH, Hin.
Qed.

Lemma keys_set_absent (d : dict) (key value : string) :
  ~ In key (keys d) -> keys (set d key value) = (keys d ++ [key])%list.
Proof.
  induction d as [|[k v] d IH]; [reflexivity|]. cbn [set keys map fst].
  intros Hin. destruct (String.eqb_spec k key) as [->|Hne].
  - exfalso. apply Hin. left. reflexivity.
  - cbn [map fst]. rewrite <- app_comm_cons. f_equal.
    apply IH. intros H. apply Hin. right. exact H.
Qed.

Lemma get_raises (d : dict) (key : string) (e : exn) :
  get d key = Raise e <-> e = KeyError key /\ ~ In key (keys d).
Proof.
  induction d as [|[k v] d IH]; cbn [get keys map fst In].
  - split; [intros [= <-]; tauto|intros [-> _]; reflexivity].
  - destruct (String.eqb_spec k key) as [->|Hne].
    + split; [discriminate|tauto].
    + rewrite IH. unfold keys. tauto.
Qed.

Lemma get_ok (d : dict) (key v : string) :
  get d key = Ok v -> In (key, v) d.
Proof.
  induction d as [|[k w] d IH]; cbn [get]; [discriminate|].
  destruct (String.eqb_spec k key) as [->|Hne].
  - intros [= ->]. left. reflexivity.
  - intros H. right. apply IH, H.
Qed.

Lemma combine_keys_values (d : dict) : combine (keys d) (values d) = d.
Proof.
  unfold keys, values. induction d as [|[a b] d IH]; cbn; congruence.
Qed.

End DictFacts.

(** X13.  Cell 110 ([antonyms["hot"] = "freezing"]) on any dict: after
    it ["hot"] maps to ["freezing"] and every other key to what it mapped
    to before.  If ["hot"] was a key, the keys and their order are
    unchanged; if not, ["hot"] is added after the others.  No key is
    repeated afterwards if none was before. *)
Theorem updating_one_key (k : DictCells.kernel) (d : DictCells.dict) :
  DictCells.antonyms k = Some d ->
  exists d', DictCells.cell_110 k = (DictCells.set_antonyms d' k, Ok d')
    /\ DictCells.get d' "hot" = Ok "freezing"
    /\ (forall key, key <> "hot" -> DictCells.get d' key = DictCells.get d key)
    /\ (In "hot" (DictCells.keys d) -> DictCells.keys d' = DictCells.keys d)
    /\ (~ In "hot" (DictCells.keys d) ->
        DictCells.keys d' = (DictCells.keys d ++ ["hot"])%list)
    /\ (List.NoDup (DictCells.keys d) -> List.NoDup (DictCells.keys d')).
Proof.
  intros Hd. exists (DictCells.set d "hot" "freezing").
  split; [|split; [|split; [|split; [|split]]]].
  - unfold DictCells.cell_110, shown, bind_name, DictCells.name.
    rewrite Hd. reflexivity.
  - apply get_set_same.
  - intros key Hne. apply get_set_other, Hne.
  - apply keys_set_present.
  - apply keys_set_absent.
  - intros Hnd. destruct (in_dec string_dec "hot" (DictCells.keys d)) as [Hin|Hin].
    + rewrite keys_set_present by exact Hin. exact Hnd.
    + rewrite keys_set_absent by exact Hin.
      apply List.NoDup_app; [exact Hnd|repeat constructor; intros []|].
      intros x Hx [<-|[]]. contradiction.
Qed.

(** X14.  The three views of cells 111 to 113 go through the dict in the
    same order: [items()] pairs the keys of [keys()] with the values of
    [values()], position by position.  Cell 109 ([antonyms["hot"]])
    raises KeyError exactly when ["hot"] is not among the keys, and what
    it returns otherwise is paired with ["hot"] in the items. *)
Theorem views_go_in_step (k : DictCells.kernel) (d : DictCells.dict) :
  DictCells.antonyms k = Some d ->
  exists ks vs, DictCells.cell_111 k = Ok ks /\ DictCells.cell_112 k = Ok vs
    /\ DictCells.cell_113 k = Ok (combine ks vs)
    /\ length ks = length vs
    /\ (DictCells.cell_109 k = Raise (KeyError "hot") <-> ~ In "hot" ks)
    /\ (forall e, DictCells.cell_109 k = Raise e -> e = KeyError "hot")
    /\ (forall v, DictCells.cell_109 k = Ok v -> In ("hot", v) (combine ks vs)).
Proof.
  intros Hd. exists (DictCells.keys d), (DictCells.values d).
  unfold DictCells.cell_111, DictCells.cell_112, DictCells.cell_113,
    DictCells.cell_109, DictCells.name.
  rewrite Hd. cbn [Bootcamp.name bind].
  rewrite combine_keys_values.
  repeat split.
  - unfold DictCells.keys, DictCells.values. rewrite !length_map. reflexivity.
  - intros H. apply get_raises in H. tauto.
  - intros H. apply get_raises. tauto.
  - intros e H. apply get_raises in H. tauto.
  - intros v. apply get_ok.
Qed.

(** ** Modules 06 and 07: masks and subsets *)

Section SubsetFacts.
Import Frames Subsets.
Context `{L : Library} `{G : Geometry}.

Lemma pick_filter {A : Type} (p : A -> bool) (l : list A) :
  pick (map p l) l = List.filter p l.
Proof.
  induction l as [|a l IH]; [reflexivity|]. cbn [map pick List.filter].
  rewrite IH. reflexivity.
Qed.

Lemma pick_invert {A : Type} (mask : list bool) (l : list A) :
  length mask = length l ->
  (length (pick mask l) + length (pick (invert mask) l) = length l)%nat.
Proof.
  revert l. induction mask as [|b mask IH]; intros [|a l] Hlen;
    try discriminate; [reflexivity|].
  injection Hlen as Hlen. specialize (IH l Hlen).
  cbn [invert map pick]. fold (invert mask). destruct b; cbn; lia.
Qed.

Lemma pick_each {A : Type} (f : A -> res bool) (l : list A) (mask : list bool) :
  each f l = Ok mask ->
  pick mask l
  = List.filter (fun a => match f a with Ok true => true | _ => false end) l.
Proof.
  intros H. apply each_inv in H.
  induction H as [|a b l mask Hab _ IH]; [reflexivity|].
  cbn [pick List.filter]. rewrite Hab, IH. destruct b; reflexivity.
Qed.

Lemma filter_map_cell {A B : Type} (g : A -> B) (p : B -> bool) (l : list A) :
  pick (map p (map g l)) l = List.filter (fun a => p (g a)) l.
Proof. rewrite map_map. apply (pick_filter (fun a => p (g a))). Qed.

Lemma keep_ok (d : DataFrame) (mask : list bool) :
  length mask = nrows d ->
  keep d mask = Ok {| columns := columns d; rows := pick mask (rows d) |}.
Proof. intros H. unfold keep. rewrite H, Nat.eqb_refl. reflexivity. Qed.

Lemma table_with_table (v : pyval) (d d' : DataFrame) :
  table v = Ok d -> table (with_table v d') = Ok d'.
Proof. destruct v; cbn; congruence. Qed.

Lemma with_table_twice (v : pyval) (d d' : DataFrame) :
  with_table (with_table v d) d' = with_table v d'.
Proof. destruct v; reflexivity. Qed.

Lemma filter_length {A : Type} (p : A -> bool) (l : list A) :
  (length (List.filter p l) <= length l)%nat.
Proof. induction l as [|a l IH]; cbn; [lia|]. destruct (p a); cbn; lia. Qed.

Lemma sequence_ok {K : Type} (s t : @statement K) (k k' : K) :
  s k = (k', None) -> sequence s t k = t k'.
Proof. intros H. unfold sequence. rewrite H. reflexivity. Qed.

Lemma sequence_stop {K : Type} (s t : @statement K) (k k' : K) (x : exn) :
  s k = (k', Some x) -> sequence s t k = (k', Some x).
Proof. intros H. unfold sequence. rewrite H. reflexivity. Qed.

Lemma bind_py_ok (target : string) (e : gmap string binding -> res pyval)
  (k : gmap string binding) (v : pyval) :
  e k = Ok v -> bind_py target e k = (<[target := Py v]> k, None).
Proof. intros H. unfold bind_py, bind_name. rewrite H. reflexivity. Qed.

Lemma bind_py_raise (target : string) (e : gmap string binding -> res pyval)
  (k : gmap string binding) (x : exn) :
  e k = Raise x -> bind_py target e k = (k, Some x).
Proof. intros H. unfold bind_py, bind_name. rewrite H. reflexivity. Qed.

Lemma column_of_ok (k : gmap string binding) (x c : string) (v : pyval)
  (d : DataFrame) :
  k !! x = Some (Py v) -> table v = Ok d -> has_column d c = true ->
  column_of k x c = Ok (map (cell_of c) (rows d)).
Proof.
  intros Hx Hd Hc. unfold column_of, get_py. rewrite Hx. cbn [bind].
  rewrite Hd. cbn [bind]. apply column_total, Hc.
Qed.

Lemma column_of_missing (k : gmap string binding) (x c : string) (v : pyval)
  (d : DataFrame) :
  k !! x = Some (Py v) -> table v = Ok d -> has_column d c = false ->
  column_of k x c = Raise (KeyError c).
Proof.
  intros Hx Hd Hc. unfold column_of, get_py. rewrite Hx. cbn [bind].
  rewrite Hd. cbn [bind]. unfold column. rewrite Hc. reflexivity.
Qed.

Lemma subset_ok (k : gmap string binding) (x : string) (v : pyval)
  (d : DataFrame) (mask : list bool) :
  k !! x = Some (Py v) -> table v = Ok d -> length mask = nrows d ->
  subset k x mask
  = Ok (with_table v {| columns := columns d; rows := pick mask (rows d) |}).
Proof.
  intros Hx Hd Hm. unfold subset, get_py. rewrite Hx. cbn [bind].
  rewrite Hd. cbn [bind]. rewrite keep_ok by exact Hm. reflexivity.
Qed.

Lemma bind_equal_ok (target x c s : string) (k : gmap string binding)
  (v : pyval) (d : DataFrame) :
  k !! x = Some (Py v) -> table v = Ok d -> has_column d c = true ->
  bind_equal target x c s k
  = (<[target :=
         Py (with_table v
               {| columns := columns d;
                  rows := List.filter (fun r => eq_str s (cell_of c r))
                                      (rows d) |})]> k, None).
Proof.
  intros Hx Hd Hc. unfold bind_equal. apply bind_py_ok.
  rewrite (column_of_ok k x c v d) by assumption. cbn [bind].
  rewrite (subset_ok k x v d) by (rewrite ?length_map; auto).
  rewrite filter_map_cell. reflexivity.
Qed.

Lemma each_gt_total (f : value -> res bool) (c : string)
  (rs : list (gmap string value)) :
  Forall (fun r => is_ok (f (cell_of c r)) = true) rs ->
  exists mask, each f (map (cell_of c) rs) = Ok mask
    /\ length mask = length rs
    /\ pick mask rs
       = List.filter (fun r => match f (cell_of c r) with
                               | Ok true => true
                               | _ => false
                               end) rs.
Proof.
  intros H. destruct (each_total f (map (cell_of c) rs)) as [mask Hm].
  { apply Forall_map. exact H. }
  exists mask. split; [exact Hm|]. pose proof (each_inv _ _ _ Hm) as H2.
  split.
  - apply Forall2_length in H2. rewrite length_map in H2. congruence.
  - clear Hm H. revert mask H2. induction rs as [|r rs IH]; intros mask H2.
    + inversion H2. reflexivity.
    + inversion H2 as [|? b ? mask' Hb Hrest]; subst.
      cbn [pick List.filter]. rewrite Hb, (IH _ Hrest). destruct b; reflexivity.
Qed.

Lemma bind_above_50_ok (target x c : string) (k : gmap string binding)
  (v : pyval) (d : DataFrame) :
  k !! x = Some (Py v) -> table v = Ok d -> has_column d c = true ->
  Forall (fun r => is_ok (gt_50 (cell_of c r)) = true) (rows d) ->
  bind_above_50 target x c k
  = (<[target :=
         Py (with_table v
               {| columns := columns d;
                  rows := List.filter (above_50 c) (rows d) |})]> k, None).
Proof.
  intros Hx Hd Hc Hnum. unfold bind_above_50. apply bind_py_ok.
  rewrite (column_of_ok k x c v d) by assumption. cbn [bind].
  destruct (each_gt_total gt_50 c (rows d) Hnum) as (mask & -> & Hlen & Hpick).
  cbn [bind]. rewrite (subset_ok k x v d) by assumption.
  rewrite Hpick. reflexivity.
Qed.

Lemma bind_above_50_inv (target x c : string) (k k' : gmap string binding)
  (v : pyval) (d : DataFrame) :
  k !! x = Some (Py v) -> table v = Ok d ->
  bind_above_50 target x c k = (k', None) ->
  has_column d c = true
  /\ Forall (fun r => is_ok (gt_50 (cell_of c r)) = true) (rows d).
Proof.
  intros Hx Hd H. unfold bind_above_50, bind_py, bind_name in H.
  destruct (has_column d c) eqn:Hc.
  - split; [reflexivity|].
    rewrite (column_of_ok k x c v d) in H by assumption. cbn [bind] in H.
    destruct (each gt_50 (map (cell_of c) (rows d))) as [mask|e] eqn:E;
      [|discriminate].
    apply each_inv in E. clear H. revert mask E.
    induction (rows d) as [|r rs IH]; intros mask E; [constructor|].
    inversion E as [|? b ? mask' Hb Hrest]; subst.
    constructor; [rewrite Hb; reflexivity|apply (IH _ Hrest)].
  - rewrite (column_of_missing k x c v d) in H by assumption. discriminate.
Qed.

End SubsetFacts.

(** X15.  Cells 26 and 27 of module 07 split the tracts in two with one
    mask: [gdf_tracts[mask]] holds the tracts whose geometry intersects
    the listings, [gdf_tracts[~mask]] the others, both with all the
    columns, and the two row counts shown add up to the number of
    tracts. *)
Theorem mask_and_its_negation_split_the_tracts
  `{L : Frames.Library} `{G : Subsets.Geometry}
  (k : gmap string Subsets.binding) (v : Frames.pyval) (d : Frames.DataFrame)
  (u : Frames.value) :
  k !! "gdf_tracts" = Some (Subsets.Py v) ->
  Subsets.table v = Ok d ->
  Frames.has_column d "geometry" = true ->
  k !! "unified_listings" = Some (Subsets.Shape u) ->
  exists k' n m,
    Overlays.cell_26 k = (k', Ok (n, length (Frames.columns d)))
    /\ Overlays.cell_27 k' = Ok (m, length (Frames.columns d))
    /\ (n + m = Frames.nrows d)%nat
    /\ n = length (List.filter
                     (fun r => Subsets.intersects
                                 (Frames.cell_of "geometry" r) u)
                     (Frames.rows d)).
Proof.
  intros Ht Hd Hg Hu.
  set (mask := map (fun g => Subsets.intersects g u)
                   (map (Frames.cell_of "geometry") (Frames.rows d))).
  assert (length mask = Frames.nrows d) as Hlen.
  { unfold mask. rewrite !length_map. reflexivity. }
  exists (<["mask" := Subsets.Mask mask]> k).
  exists (length (Subsets.pick mask (Frames.rows d))).
  exists (length (Subsets.pick (Subsets.invert mask) (Frames.rows d))).
  assert (forall m, length m = Frames.nrows d ->
            Subsets.subset (<["mask" := Subsets.Mask mask]> k) "gdf_tracts" m
            = Ok (Subsets.with_table v
                    {| Frames.columns := Frames.columns d;
                       Frames.rows := Subsets.pick m (Frames.rows d) |})) as Hsub.
  { intros m Hm. unfold Subsets.subset, Subsets.get_py.
    rewrite lookup_insert_ne by discriminate. rewrite Ht. cbn [bind].
    rewrite Hd. cbn [bind]. rewrite keep_ok by exact Hm. reflexivity. }
  split; [|split; [|split]].
  - unfold Overlays.cell_26, shown, bind_name, Subsets.column_of, Subsets.get_py,
      Subsets.get_shape.
    rewrite Ht. cbn [bind]. rewrite Hd. cbn [bind].
    rewrite column_total by exact Hg. cbn [bind]. rewrite Hu. cbn [bind].
    fold mask. unfold Subsets.get_mask. rewrite lookup_insert_eq. cbn [bind].
    rewrite Hsub by exact Hlen. cbn [bind]. unfold Subsets.shape_of.
    rewrite (table_with_table v d) by exact Hd. reflexivity.
  - unfold Overlays.cell_27, Subsets.get_mask. rewrite lookup_insert_eq.
    cbn [bind]. rewrite Hsub by (unfold Subsets.invert; rewrite length_map; exact Hlen).
    cbn [bind]. unfold Subsets.shape_of.
    rewrite (table_with_table v d) by exact Hd. reflexivity.
  - apply pick_invert. exact Hlen.
  - unfold mask. rewrite filter_map_cell. reflexivity.
Qed.

(** X16.  Cell 8 of module 06 on any frame bound to [df]: [df_sc] has the
    columns of [df] and, in the order of [df], exactly its rows whose
    [county_name] is one of the ten counties; the shape shown is that of
    [df_sc].  Without a [county_name] column the cell raises KeyError
    when [socal_counties] is bound and nothing else is. *)
Theorem southern_california_rows
  `{L : Frames.Library}
  (k : gmap string Subsets.binding) (v : Frames.pyval) (d : Frames.DataFrame) :
  k !! "df" = Some (Subsets.Py v) ->
  Subsets.table v = Ok d ->
  (Frames.has_column d "county_name" = true ->
   exists k' sc,
     Charts.cell_8 k = (k', Ok (Subsets.shape sc))
     /\ k' !! "df_sc" = Some (Subsets.Py (Subsets.with_table v sc))
     /\ Frames.columns sc = Frames.columns d
     /\ Frames.rows sc
        = List.filter (fun r => Frames.is_in Charts.socal_counties
                                  (Frames.cell_of "county_name" r))
                      (Frames.rows d)
     /\ (Frames.nrows sc <= Frames.nrows d)%nat)
  /\ (Frames.has_column d "county_name" = false ->
      Charts.cell_8 k
      = (<["socal_counties" :=
             Subsets.Py (Frames.PStrs Charts.socal_counties)]> k,
         Raise (KeyError "county_name"))).
Proof.
  intros Hdf Hd. split; intros Hc.
  - set (k1 := <["socal_counties" :=
                   Subsets.Py (Frames.PStrs Charts.socal_counties)]> k).
    set (mask := map (Frames.is_in Charts.socal_counties)
                     (map (Frames.cell_of "county_name") (Frames.rows d))).
    set (k2 := <["mask" := Subsets.Mask mask]> k1).
    set (sc := {| Frames.columns := Frames.columns d;
                  Frames.rows := Subsets.pick mask (Frames.rows d) |}).
    assert (k1 !! "df" = Some (Subsets.Py v)) as H1.
    { unfold k1. rewrite lookup_insert_ne by discriminate. exact Hdf. }
    assert (k2 !! "df" = Some (Subsets.Py v)) as H2.
    { unfold k2. rewrite lookup_insert_ne by discriminate. exact H1. }
    assert (Frames.rows sc
            = List.filter (fun r => Frames.is_in Charts.socal_counties
                                      (Frames.cell_of "county_name" r))
                          (Frames.rows d)) as Hrows.
    { unfold sc, mask. cbn [Frames.rows]. apply filter_map_cell. }
    exists (<["df_sc" := Subsets.Py (Subsets.with_table v sc)]> k2), sc.
    split; [|split; [|split; [|split]]].
    + unfold Charts.cell_8, shown.
      rewrite (sequence_ok _ _ k k1) by reflexivity.
      rewrite (sequence_ok _ _ k1 k2).
      2:{ unfold bind_name.
          rewrite (column_of_ok k1 "df" "county_name" v d) by assumption.
          cbn [bind]. unfold Subsets.get_strs, Subsets.get_py, k1.
          rewrite lookup_insert_eq. reflexivity. }
      rewrite (bind_py_ok "df_sc" _ k2 (Subsets.with_table v sc)).
      2:{ unfold Subsets.get_mask, k2. rewrite lookup_insert_eq. cbn [bind].
          fold k2. apply subset_ok; [exact H2|exact Hd|].
          unfold mask. rewrite !length_map. reflexivity. }
      unfold Subsets.get_py. rewrite lookup_insert_eq. cbn [bind].
      unfold Subsets.shape_of. rewrite (table_with_table v d) by exact Hd.
      reflexivity.
    + apply lookup_insert_eq.
    + reflexivity.
    + exact Hrows.
    + unfold Frames.nrows. rewrite Hrows. apply filter_length.
  - set (k1 := <["socal_counties" :=
                   Subsets.Py (Frames.PStrs Charts.socal_counties)]> k).
    unfold Charts.cell_8, shown.
    rewrite (sequence_ok _ _ k k1) by reflexivity.
    rewrite (sequence_stop _ _ k1 k1 (KeyError "county_name")); [reflexivity|].
    unfold bind_name.
    rewrite (column_of_missing k1 "df" "county_name" v d); try assumption.
    + reflexivity.
    + unfold k1. rewrite lookup_insert_ne by discriminate. exact Hdf.
Qed.

Section MajorityFacts.
Import Frames Subsets.
Context `{L : Library}.

Lemma above_50_not_null (c : string) (r : gmap string value) :
  above_50 c r = true -> isnull (cell_of c r) = false.
Proof.
  unfold above_50. destruct (cell_of c r) as [f| | | | |]; cbn; try discriminate;
    try reflexivity.
  destruct f; cbn; try discriminate; reflexivity.
Qed.

Lemma pick_dummy (rs rs' : list (gmap string value)) :
  Forall2 Models.dummy_of rs rs' ->
  pick (map (fun r => is_one (cell_of "majority_white" r)) rs') rs
  = List.filter (above_50 "pct_white") rs.
Proof.
  induction 1 as [|r r' rs rs' (b & Hb & ->) _ IH]; [reflexivity|].
  cbn [map pick List.filter]. rewrite IH. unfold above_50. rewrite Hb.
  unfold cell_of. rewrite lookup_insert_eq. destruct b; reflexivity.
Qed.

End MajorityFacts.

(** X17.  Cell 24 of module 06, when it runs through, binds [df_wht] to
    the rows of [df] whose [pct_white] is above 50 and [df_hsp] to those
    whose [pct_hispanic] is, in the order of [df]; a row whose percentage
    is missing (NaN) is in neither.  [df_wht] holds exactly the rows that
    cell 25 of module 12, run on the same frame, marks with
    [majority_white = 1]. *)
Theorem majority_subsets_follow_the_dummy
  `{L : Frames.Library}
  (k k' : gmap string Subsets.binding) (v : Frames.pyval)
  (d : Frames.DataFrame) :
  k !! "df" = Some (Subsets.Py v) ->
  Subsets.table v = Ok d ->
  Charts.cell_24 k = (k', None) ->
  exists w h,
    k' !! "df_wht" = Some (Subsets.Py (Subsets.with_table v w))
    /\ k' !! "df_hsp" = Some (Subsets.Py (Subsets.with_table v h))
    /\ Frames.rows w
       = List.filter (Subsets.above_50 "pct_white") (Frames.rows d)
    /\ Frames.rows h
       = List.filter (Subsets.above_50 "pct_hispanic") (Frames.rows d)
    /\ Forall (fun r => Frames.isnull (Frames.cell_of "pct_white" r) = false)
              (Frames.rows w)
    /\ Forall (fun r => Frames.isnull (Frames.cell_of "pct_hispanic" r) = false)
              (Frames.rows h)
    /\ (forall c k12,
          Models.cell_25
            {["gdf" := Frames.PGeo {| Frames.crs := c; Frames.frame := d |}]}
          = Ok k12 ->
          exists g12, k12 !! "gdf" = Some (Frames.PGeo g12)
            /\ Frames.rows w
               = Subsets.pick
                   (map (fun r => Subsets.is_one
                                    (Frames.cell_of "majority_white" r))
                        (Frames.rows (Frames.frame g12)))
                   (Frames.rows d)).
Proof.
  intros Hdf Hd H. unfold Charts.cell_24, sequence in H.
  destruct (Subsets.bind_above_50 "df_wht" "df" "pct_white" k)
    as [k1 [e|]] eqn:E1; [discriminate|].
  destruct (bind_above_50_inv _ _ _ _ _ v d Hdf Hd E1) as [Hc1 Hn1].
  rewrite (bind_above_50_ok _ _ _ _ v d Hdf Hd Hc1 Hn1) in E1.
  injection E1 as <-.
  assert ((<["df_wht" :=
              Subsets.Py (Subsets.with_table v
                {| Frames.columns := Frames.columns d;
                   Frames.rows := List.filter (Subsets.above_50 "pct_white")
                                              (Frames.rows d) |})]> k)
            !! "df" = Some (Subsets.Py v)) as Hdf1.
  { rewrite lookup_insert_ne by discriminate. exact Hdf. }
  destruct (bind_above_50_inv _ _ _ _ _ v d Hdf1 Hd H) as [Hc2 Hn2].
  rewrite (bind_above_50_ok _ _ _ _ v d Hdf1 Hd Hc2 Hn2) in H.
  injection H as <-.
  eexists _, _. split; [|split; [|split; [|split; [|split; [|split]]]]].
  - rewrite lookup_insert_ne by discriminate. apply lookup_insert_eq.
  - apply lookup_insert_eq.
  - reflexivity.
  - reflexivity.
  - cbn [Frames.rows]. apply List.Forall_forall. intros r Hr.
    apply filter_In in Hr as [_ Hr]. apply above_50_not_null, Hr.
  - cbn [Frames.rows]. apply List.Forall_forall. intros r Hr.
    apply filter_In in Hr as [_ Hr]. apply above_50_not_null, Hr.
  - intros c k12 H12.
    destruct (cell_25_inv _ k12 {| Frames.crs := c; Frames.frame := d |}
                (lookup_insert_eq _ _ _) H12) as (d12 & -> & _ & Hrows).
    eexists. split; [apply lookup_insert_eq|].
    cbn [Frames.rows Frames.frame] in *. symmetry. apply pick_dummy, Hrows.
Qed.

Section FilterFacts.

Lemma filter_filter {A : Type} (p q : A -> bool) (l : list A) :
  List.filter q (List.filter p l) = List.filter (fun a => p a && q a) l.
Proof.
  induction l as [|a l IH]; [reflexivity|]. cbn [List.filter].
  destruct (p a); cbn [List.filter andb]; rewrite IH; reflexivity.
Qed.

End FilterFacts.

(** X18.  Cells 67 and 68 of module 07 in a row leave in [oc_tracts_ind]
    the tracts of [gdf_tracts_ind] that are in county ["059"] and have a
    land area above 0, with all their columns, in the original order and
    in the frame's CRS.  Only the [ALAND] of the tracts of county ["059"]
    has to be a number for the two cells to run. *)
Theorem orange_county_tracts_on_land
  `{L : Frames.Library}
  (k : gmap string Subsets.binding) (v : Frames.pyval) (d : Frames.DataFrame) :
  k !! "gdf_tracts_ind" = Some (Subsets.Py v) ->
  Subsets.table v = Ok d ->
  Frames.has_column d "COUNTYFP" = true ->
  Frames.has_column d "ALAND" = true ->
  Forall (fun r => Subsets.eq_str "059" (Frames.cell_of "COUNTYFP" r) = true ->
                   is_ok (Subsets.gt_0 (Frames.cell_of "ALAND" r)) = true)
         (Frames.rows d) ->
  exists oc,
    sequence Overlays.cell_67 Overlays.cell_68 k
    = (<["oc_tracts_ind" := Subsets.Py (Subsets.with_table v oc)]> k, None)
    /\ Frames.columns oc = Frames.columns d
    /\ Frames.rows oc
       = List.filter
           (fun r => Subsets.eq_str "059" (Frames.cell_of "COUNTYFP" r)
                     && Subsets.above_0 "ALAND" r)
           (Frames.rows d).
Proof.
  intros Hk Hd Hc Ha Hnum.
  set (oc1 := {| Frames.columns := Frames.columns d;
                 Frames.rows :=
                   List.filter
                     (fun r => Subsets.eq_str "059" (Frames.cell_of "COUNTYFP" r))
                     (Frames.rows d) |}).
  set (k1 := <["oc_tracts_ind" := Subsets.Py (Subsets.with_table v oc1)]> k).
  assert (Overlays.cell_67 k = (k1, None)) as E1.
  { unfold Overlays.cell_67. apply (bind_equal_ok _ _ _ _ k v d); assumption. }
  assert (Forall (fun r => is_ok (Subsets.gt_0 (Frames.cell_of "ALAND" r)) = true)
                 (Frames.rows oc1)) as Hnum1.
  { cbn [oc1 Frames.rows]. apply List.Forall_forall. intros r Hr.
    apply filter_In in Hr as [Hin Hr].
    rewrite List.Forall_forall in Hnum. apply (Hnum r Hin Hr). }
  destruct (each_gt_total Subsets.gt_0 "ALAND" (Frames.rows oc1) Hnum1)
    as (mask & Hmask & Hlen & Hpick).
  exists {| Frames.columns := Frames.columns d;
            Frames.rows := Subsets.pick mask (Frames.rows oc1) |}.
  split; [|split; [reflexivity|]].
  - rewrite (sequence_ok _ _ k k1 E1). unfold Overlays.cell_68.
    rewrite (bind_py_ok "oc_tracts_ind" _ k1
               (Subsets.with_table v
                  {| Frames.columns := Frames.columns d;
                     Frames.rows := Subsets.pick mask (Frames.rows oc1) |})).
    + unfold k1. rewrite insert_insert_eq. reflexivity.
    + assert (k1 !! "oc_tracts_ind"
              = Some (Subsets.Py (Subsets.with_table v oc1))) as Hk1
        by apply lookup_insert_eq.
      assert (Subsets.table (Subsets.with_table v oc1) = Ok oc1) as Ht1
        by (apply (table_with_table v d); exact Hd).
      rewrite (column_of_ok k1 _ _ _ oc1 Hk1 Ht1) by exact Ha.
      cbn [bind]. rewrite Hmask. cbn [bind].
      rewrite (subset_ok k1 _ _ oc1 mask Hk1 Ht1) by exact Hlen.
      rewrite with_table_twice. reflexivity.
  - cbn [Frames.rows]. rewrite Hpick. cbn [oc1 Frames.rows].
    apply filter_filter.
Qed.

Section RenameFacts.
Import Frames Subsets.

Lemma rename_absent (d : DataFrame) (old new : string) :
  has_column d old = false -> rename d old new = d.
Proof. intros H. unfold rename. rewrite H. reflexivity. Qed.

Lemma rename_row_new (old new : string) (r : gmap string value) :
  cell_of new (rename_row old new r) = cell_of old r.
Proof. unfold rename_row, cell_of. rewrite lookup_insert_eq. reflexivity. Qed.

Lemma rename_row_other (old new c : string) (r : gmap string value) :
  c <> new -> c <> old -> cell_of c (rename_row old new r) = cell_of c r.
Proof.
  intros Hn Ho. unfold rename_row, cell_of.
  rewrite lookup_insert_ne by congruence.
  rewrite lookup_delete_ne by congruence. reflexivity.
Qed.

Lemma rename_present (d : DataFrame) (old new : string) :
  has_column d old = true -> old <> new ->
  columns (rename d old new) = map (rename_label old new) (columns d)
  /\ rows (rename d old new) = map (rename_row old new) (rows d)
  /\ has_column (rename d old new) new = true
  /\ has_column (rename d old new) old = false.
Proof.
  intros H Hne. unfold rename. rewrite H. cbn [columns rows].
  split; [reflexivity|]. split; [reflexivity|]. split.
  - apply has_column_In. cbn [columns]. apply has_column_In in H.
    apply in_map_iff. exists old. split; [|exact H].
    unfold rename_label. rewrite String.eqb_refl. reflexivity.
  - match goal with |- ?x = false => destruct x eqn:E end; [|reflexivity].
    exfalso.
    apply has_column_In in E. cbn [columns] in E.
    apply in_map_iff in E as (c & Hc & _). unfold rename_label in Hc.
    destruct (String.eqb_spec c old); congruence.
Qed.

Lemma filter_renamed (old new s : string) (rs : list (gmap string value)) :
  List.filter (fun r => eq_str s (cell_of new r)) (map (rename_row old new) rs)
  = map (rename_row old new)
        (List.filter (fun r => eq_str s (cell_of old r)) rs).
Proof.
  induction rs as [|r rs IH]; [reflexivity|].
  cbn [map List.filter]. rewrite rename_row_new.
  destruct (eq_str s _); cbn [map]; rewrite IH; reflexivity.
Qed.

End RenameFacts.

(** X19.  Cell 60 of module 07 renames [index_right] to [county] in the
    joined frame: the column keeps its place and its values, every other
    column is untouched, and no row is added or lost.  Cell 65 filters on
    [county], so it raises KeyError on the frame as the join left it and
    runs on the frame cell 60 leaves, where it keeps the rows whose
    [index_right] was ["059"].  On a frame without [index_right], cell 60
    changes nothing and raises nothing. *)
Theorem index_right_becomes_county
  `{L : Frames.Library}
  (k : gmap string Subsets.binding) (v : Frames.pyval) (d : Frames.DataFrame) :
  k !! "gdf_listings_counties" = Some (Subsets.Py v) ->
  Subsets.table v = Ok d ->
  Frames.has_column d "county" = false ->
  (Frames.has_column d "index_right" = false ->
   Overlays.cell_60 k
   = (<["gdf_listings_counties" := Subsets.Py (Subsets.with_table v d)]> k,
      None))
  /\ (Frames.has_column d "index_right" = true ->
      Overlays.cell_65 k = (k, Some (KeyError "county"))
      /\ exists d' oc,
           Overlays.cell_60 k
           = (<["gdf_listings_counties" :=
                  Subsets.Py (Subsets.with_table v d')]> k, None)
           /\ Frames.columns d'
              = map (Subsets.rename_label "index_right" "county")
                    (Frames.columns d)
           /\ Frames.has_column d' "index_right" = false
           /\ Forall2
                (fun r r' =>
                   Frames.cell_of "county" r' = Frames.cell_of "index_right" r
                   /\ forall c, c <> "county" -> c <> "index_right" ->
                        Frames.cell_of c r' = Frames.cell_of c r)
                (Frames.rows d) (Frames.rows d')
           /\ snd (Overlays.cell_65 (fst (Overlays.cell_60 k))) = None
           /\ fst (Overlays.cell_65 (fst (Overlays.cell_60 k))) !! "oc_listings"
              = Some (Subsets.Py (Subsets.with_table v oc))
           /\ Frames.rows oc
              = map (Subsets.rename_row "index_right" "county")
                    (List.filter
                       (fun r => Subsets.eq_str "059"
                                   (Frames.cell_of "index_right" r))
                       (Frames.rows d))).
Proof.
  intros Hk Hd Hno. split; intros Hold.
  - unfold Overlays.cell_60. apply bind_py_ok. unfold Subsets.get_py.
    rewrite Hk. cbn [bind]. rewrite Hd. cbn [bind].
    rewrite rename_absent by exact Hold. reflexivity.
  - split.
    { unfold Overlays.cell_65, Subsets.bind_equal. apply bind_py_raise.
      rewrite (column_of_missing k _ _ v d) by assumption. reflexivity. }
    destruct (rename_present d "index_right" "county" Hold ltac:(discriminate))
      as (Hcols & Hrows & Hnew & Hgone).
    set (d' := Subsets.rename d "index_right" "county") in *.
    set (k1 := <["gdf_listings_counties" :=
                   Subsets.Py (Subsets.with_table v d')]> k).
    assert (Overlays.cell_60 k = (k1, None)) as E60.
    { unfold Overlays.cell_60. apply bind_py_ok. unfold Subsets.get_py.
      rewrite Hk. cbn [bind]. rewrite Hd. reflexivity. }
    assert (Overlays.cell_65 k1
            = (<["oc_listings" :=
                   Subsets.Py (Subsets.with_table v
                     {| Frames.columns := Frames.columns d';
                        Frames.rows :=
                          List.filter
                            (fun r => Subsets.eq_str "059"
                                        (Frames.cell_of "county" r))
                            (Frames.rows d') |})]> k1, None)) as E65.
    { unfold Overlays.cell_65.
      rewrite (bind_equal_ok _ _ _ _ k1 (Subsets.with_table v d') d').
      - rewrite with_table_twice. reflexivity.
      - apply lookup_insert_eq.
      - apply (table_with_table v d), Hd.
      - exact Hnew. }
    eexists d', _. rewrite E60. cbn [fst snd]. rewrite E65. cbn [fst snd].
    split; [reflexivity|]. split; [exact Hcols|]. split; [exact Hgone|].
    split; [|split; [reflexivity|split; [apply lookup_insert_eq|]]].
    + rewrite Hrows. apply Forall2_fmap_r, Forall_Forall2_diag.
      apply List.Forall_forall. intros r _. split.
      * apply rename_row_new.
      * intros c Hc1 Hc2. apply rename_row_other; assumption.
    + cbn [Frames.rows]. rewrite Hrows. apply filter_renamed.
Qed.


Section IndexFacts.
Import Frames Subsets.

Lemma set_index_ok (d : DataFrame) (c : string) :
  has_column d c = true ->
  exists d', set_index d c = Ok d'
    /\ has_column d' c = false
    /\ (forall c0, c0 <> c -> has_column d' c0 = has_column d c0)
    /\ nrows d' = nrows d
    /\ (forall c0, c0 <> c ->
          map (cell_of c0) (rows d') = map (cell_of c0) (rows d)).
Proof.
  intros H. unfold set_index. rewrite H. eexists. split; [reflexivity|].
  split; [|split; [|split]].
  - match goal with |- ?x = false => destruct x eqn:E end; [|reflexivity].
    apply has_column_In in E. cbn [columns] in E.
    apply filter_In in E as [_ E]. rewrite String.eqb_refl in E. discriminate.
  - intros c0 Hne.
    match goal with |- ?x = ?y => destruct x eqn:E1; destruct y eqn:E2 end;
      try reflexivity.
    + apply has_column_In in E1. cbn [columns] in E1.
      apply filter_In in E1 as [E1 _].
      apply (proj2 (has_column_In d c0)) in E1. congruence.
    + apply has_column_In in E2.
      assert (has_column
                {| columns := List.filter (fun x => negb (String.eqb x c))
                                          (columns d);
                   rows := map (delete c) (rows d) |} c0 = true) as E.
      { apply has_column_In. cbn [columns]. apply filter_In.
        split; [exact E2|].
        destruct (String.eqb_spec c0 c); [congruence|reflexivity]. }
      congruence.
  - unfold nrows. cbn [rows]. apply length_map.
  - intros c0 Hne. cbn [rows]. rewrite map_map. apply map_ext. intros r.
    unfold cell_of. rewrite lookup_delete_ne by congruence. reflexivity.
Qed.

End IndexFacts.

(** X24.  Cell 6 of module 06 ([df = df.set_index("GEOID10")]) can be run
    once: it moves [GEOID10] out of the columns, leaving every other
    column and every row as it was, so a second run finds no such column
    and raises KeyError, with [df] still bound to the frame of the first
    run. *)
Theorem the_index_is_set_once
  `{L : Frames.Library}
  (k : gmap string Subsets.binding) (v : Frames.pyval) (d : Frames.DataFrame) :
  k !! "df" = Some (Subsets.Py v) ->
  Subsets.table v = Ok d ->
  Frames.has_column d "GEOID10" = true ->
  exists d',
    Charts.cell_6 k
    = (<["df" := Subsets.Py (Subsets.with_table v d')]> k, None)
    /\ Frames.has_column d' "GEOID10" = false
    /\ (forall c, c <> "GEOID10" ->
          Frames.has_column d' c = Frames.has_column d c
          /\ map (Frames.cell_of c) (Frames.rows d')
             = map (Frames.cell_of c) (Frames.rows d))
    /\ Frames.nrows d' = Frames.nrows d
    /\ Charts.cell_6 (fst (Charts.cell_6 k))
       = (fst (Charts.cell_6 k), Some (KeyError "GEOID10")).
Proof.
  intros Hk Hd Hc.
  destruct (set_index_ok d "GEOID10" Hc) as (d' & E & Hgone & Hcols & Hn & Hvals).
  assert (Charts.cell_6 k
          = (<["df" := Subsets.Py (Subsets.with_table v d')]> k, None)) as E6.
  { unfold Charts.cell_6. apply bind_py_ok. unfold Subsets.get_py.
    rewrite Hk. cbn [bind]. rewrite Hd. cbn [bind]. rewrite E. reflexivity. }
  exists d'. split; [exact E6|]. split; [exact Hgone|].
  split; [intros c Hne; split; [apply Hcols|apply Hvals]; exact Hne|].
  split; [exact Hn|]. rewrite E6. cbn [fst].
  unfold Charts.cell_6. apply bind_py_raise. unfold Subsets.get_py.
  rewrite lookup_insert_eq. cbn [bind].
  rewrite (table_with_table v d) by exact Hd. cbn [bind].
  unfold Subsets.set_index. rewrite Hgone. reflexivity.
Qed.

(** ** Module 12: the added columns and the fits *)

Section AssignFacts.
Import Frames.

Lemma zip_with_insert_length (c : string) (rs : list (gmap string value))
  (vs : list value) :
  length vs = length rs ->
  length (zip_with (fun r v => <[c := v]> r) rs vs) = length rs.
Proof. intros H. rewrite length_zip_with. lia. Qed.

Lemma zip_with_insert_again (c : string) (rs : list (gmap string value))
  (vs : list value) :
  zip_with (fun r v => <[c := v]> r)
           (zip_with (fun r v => <[c := v]> r) rs vs) vs
  = zip_with (fun r v => <[c := v]> r) rs vs.
Proof.
  revert vs. induction rs as [|r rs IH]; intros [|v vs]; try reflexivity.
  cbn [zip_with]. rewrite insert_insert_eq, IH. reflexivity.
Qed.

Lemma zip_with_insert_other (c c0 : string) (rs : list (gmap string value))
  (vs : list value) :
  c0 <> c -> length vs = length rs ->
  map (cell_of c0) (zip_with (fun r v => <[c := v]> r) rs vs)
  = map (cell_of c0) rs.
Proof.
  intros Hne. revert vs. induction rs as [|r rs IH]; intros [|v vs] Hlen;
    try discriminate; [reflexivity|].
  cbn [zip_with map]. injection Hlen as Hlen. rewrite (IH _ Hlen).
  unfold cell_of. rewrite lookup_insert_ne by congruence. reflexivity.
Qed.

Lemma assign_again (d d' : DataFrame) (c : string) (vs : list value) :
  assign d c vs = Ok d' -> assign d' c vs = Ok d'.
Proof.
  intros H. pose proof (assign_inv _ _ _ _ H) as (Hlen & Hrows & Hcol).
  unfold assign. rewrite Hcol.
  assert (nrows d' = nrows d) as Hn.
  { unfold nrows. rewrite Hrows. apply zip_with_insert_length. exact Hlen. }
  rewrite Hn, Hlen, Nat.eqb_refl. f_equal. destruct d' as [cols rs].
  cbn [columns rows] in *. f_equal. rewrite Hrows.
  apply zip_with_insert_again.
Qed.

Lemma assign_keeps_column (d d' : DataFrame) (c c0 : string) (vs : list value) :
  assign d c vs = Ok d' -> c0 <> c -> has_column d c0 = true ->
  column d' c0 = column d c0.
Proof.
  intros H Hne Hc0. pose proof (assign_inv _ _ _ _ H) as (Hlen & Hrows & _).
  unfold assign in H. rewrite Hlen, Nat.eqb_refl in H. injection H as <-.
  unfold column. cbn [rows]. rewrite Hc0.
  assert (has_column
            {| columns := if has_column d c then columns d
                          else (columns d ++ [c])%list;
               rows := zip_with (fun r v => <[c := v]> r) (rows d) vs |} c0
          = true) as ->.
  { apply has_column_In. cbn [columns]. apply has_column_In in Hc0.
    destruct (has_column d c); [exact Hc0|]. apply in_or_app. left. exact Hc0. }
  f_equal. apply zip_with_insert_other; assumption.
Qed.

End AssignFacts.

Section Recompute.
Import Frames.
Context `{L : Library}.

(** A column computed from another column of the same frame and stored
    under a different name is the same when computed again. *)
Lemma derived_column_again (source target : string)
  (derive : list value -> res (list value)) (k k' : gmap string pyval) :
  source <> target ->
  (gdf <- get_frame k "gdf" ;; col <- column gdf source ;;
   vs <- derive col ;; Models.set_column k "gdf" target vs) = Ok k' ->
  (gdf <- get_frame k' "gdf" ;; col <- column gdf source ;;
   vs <- derive col ;; Models.set_column k' "gdf" target vs) = Ok k'.
Proof.
  intros Hne H.
  apply bind_ok in H as (gdf & Hg & H).
  apply bind_ok in H as (col & Hcol & H).
  apply bind_ok in H as (vs & Hvs & H).
  pose proof (column_inv _ _ _ Hcol) as [_ Hsrc].
  unfold Models.set_column, get_frame in *.
  destruct (k !! "gdf") as [[| | |d|g| |]|] eqn:Ek; try discriminate.
  - injection Hg as ->.
    apply bind_ok in H as (d' & Hd' & H). injection H as <-.
    rewrite lookup_insert_eq. cbn [bind].
    rewrite (assign_keeps_column gdf d' target source vs Hd') by assumption.
    rewrite Hcol. cbn [bind]. rewrite Hvs. cbn [bind].
    rewrite (assign_again _ _ _ _ Hd'). cbn [bind].
    rewrite insert_insert_eq. reflexivity.
  - injection Hg as <-.
    apply bind_ok in H as (d' & Hd' & H). injection H as <-.
    rewrite lookup_insert_eq. cbn [bind frame crs].
    rewrite (assign_keeps_column (frame g) d' target source vs Hd') by assumption.
    rewrite Hcol. cbn [bind]. rewrite Hvs. cbn [bind].
    rewrite (assign_again _ _ _ _ Hd'). cbn [bind].
    rewrite insert_insert_eq. reflexivity.
Qed.

End Recompute.

(** X20.  The two cells of module 12 that add a column to [gdf], cell 25
    ([majority_white] from [pct_white]) and cell 31 ([rent_log] from
    [rent]), can be run again: a second run recomputes the column from a
    source it did not touch and leaves the kernel exactly as the first run
    left it. *)
Theorem derived_columns_can_be_recomputed `{L : Frames.Library}
  (k k' : gmap string Frames.pyval) :
  (Models.cell_25 k = Ok k' -> Models.cell_25 k' = Ok k')
  /\ (Models.cell_31 k = Ok k' -> Models.cell_31 k' = Ok k').
Proof.
  assert (forall k0, Models.cell_25 k0
            = (gdf <- Frames.get_frame k0 "gdf" ;;
               col <- Frames.column gdf "pct_white" ;;
               vs <- (above <- Frames.each Frames.gt_50 col ;;
                      Ok (map Frames.bool_to_int above)) ;;
               Models.set_column k0 "gdf" "majority_white" vs)) as E25.
  { intros k0. unfold Models.cell_25.
    destruct (Frames.get_frame k0 "gdf") as [gdf|]; [|reflexivity].
    cbn [bind].
    destruct (Frames.column gdf "pct_white") as [col|]; [|reflexivity].
    cbn [bind].
    destruct (Frames.each Frames.gt_50 col) as [above|]; reflexivity. }
  split; intros H.
  - rewrite E25 in *.
    apply (derived_column_again "pct_white" "majority_white" _ k k');
      [discriminate|exact H].
  - apply (derived_column_again "rent" "rent_log"
             (fun col => Ok (map Frames.np_log col)) k k');
      [discriminate|exact H].
Qed.

Section FitFacts.
Import Frames.
Context `{L : Library}.

(** What a regression cell binds, in terms of the frame bound to [gdf]. *)
Lemma regress_unfold (response : string) (predictors : list string)
  (k : gmap string pyval) :
  Models.regress response predictors k
  = (gdf <- get_frame k "gdf" ;;
     sel <- select gdf (response :: predictors) ;;
     X <- select (dropna sel) predictors ;;
     y <- column (dropna sel) response ;;
     let m := {| endog := y; exog := add_constant X |} in
     Ok (<["result" := PResult (fit m)]>
           (<["model" := PModel m]>
              (<["y" := PSeries (Some response) y]>
                 (<["X" := PFrame X]>
                    (<["data" := PFrame (dropna sel)]>
                       (<["predictors" := PStrs predictors]>
                          (<["response" := PStr response]> k)))))))).
Proof.
  unfold Models.regress. rewrite !get_frame_insert_ne by done.
  destruct (get_frame k "gdf") as [gdf|e]; [|reflexivity]. cbn [bind].
  unfold get_str at 1. rewrite lookup_insert_ne, lookup_insert_eq by done.
  cbn [bind]. unfold get_strs at 1. rewrite lookup_insert_eq. cbn [bind app].
  destruct (select gdf (response :: predictors)) as [sel|e]; [|reflexivity].
  cbn [bind]. unfold get_frame at 1. rewrite lookup_insert_eq. cbn [bind].
  unfold get_strs at 1. rewrite lookup_insert_ne, lookup_insert_eq by done.
  cbn [bind].
  destruct (select (dropna sel) predictors) as [X|e]; [|reflexivity].
  cbn [bind]. unfold get_frame at 1.
  rewrite lookup_insert_ne, lookup_insert_eq by done. cbn [bind].
  unfold get_str at 1. rewrite !lookup_insert_ne, lookup_insert_eq by done.
  cbn [bind].
  destruct (column (dropna sel) response) as [y|e]; [|reflexivity].
  cbn [bind]. unfold Models.estimate, get_series, get_table, get_model.
  rewrite lookup_insert_eq. cbn [bind].
  rewrite lookup_insert_ne, lookup_insert_eq by done. cbn [bind].
  rewrite lookup_insert_eq. reflexivity.
Qed.

Lemma simple_fit_unfold (k : gmap string pyval) :
  Models.simple_fit k
  = (gdf <- get_frame k "gdf" ;;
     sel <- select gdf ["rent"; "sqft"] ;;
     x <- column (dropna sel) "sqft" ;;
     y <- column (dropna sel) "rent" ;;
     let X := {| columns := ["sqft"];
                 rows := map (fun v => {["sqft" := v]}) x |} in
     let m := {| endog := y; exog := add_constant X |} in
     Ok (<["result" := PResult (fit m)]>
           (<["model" := PModel m]>
              (<["y" := PSeries (Some "rent") y]>
                 (<["X" := PSeries (Some "sqft") x]>
                    (<["data" := PFrame (dropna sel)]>
                       (<["predictor" := PStr "sqft"]>
                          (<["response" := PStr "rent"]> k)))))))).
Proof.
  unfold Models.simple_fit, Models.cell_14, Models.cell_15, Models.cell_16.
  cbn [bind]. rewrite !get_frame_insert_ne by done.
  destruct (get_frame k "gdf") as [gdf|e]; [|reflexivity]. cbn [bind].
  unfold get_str at 1. rewrite lookup_insert_ne, lookup_insert_eq by done.
  cbn [bind]. unfold get_str at 1. rewrite lookup_insert_eq. cbn [bind].
  destruct (select gdf ["rent"; "sqft"]) as [sel|e]; [|reflexivity].
  cbn [bind]. unfold get_frame at 1. rewrite lookup_insert_eq. cbn [bind].
  unfold get_str at 1. rewrite lookup_insert_ne, lookup_insert_eq by done.
  cbn [bind].
  destruct (column (dropna sel) "sqft") as [x|e]; [|reflexivity].
  cbn [bind]. unfold get_frame at 1.
  rewrite lookup_insert_ne, lookup_insert_eq by done. cbn [bind].
  unfold get_str at 1. rewrite !lookup_insert_ne, lookup_insert_eq by done.
  cbn [bind].
  destruct (column (dropna sel) "rent") as [y|e]; [|reflexivity].
  cbn [bind]. unfold Models.estimate, get_series, get_table, get_model.
  rewrite lookup_insert_eq. cbn [bind].
  rewrite lookup_insert_ne, lookup_insert_eq by done. cbn [bind].
  rewrite lookup_insert_eq. reflexivity.
Qed.

Lemma get_frame_agree (k1 k2 : gmap string pyval) :
  k1 !! "gdf" = k2 !! "gdf" -> get_frame k1 "gdf" = get_frame k2 "gdf".
Proof. intros H. unfold get_frame. rewrite H. reflexivity. Qed.

End FitFacts.

Section AddedColumns.
Import Frames.
Context `{L : Library}.

Lemma assign_has_column (d d' : DataFrame) (c c0 : string) (vs : list value) :
  assign d c vs = Ok d' -> has_column d c0 = true -> has_column d' c0 = true.
Proof.
  unfold assign. destruct (_ =? _)%nat; [|discriminate]. intros [= <-] H.
  apply has_column_In. cbn [columns]. apply has_column_In in H.
  destruct (has_column d c); [exact H|]. apply in_or_app. left. exact H.
Qed.

Lemma set_column_frame (k k' : gmap string pyval) (c : string)
  (vs : list value) :
  Models.set_column k "gdf" c vs = Ok k' ->
  exists d d', get_frame k "gdf" = Ok d /\ assign d c vs = Ok d'
    /\ get_frame k' "gdf" = Ok d'.
Proof.
  unfold Models.set_column, get_frame. intros H.
  destruct (k !! "gdf") as [[| | |d|g| |]|]; try discriminate;
    apply bind_ok in H as (d' & Hd' & [= <-]);
    eexists _, d'; rewrite lookup_insert_eq; repeat split; assumption.
Qed.

Lemma cell_25_frame (k k' : gmap string pyval) :
  Models.cell_25 k = Ok k' ->
  exists d d', get_frame k "gdf" = Ok d /\ get_frame k' "gdf" = Ok d'
    /\ has_column d' "majority_white" = true
    /\ forall c, has_column d c = true -> has_column d' c = true.
Proof.
  unfold Models.cell_25. intros H.
  apply bind_ok in H as (gdf & Hg & H).
  apply bind_ok in H as (pct & _ & H).
  apply bind_ok in H as (above & _ & H).
  apply set_column_frame in H as (d & d' & Hd & Ha & Hd').
  exists d, d'. repeat split; try assumption.
  - apply assign_inv in Ha. apply Ha.
  - intros c. apply (assign_has_column _ _ _ _ _ Ha).
Qed.

Lemma cell_31_frame (k k' : gmap string pyval) :
  Models.cell_31 k = Ok k' ->
  exists d d', get_frame k "gdf" = Ok d /\ get_frame k' "gdf" = Ok d'
    /\ has_column d' "rent_log" = true
    /\ forall c, has_column d c = true -> has_column d' c = true.
Proof.
  unfold Models.cell_31. intros H.
  apply bind_ok in H as (gdf & Hg & H).
  apply bind_ok in H as (rent & _ & H).
  apply set_column_frame in H as (d & d' & Hd & Ha & Hd').
  exists d, d'. repeat split; try assumption.
  - apply assign_inv in Ha. apply Ha.
  - intros c. apply (assign_has_column _ _ _ _ _ Ha).
Qed.

End AddedColumns.


(** X23.  A fit of module 12 reads nothing but [gdf]: each of the five
    fitting cells binds [data], [X], [y], [model] and [result] anew from
    the frame bound to [gdf], so two kernels that agree on [gdf] get the
    same five values, or the same exception, whatever an earlier fit left
    under those names. *)
Theorem fits_read_nothing_but_gdf `{L : Frames.Library} :
  Forall (fun cf =>
            forall k1 k2 : gmap string Frames.pyval,
              k1 !! "gdf" = k2 !! "gdf" ->
              match fst cf k1, fst cf k2 with
              | Ok a, Ok b =>
                  forall x, In x ["data"; "X"; "y"; "model"; "result"] ->
                    a !! x = b !! x
              | Raise e1, Raise e2 => e1 = e2
              | _, _ => False
              end)
         Models.fits.
Proof.
  assert (forall r ps (k1 k2 : gmap string Frames.pyval),
            k1 !! "gdf" = k2 !! "gdf" ->
            match Models.regress r ps k1, Models.regress r ps k2 with
            | Ok a, Ok b =>
                forall x, In x ["data"; "X"; "y"; "model"; "result"] ->
                  a !! x = b !! x
            | Raise e1, Raise e2 => e1 = e2
            | _, _ => False
            end) as Hregress.
  { intros r ps k1 k2 H. rewrite !regress_unfold, (get_frame_agree k1 k2 H).
    destruct (Frames.get_frame k2 "gdf") as [gdf|]; [|reflexivity]. cbn [bind].
    destruct (Frames.select gdf (r :: ps)) as [sel|]; [|reflexivity].
    cbn [bind].
    destruct (Frames.select (Frames.dropna sel) ps) as [X|]; [|reflexivity].
    cbn [bind].
    destruct (Frames.column (Frames.dropna sel) r) as [y|]; [|reflexivity].
    cbn [bind]. intros x Hx. cbn [In] in Hx.
    destruct Hx as [<-|[<-|[<-|[<-|[<-|[]]]]]];
      repeat (rewrite lookup_insert_ne by discriminate);
      rewrite lookup_insert_eq; symmetry;
      repeat (rewrite lookup_insert_ne by discriminate);
      rewrite lookup_insert_eq; reflexivity. }
  unfold Models.fits. repeat constructor; cbn [fst];
    try (intros k1 k2 H; apply (Hregress _ _ k1 k2 H)).
  intros k1 k2 H. rewrite !simple_fit_unfold, (get_frame_agree k1 k2 H).
  destruct (Frames.get_frame k2 "gdf") as [gdf|]; [|reflexivity]. cbn [bind].
  destruct (Frames.select gdf ["rent"; "sqft"]) as [sel|]; [|reflexivity].
  cbn [bind].
  destruct (Frames.column (Frames.dropna sel) "sqft") as [x0|]; [|reflexivity].
  cbn [bind].
  destruct (Frames.column (Frames.dropna sel) "rent") as [y|]; [|reflexivity].
  cbn [bind]. intros x Hx. cbn [In] in Hx.
  destruct Hx as [<-|[<-|[<-|[<-|[<-|[]]]]]];
    repeat (rewrite lookup_insert_ne by discriminate);
    rewrite lookup_insert_eq; symmetry;
    repeat (rewrite lookup_insert_ne by discriminate);
    rewrite lookup_insert_eq; reflexivity.
Qed.

(** ** The names the notebooks read *)

Section NameFacts.
Import Names.

Lemma known_In (bound : list string) (x : string) :
  known bound x = true <-> In x bound.
Proof.
  unfold known. rewrite existsb_exists. split.
  - intros (y & Hy & E). apply String.eqb_eq in E. congruence.
  - intros H. exists x. split; [exact H|apply String.eqb_refl].
Qed.

Lemma scan_cell_bound (i : nat) (bound : list string) (us : list use) (x : string) :
  In x (snd (scan_cell i bound us))
  <-> In x bound \/ exists w, In w us /\ In x (binds w).
Proof.
  revert bound. induction us as [|u us IH]; intros bound; cbn [scan_cell snd].
  - split; [auto|]. intros [H|(w & [] & _)]. exact H.
  - rewrite IH, in_app_iff. split.
    + intros [[H|H]|(w & Hw & H)]; eauto 6 using in_eq, in_cons.
    + intros [H|(w & [<-|Hw] & H)]; eauto 6.
Qed.

Lemma scan_cell_sound (i : nat) (bound : list string) (us : list use) :
  fst (scan_cell i bound us) = [] ->
  forall pre u post, us = (pre ++ u :: post)%list ->
    forall x, In x (reads u) ->
      In x bound \/ exists w, In w pre /\ In x (binds w).
Proof.
  revert bound. induction us as [|u0 us IH]; intros bound H pre u post E x Hx.
  - destruct pre; discriminate.
  - cbn [scan_cell fst] in H. apply app_eq_nil in H as [Hm Hrest].
    destruct pre as [|p pre]; cbn in E; injection E as -> ->.
    + left. apply known_In.
      destruct (known bound x) eqn:Ek; [reflexivity|]. exfalso.
      assert (In x (List.filter (fun x => negb (known bound x)) (reads u)))
        as Hin by (apply filter_In; rewrite Ek; auto).
      apply (in_map (pair i)) in Hin. rewrite Hm in Hin. destruct Hin.
    + destruct (IH _ Hrest pre u post eq_refl x Hx) as [Hb|(w & Hw & Hb)].
      * apply in_app_iff in Hb as [Hb|Hb]; [|left; exact Hb].
        right. exists p. split; [left; reflexivity|exact Hb].
      * right. exists w. split; [right; exact Hw|exact Hb].
Qed.

Lemma scan_cells_sound (bound : list string) (cells : list (nat * list use)) :
  scan_cells bound cells = [] ->
  forall pre u post, statements cells = (pre ++ u :: post)%list ->
    forall x, In x (reads u) ->
      In x bound \/ exists w, In w pre /\ In x (binds w).
Proof.
  unfold statements. revert bound.
  induction cells as [|[i us] cells IH]; intros bound H pre u post E x Hx.
  - destruct pre; discriminate.
  - cbn [scan_cells] in H. apply app_eq_nil in H as [Hc Hrest].
    cbn [flat_map snd] in E.
    assert (forall pre', pre = (us ++ pre')%list ->
              flat_map snd cells = (pre' ++ u :: post)%list ->
              In x bound \/ exists w, In w pre /\ In x (binds w)) as Hlater.
    { intros pre' -> Erest.
      destruct (IH _ Hrest pre' u post Erest x Hx) as [Hb|(w & Hw & Hb)].
      - apply scan_cell_bound in Hb as [Hb|(w & Hw & Hb)]; [left; exact Hb|].
        right. exists w. split; [apply in_app_iff; left; exact Hw|exact Hb].
      - right. exists w. split; [apply in_app_iff; right; exact Hw|exact Hb]. }
    apply app_eq_app in E as [l [[Eus Epost]|[Epre Erest]]].
    + destruct l as [|u' l].
      * rewrite app_nil_r in Eus. cbn in Epost.
        apply (Hlater []); [rewrite app_nil_r; congruence|].
        symmetry. exact Epost.
      * cbn in Epost. injection Epost as <- _.
        apply (scan_cell_sound i bound us Hc pre u l Eus x Hx).
    + apply (Hlater l); assumption.
Qed.

Lemma unbound_sound (cells : list (nat * list use)) :
  unbound cells = [] -> bound_before_read cells.
Proof. intros H pre u post E x Hx. apply (scan_cells_sound _ _ H _ _ _ E x Hx). Qed.

End NameFacts.

(** X25.  Read from the top, the notebooks of modules 06, 07 and 12 never
    read a name before a statement has bound it (or an import, or Python
    itself): no cell depends on a later one.  Module 03 does so twice, at
    the two cells that show what a NameError looks like: [prin] in cell 31
    and [numbe] in cell 33. *)
Theorem names_are_bound_before_they_are_read :
  Names.bound_before_read Names.uses06
  /\ Names.bound_before_read Names.uses07
  /\ Names.bound_before_read Names.uses12
  /\ Names.unbound Names.uses03 = [(31%nat, "prin"); (33%nat, "numbe")].
Proof.
  repeat split; try (apply unbound_sound); vm_compute; reflexivity.
Qed.

(** ** Modules 07 and 12: the listings *)

Section Listings.
Import Frames.
Context `{L : Library}.

(** The GeoDataFrame of the listings, as both notebooks build it from the
    CSV file. *)
Lemma listings_frame_07 (k : gmap string pyval) :
  (k <- Spatial.cell_11 k ;; k <- Spatial.cell_14 k ;;
   k <- Spatial.cell_15 k ;; get_geo k "gdf_listings")
  = (d <- read_csv listings_csv ;;
     pts <- points_from_xy d "longitude" "latitude" ;;
     d' <- assign d "geometry" pts ;;
     Ok {| crs := Some (from_user_input "epsg:4326"); frame := d' |}).
Proof.
  unfold Spatial.cell_11.
  destruct (read_csv listings_csv) as [d|e]; [|reflexivity]. cbn [bind].
  unfold Spatial.cell_14, get_frame. rewrite lookup_insert_eq. cbn [bind].
  unfold Spatial.cell_15. unfold get_geo at 1. rewrite lookup_insert_eq.
  cbn [bind frame crs].
  destruct (points_from_xy d "longitude" "latitude") as [pts|e];
    [|reflexivity].
  cbn [bind]. unfold get_geo at 1.
  rewrite lookup_insert_ne, lookup_insert_eq by done. cbn [bind frame crs].
  unfold get_series. rewrite lookup_insert_eq. cbn [bind].
  destruct (assign d "geometry" pts) as [d'|e]; [|reflexivity]. cbn [bind].
  unfold get_geo at 1. rewrite lookup_insert_eq. cbn [bind frame crs].
  unfold get_geo. rewrite lookup_insert_eq. reflexivity.
Qed.

Lemma listings_frame_12 (k : gmap string pyval) :
  (k <- Models.cell_8 k ;; get_geo k "gdf_listings")
  = (d <- read_csv listings_csv ;;
     pts <- points_from_xy d "longitude" "latitude" ;;
     d' <- assign d "geometry" pts ;;
     Ok {| crs := Some (from_user_input "epsg:4326"); frame := d' |}).
Proof.
  unfold Models.cell_8.
  destruct (read_csv listings_csv) as [d|e]; [|reflexivity]. cbn [bind].
  unfold get_frame at 1. rewrite lookup_insert_eq. cbn [bind].
  destruct (points_from_xy d "longitude" "latitude") as [pts|e];
    [|reflexivity].
  cbn [bind].
  destruct (assign d "geometry" pts) as [d'|e]; [|reflexivity]. cbn [bind].
  unfold get_frame. rewrite lookup_insert_eq. cbn [bind].
  unfold get_geo. rewrite lookup_insert_eq. reflexivity.
Qed.

End Listings.

(** X26.  Modules 07 and 12 build the GeoDataFrame of the listings in two
    ways, in three cells (11, 14, 15) and in one (cell 8): both give the
    same frame in the same CRS, or stop with the same exception.  When
    they run, the frame has the rows of the CSV file, each with a
    geometry made from its [longitude] and [latitude], in that order, and
    its other columns as they were; the CRS is the one named, EPSG 4326,
    and no coordinate has been transformed. *)
Theorem listings_frame_is_built_the_same_way `{L : Frames.Library}
  (k7 k12 : gmap string Frames.pyval) :
  (k <- Spatial.cell_11 k7 ;; k <- Spatial.cell_14 k ;;
   k <- Spatial.cell_15 k ;; Frames.get_geo k "gdf_listings")
  = (k <- Models.cell_8 k12 ;; Frames.get_geo k "gdf_listings")
  /\ forall g,
       (k <- Models.cell_8 k12 ;; Frames.get_geo k "gdf_listings") = Ok g ->
       exists d,
         Frames.read_csv listings_csv = Ok d
         /\ Frames.crs g = Some (Frames.from_user_input "epsg:4326")
         /\ Frames.has_column (Frames.frame g) "geometry" = true
         /\ Forall2
              (fun r r' =>
                 Frames.cell_of "geometry" r'
                 = Frames.point (Frames.cell_of "longitude" r)
                                (Frames.cell_of "latitude" r)
                 /\ forall c, c <> "geometry" ->
                      Frames.cell_of c r' = Frames.cell_of c r)
              (Frames.rows d) (Frames.rows (Frames.frame g)).
Proof.
  split; [rewrite listings_frame_07, listings_frame_12; reflexivity|].
  intros g H. rewrite listings_frame_12 in H.
  apply bind_ok in H as (d & Hd & H).
  apply bind_ok in H as (pts & Hpts & H).
  apply bind_ok in H as (d' & Hd' & [= <-]).
  exists d. split; [exact Hd|]. split; [reflexivity|].
  apply assign_inv in Hd' as (Hlen & Hrows & Hcol).
  split; [exact Hcol|]. cbn [Frames.frame]. rewrite Hrows.
  unfold Frames.points_from_xy in Hpts.
  apply bind_ok in Hpts as (xs & Hxs & Hpts).
  apply bind_ok in Hpts as (ys & Hys & [= <-]).
  apply column_inv in Hxs as [-> _]. apply column_inv in Hys as [-> _].
  clear. induction (Frames.rows d) as [|r rs IH]; [constructor|].
  cbn [map zip_with]. constructor; [|exact IH]. split.
  - unfold Frames.cell_of at 1. rewrite lookup_insert_eq. reflexivity.
  - intros c Hc. unfold Frames.cell_of. rewrite lookup_insert_ne by congruence.
    reflexivity.
Qed.

(** ** The figures the notebooks save *)

Section FigureFacts.
Import Skeleton.
Context {blob : Type}.
Variable render : string -> list blob -> blob.
Variable remote : string -> option blob.

(** One effect: the names produced grow by the file it writes, and a
    file it writes holds what was produced for it. *)
Lemma do_effect_produced (e : effect) (r r' : run_state blob) :
  do_effect render remote e r = Ok r' ->
  map fst (produced r') = (map fst (produced r) ++ writes_of e)%list
  /\ (forall p, ~ In p (writes_of e) -> disk r' !! p = disk r !! p)
  /\ (forall p b, In (p, b) (produced r') ->
        In (p, b) (produced r) \/ (In p (writes_of e) /\ disk r' !! p = Some b)).
Proof.
  destruct e as [u|[p0|]|w [p0|]|cmd|m]; cbn [do_effect writes_of].
  - destruct (remote u); [|discriminate]. intros [= <-]. cbn.
    rewrite app_nil_r. auto.
  - destruct (disk r !! p0); [|discriminate]. intros [= <-]. cbn.
    rewrite app_nil_r. auto.
  - discriminate.
  - intros [= <-]. cbn [produced disk]. split; [|split].
    + rewrite map_app. reflexivity.
    + intros p Hp. apply lookup_insert_ne. intros ->. apply Hp. left.
      reflexivity.
    + intros p b Hin. apply in_app_iff in Hin as [Hin|[[= <- <-]|[]]].
      * left. exact Hin.
      * right. split; [left; reflexivity|apply lookup_insert_eq].
  - discriminate.
  - intros [= <-]. rewrite app_nil_r. auto.
  - intros [= <-]. rewrite app_nil_r. auto.
Qed.

Lemma produced_names (es : list effect) (r : run_state blob) :
  exists done,
    map fst (produced (fst (do_effects render remote es r)))
    = (map fst (produced r) ++ done)%list
    /\ (forall p, In p done -> In p (flat_map writes_of es))
    /\ (snd (do_effects render remote es r) = None ->
        done = flat_map writes_of es).
Proof.
  revert r. induction es as [|e es IH]; intros r; cbn [do_effects flat_map].
  - exists []. rewrite app_nil_r. auto.
  - destruct (do_effect render remote e r) as [r'|x] eqn:E.
    + apply do_effect_produced in E as (Hn & _ & _).
      destruct (IH r') as (done & H1 & H2 & H3).
      exists (writes_of e ++ done)%list. split; [|split].
      * rewrite H1, Hn, app_assoc. reflexivity.
      * intros p Hp. apply in_app_iff in Hp as [Hp|Hp]; apply in_app_iff;
          [left; exact Hp|right; apply H2, Hp].
      * intros Hnone. rewrite (H3 Hnone). reflexivity.
    + exists []. cbn [fst snd]. rewrite app_nil_r.
      split; [reflexivity|]. split; [intros p []|discriminate].
Qed.

Lemma produced_stay_on_disk (es : list effect) (r : run_state blob) :
  List.NoDup (flat_map writes_of es) ->
  (forall p b, In (p, b) (produced r) ->
     disk r !! p = Some b /\ ~ In p (flat_map writes_of es)) ->
  forall p b,
    In (p, b) (produced (fst (do_effects render remote es r))) ->
    disk (fst (do_effects render remote es r)) !! p = Some b.
Proof.
  revert r. induction es as [|e es IH]; intros r Hnd Hr p b Hin;
    cbn [do_effects flat_map] in *.
  - apply Hr, Hin.
  - destruct (do_effect render remote e r) as [r'|x] eqn:E;
      [|apply Hr, Hin].
    apply List.NoDup_app_remove_l in Hnd as Hnd'.
    apply (IH r' Hnd'); [|exact Hin].
    apply do_effect_produced in E as (_ & Hdisk & Hprod).
    intros q c Hq. destruct (Hprod q c Hq) as [Hold|[Hw Hd]].
    + destruct (Hr q c Hold) as [Hd Hno]. split.
      * rewrite Hdisk; [exact Hd|]. intros Hw. apply Hno, in_app_iff. auto.
      * intros Hw. apply Hno, in_app_iff. auto.
    + split; [exact Hd|]. intros Hes.
      destruct (proj1 (NoDup_app _ _) (proj2 (NoDup_ListNoDup _) Hnd))
        as (_ & Hdis & _).
      apply (Hdis q); [apply list_elem_of_In, Hw|apply list_elem_of_In, Hes].
Qed.

End FigureFacts.

(** X27.  No figure is overwritten.  The eight file names the notebooks
    pass to [savefig] are all different; so when a notebook has run, each
    file it produced is on the disk as produced, a run that reaches the
    end has produced exactly the files the notebook names, and the files
    are still there, unchanged, after any of the other notebooks has
    run. *)
Theorem no_figure_is_overwritten :
  List.NoDup (flat_map Skeleton.nb_writes Notebooks.all)
  /\ forall (blob : Type) (render : string -> list blob -> blob)
       (remote : string -> option blob) (d : gmap string blob),
       Forall
         (fun nb =>
            let run := Skeleton.run_notebook render remote nb d in
            (snd run = None ->
             map fst (Skeleton.produced (fst run)) = Skeleton.nb_writes nb)
            /\ (forall p b, In (p, b) (Skeleton.produced (fst run)) ->
                  Skeleton.disk (fst run) !! p = Some b)
            /\ Forall
                 (fun other =>
                    Skeleton.path other <> Skeleton.path nb ->
                    forall p b, In (p, b) (Skeleton.produced (fst run)) ->
                      Skeleton.disk
                        (fst (Skeleton.run_notebook render remote other
                                (Skeleton.disk (fst run)))) !! p
                      = Some b)
                 Notebooks.all)
         Notebooks.all.
Proof.
  assert (List.NoDup (flat_map Skeleton.nb_writes Notebooks.all)) as Hall.
  { vm_compute.
    repeat (constructor; [cbn; intuition discriminate|]). constructor. }
  split; [exact Hall|]. intros blob render remote d.
  assert (forall nb, In nb Notebooks.all ->
            List.NoDup (Skeleton.nb_writes nb)) as Hnd.
  { intros nb Hnb. cbn in Hnb.
    destruct Hnb as [<-|[<-|[<-|[<-|[]]]]]; vm_compute;
      repeat (constructor; [cbn; intuition discriminate|]); constructor. }
  assert (forall nb other, In nb Notebooks.all -> In other Notebooks.all ->
            Skeleton.path other <> Skeleton.path nb ->
            forall p, In p (Skeleton.nb_writes nb) ->
                      ~ In p (Skeleton.nb_writes other)) as Hdis.
  { intros nb other Hnb Ho Hne. apply disjoint_sound.
    cbn in Hnb, Ho.
    destruct Hnb as [<-|[<-|[<-|[<-|[]]]]];
      destruct Ho as [<-|[<-|[<-|[<-|[]]]]];
      try (exfalso; apply Hne; reflexivity); vm_compute; reflexivity. }
  apply List.Forall_forall. intros nb Hnb. cbv zeta.
  unfold Skeleton.run_notebook.
  destruct (produced_names render remote (Skeleton.nb_effects nb)
              (Skeleton.start d)) as (done & Hnames & Hsub & Hfull).
  cbn [Skeleton.start Skeleton.produced map app] in Hnames.
  assert (forall p b,
            In (p, b) (Skeleton.produced
                         (fst (Skeleton.do_effects render remote
                                 (Skeleton.nb_effects nb) (Skeleton.start d)))) ->
            Skeleton.disk
              (fst (Skeleton.do_effects render remote (Skeleton.nb_effects nb)
                      (Skeleton.start d))) !! p = Some b) as Hdisk.
  { apply produced_stay_on_disk; [apply Hnd, Hnb|]. intros p b []. }
  split; [|split].
  - intros Hnone. rewrite Hnames. apply Hfull, Hnone.
  - exact Hdisk.
  - apply List.Forall_forall. intros other Ho Hne p b Hin.
    rewrite do_effects_frame; [apply Hdisk, Hin|].
    apply (Hdis nb other Hnb Ho Hne). apply Hsub.
    rewrite <- Hnames. apply (in_map fst) in Hin. exact Hin.
Qed.

(** ** The theorems at work on the sample world *)


(** C10 on the sample: the dummy is 1 for the tract that is 62.5% white,
    0 for the one that is 35% white, and 0 where the share is missing. *)
Lemma dummy_on_the_sample :
  Sample.after_join !! "gdf"
  = Some (Frames.PGeo (L := Sample.library) Sample.joined_listings) /\
  Models.cell_25 (L := Sample.library) Sample.after_join
  = Ok (<["gdf" :=
           Frames.PGeo (L := Sample.library)
             {| Frames.crs := Some "epsg:4269";
                Frames.frame :=
                  {| Frames.columns := ["rent"; "sqft"; "pct_white";
                                        "majority_white"];
                     Frames.rows :=
                       [ <["majority_white" := Frames.VInt 1]>
                           (Sample.row [("rent", Frames.VInt 2400);
                                        ("sqft", Frames.VInt 900);
                                        ("pct_white", Frames.VFloat Sample.float_62_5)]);
                         <["majority_white" := Frames.VInt 0]>
                           (Sample.row [("rent", Frames.VInt 1800);
                                        ("sqft", Frames.VInt 700);
                                        ("pct_white", Frames.VFloat Sample.float_35)]);
                         <["majority_white" := Frames.VInt 0]>
                           (Sample.row [("rent", Frames.VInt 3100);
                                        ("sqft", Frames.VInt 1200);
                                        ("pct_white", Frames.VFloat S754_nan)]) ] |} |}]>
          Sample.after_join) /\
  exists k', Models.cell_25 (L := Sample.library) Sample.after_join = Ok k'.
Proof.
  assert (Sample.after_join !! "gdf"
          = Some (Frames.PGeo (L := Sample.library) Sample.joined_listings)) as H
    by reflexivity.
  split; [exact H|]. split; [reflexivity|].
  destruct (majority_white_is_a_dummy (L := Sample.library)
              Sample.after_join Sample.joined_listings H) as [Hruns _].
  apply Hruns; [reflexivity|].
  repeat (apply List.Forall_cons; [reflexivity|]). apply List.Forall_nil.
Defined.

(** C4 on the sample: module 07 reaches its join with both frames in UTM
    zone 11. *)
Lemma joins_on_the_sample :
  exists k l c,
    Spatial.before_join (L := Sample.library) = Ok k /\
    Spatial.join_arguments k = Ok (l, c) /\
    Frames.crs l = Some Spatial.utm_11 /\
    Frames.crs c = Some Spatial.utm_11.
Proof.
  destruct (sjoin_arguments_share_a_crs (L := Sample.library))
    as (_ & _ & _ & Hcrs & _ & _ & Hreach & _).
  destruct (Hreach Sample.tracts Sample.listings) as [k Hk];
    try reflexivity; [by eexists|].
  destruct (Hcrs k Hk) as (l & c & Ha & Hl & Hc).
  exists k, l, c. split; [exact Hk|]. split; [exact Ha|].
  split; [exact Hl|exact Hc].
Defined.

(** C5 on cell 8 of module 12: when the listings are not served, the
    [pd.read_csv] of its first statement raises and the cell ends there
    with that exception. *)
Lemma unserved_listings_stop_cell_8 :
  In Notebooks.nb12 Notebooks.all /\
  In (8%nat, Notebooks.cell_at Notebooks.nb12 8) (Skeleton.cells Notebooks.nb12) /\
  Skeleton.run_cell Sample.listings_down 0 (Notebooks.cell_at Notebooks.nb12 8) 0
  = Skeleton.Raised (URLError listings_csv) 1.
Proof.
  assert (In Notebooks.nb12 Notebooks.all) as Hnb by (simpl; tauto).
  assert (In (8%nat, Notebooks.cell_at Notebooks.nb12 8)
             (Skeleton.cells Notebooks.nb12)) as Hc
    by (vm_compute; repeat (first [left; reflexivity | right])).
  split; [exact Hnb|]. split; [exact Hc|].
  destruct (exceptions_reach_the_interpreter Notebooks.nb12 8
              (Notebooks.cell_at Notebooks.nb12 8) Sample.listings_down 0 0
              Hnb Hc) as (_ & Hraise & _).
  apply (Hraise 0%nat (URLError listings_csv)).
  - vm_compute. lia.
  - reflexivity.
  - intros j' Hj'. lia.
Defined.

(** The two runs on the sample world: both reach the join, module 07 with
    both frames in UTM zone 11, module 12 with both in the shapefile's
    CRS; the first regression of module 12 drops the listing without a
    floor area. *)
Example spatial_join_on_the_sample :
  (k <- Spatial.before_join (L := Sample.library) ;;
   a <- Spatial.join_arguments k ;;
   Ok (Frames.crs (fst a), Frames.crs (snd a)))
  = Ok (Some Spatial.utm_11, Some Spatial.utm_11).
Proof. vm_compute. reflexivity. Qed.

Example models_join_on_the_sample :
  (k <- Models.before_join (L := Sample.library) ;;
   a <- Models.join_arguments k ;;
   Ok (Frames.crs (fst a), Frames.crs (snd a)))
  = Ok (Some "epsg:4269", Some "epsg:4269").
Proof. vm_compute. reflexivity. Qed.

Example simple_fit_on_the_sample :
  (k <- Sample.joined ;;
   k <- Models.simple_fit k ;;
   m <- Frames.get_model k "model" ;;
   Ok (Frames.endog m, Frames.columns (Frames.exog m),
       map (Frames.cell_of "sqft") (Frames.rows (Frames.exog m))))
  = Ok ([Frames.VInt 2400; Frames.VInt 3100], ["const"; "sqft"],
        [Frames.VInt 900; Frames.VInt 1200]).
Proof. vm_compute. reflexivity. Qed.

(** ** The further properties at work on the small kernels *)

(** X2 on the notebook's own [location]: cell 65 shows its last eight
    characters. *)
Lemma last_eight_of_the_location :
  exists t u,
    StringCells.cell_65 Examples.after_cell_55 = Ok t
    /\ "Los Angeles, CA 90089" = u ++ t
    /\ String.length t = 8%nat.
Proof.
  destruct (slices_take_what_there_is Examples.after_cell_55
              "Los Angeles, CA 90089" eq_refl) as [H _].
  exact H.
Defined.

(** X3 on the notebook's own [location]: cell 59 shows ["L"]. *)
Lemma first_character_of_the_location :
  StringCells.cell_59 Examples.after_cell_55 = Ok "L".
Proof.
  destruct (indexing_raises_past_the_end Examples.after_cell_55
              "Los Angeles, CA 90089" eq_refl) as (_ & _ & H & _).
  apply (H "L"%char "os Angeles, CA 90089"). reflexivity.
Defined.

(** X4 on the notebook's own [location]. *)
Lemma replace_on_the_location :
  exists t,
    StringCells.cell_66 Examples.after_cell_55 = Ok t
    /\ Builtins.chars t
       = map (Builtins.swap "e" "E") (Builtins.chars "Los Angeles, CA 90089")
    /\ String.length t = 21%nat
    /\ ~ In "e"%char (Builtins.chars t)
    /\ Builtins.replace t "e" "E" = t.
Proof.
  exact (replace_is_character_by_character Examples.after_cell_55
           "Los Angeles, CA 90089" eq_refl).
Defined.

(** X5 on the zip code of cell 77. *)
Lemma int_undoes_str_on_90089 :
  Builtins.int (Builtins.Str "90089") = Ok 90089.
Proof. exact (int_undoes_str 90089 "90089" eq_refl). Defined.

(** X6 on the zip code of cell 57: ["02115"] becomes 2115, whose string
    is ["2115"]. *)
Lemma the_zip_code_of_cell_57_loses_its_zero :
  StringCells.cell_71 Examples.after_cell_57
  = (StringCells.set_zip_code (Builtins.Int 2115) Examples.after_cell_57,
     Ok (Builtins.Int 2115))
  /\ Builtins.str (Builtins.Int 2115) = Ok "2115"
  /\ "2115" <> "02115".
Proof.
  destruct (int_drops_leading_zeros Examples.after_cell_57 1 2115 "2115")
    as (H1 & H2 & H3);
    [lia|reflexivity|cbn; unfold Builtins.max_str_digits; lia|reflexivity|].
  split; [exact H1|]. split; [exact H2|]. apply H3. lia.
Defined.

(** X10 on the list of cell 84. *)
Lemma position_two_of_the_list_of_cell_84 :
  exists l',
    ListCells.cell_87 Examples.after_cell_84
    = (ListCells.set_my_list l' Examples.after_cell_84, Ok l')
    /\ length l' = 4%nat
    /\ l' !! 2%nat = Some (Builtins.Int 100)
    /\ forall i, i <> 2%nat ->
         l' !! i = [Builtins.Int 2; Builtins.Int 4; Builtins.Int 6;
                    Builtins.Int 8] !! i.
Proof.
  destruct (assigning_to_position_two Examples.after_cell_84
              [Builtins.Int 2; Builtins.Int 4; Builtins.Int 6; Builtins.Int 8]
              eq_refl) as [_ H].
  apply H. cbn. lia.
Defined.

(** X11 on the list of cell 84: three runs of cell 88. *)
Lemma three_runs_of_cell_88 :
  rerun 3 (quiet ListCells.cell_88) Examples.after_cell_84
  = (ListCells.set_my_list
       [Builtins.Int 2; Builtins.Int 4; Builtins.Int 6; Builtins.Int 8;
        Builtins.Str "hello"; Builtins.Str "hello"; Builtins.Str "hello"]
       Examples.after_cell_84, None).
Proof.
  exact (each_run_appends_hello 3 Examples.after_cell_84
           [Builtins.Int 2; Builtins.Int 4; Builtins.Int 6; Builtins.Int 8]
           eq_refl).
Defined.


(** X13 on the dict of cell 108. *)
Lemma hot_becomes_freezing :
  exists d',
    DictCells.cell_110 Examples.after_cell_108
    = (DictCells.set_antonyms d' Examples.after_cell_108, Ok d')
    /\ DictCells.get d' "hot" = Ok "freezing"
    /\ DictCells.get d' "fast" = Ok "slow"
    /\ DictCells.keys d' = ["hot"; "fast"; "good"].
Proof.
  destruct (updating_one_key Examples.after_cell_108
              [("hot", "cold"); ("fast", "slow"); ("good", "bad")] eq_refl)
    as (d' & H1 & H2 & H3 & H4 & _).
  exists d'. split; [exact H1|]. split; [exact H2|]. split.
  - rewrite H3 by discriminate. reflexivity.
  - apply H4. left. reflexivity.
Defined.

(** X14 on the dict of cell 108. *)
Lemma views_of_the_dict_of_cell_108 :
  exists ks vs,
    DictCells.cell_111 Examples.after_cell_108 = Ok ks
    /\ DictCells.cell_112 Examples.after_cell_108 = Ok vs
    /\ DictCells.cell_113 Examples.after_cell_108 = Ok (combine ks vs)
    /\ length ks = length vs.
Proof.
  destruct (views_go_in_step Examples.after_cell_108
              [("hot", "cold"); ("fast", "slow"); ("good", "bad")] eq_refl)
    as (ks & vs & H1 & H2 & H3 & H4 & _).
  exists ks, vs. split; [exact H1|]. split; [exact H2|].
  split; [exact H3|exact H4].
Defined.

(** X15 on three tracts, one of which intersects the listings. *)
Lemma one_tract_with_listings_and_two_without :
  exists k' n m,
    Overlays.cell_26 (L := Sample.library) (G := Examples.geometry)
      Examples.overlays = (k', Ok (n, 4%nat))
    /\ Overlays.cell_27 k' = Ok (m, 4%nat)
    /\ (n + m = 3)%nat
    /\ n = 1%nat.
Proof.
  exact (mask_and_its_negation_split_the_tracts (L := Sample.library)
           (G := Examples.geometry)
           Examples.overlays (Frames.PGeo (L := Sample.library) Examples.tracts)
           (Frames.frame Examples.tracts) (Frames.VGeom "MULTIPOINT")
           eq_refl eq_refl eq_refl eq_refl).
Defined.

(** X16 on four census tracts: the two of Los Angeles and Kern county
    are kept. *)
Lemma two_tracts_of_southern_california :
  exists k' sc,
    Charts.cell_8 (L := Sample.library) Examples.charts
    = (k', Ok (Subsets.shape sc))
    /\ Frames.nrows sc = 2%nat
    /\ Frames.columns sc = Frames.columns Examples.census.
Proof.
  destruct (southern_california_rows (L := Sample.library) Examples.charts
              (Frames.PFrame (L := Sample.library) Examples.census) Examples.census eq_refl eq_refl)
    as [H _].
  destruct (H eq_refl) as (k' & sc & H1 & _ & H3 & H4 & _).
  exists k', sc. split; [exact H1|]. split; [|exact H3].
  unfold Frames.nrows. rewrite H4. reflexivity.
Defined.

(** X17 on four census tracts: one is majority white, one majority
    Hispanic, and the tract without percentages is neither. *)
Lemma majority_subsets_of_four_tracts :
  exists k' w h,
    Charts.cell_24 (L := Sample.library) Examples.charts = (k', None)
    /\ k' !! "df_wht"
       = Some (Subsets.Py (Frames.PFrame (L := Sample.library) w))
    /\ k' !! "df_hsp"
       = Some (Subsets.Py (Frames.PFrame (L := Sample.library) h))
    /\ map (Frames.cell_of "GEOID10") (Frames.rows w)
       = [Frames.VStr "06075001"]
    /\ map (Frames.cell_of "GEOID10") (Frames.rows h)
       = [Frames.VStr "06037001"].
Proof.
  destruct (majority_subsets_follow_the_dummy (L := Sample.library)
              Examples.charts
              (fst (Charts.cell_24 (L := Sample.library) Examples.charts))
              (Frames.PFrame (L := Sample.library) Examples.census) Examples.census
              eq_refl eq_refl eq_refl)
    as (w & h & H1 & H2 & H3 & H4 & _).
  eexists _, w, h. split; [reflexivity|].
  split; [exact H1|]. split; [exact H2|].
  rewrite H3, H4. split; reflexivity.
Defined.

(** X18 on three tracts: of the two in county 059, the one that is all
    water is dropped. *)
Lemma one_orange_county_tract_on_land :
  exists oc,
    sequence (Overlays.cell_67 (L := Sample.library)) Overlays.cell_68
        Examples.overlays
    = (<["oc_tracts_ind" :=
           Subsets.Py (Subsets.with_table (Frames.PGeo (L := Sample.library) Examples.tracts) oc)]>
         Examples.overlays, None)
    /\ map (Frames.cell_of "GEOID") (Frames.rows oc)
       = [Frames.VStr "06059001"].
Proof.
  destruct (orange_county_tracts_on_land (L := Sample.library)
              Examples.overlays (Frames.PGeo (L := Sample.library) Examples.tracts)
              (Frames.frame Examples.tracts) eq_refl eq_refl eq_refl eq_refl)
    as (oc & H1 & _ & H3).
  - repeat (apply List.Forall_cons; [intros _; reflexivity|]).
    apply List.Forall_nil.
  - exists oc. split; [exact H1|]. rewrite H3. reflexivity.
Defined.

(** X19 on two joined listings: after cell 60, cell 65 keeps the one in
    county 059. *)
Lemma the_listing_of_orange_county :
  Overlays.cell_65 (L := Sample.library) Examples.overlays
  = (Examples.overlays, Some (KeyError "county"))
  /\ exists oc,
       fst (Overlays.cell_65
              (fst (Overlays.cell_60 (L := Sample.library) Examples.overlays)))
         !! "oc_listings"
       = Some (Subsets.Py
                 (Subsets.with_table (Frames.PGeo (L := Sample.library) Examples.listings_counties)
                                     oc))
       /\ map (Frames.cell_of "rent") (Frames.rows oc) = [Frames.VInt 2400]
       /\ map (Frames.cell_of "county") (Frames.rows oc) = [Frames.VStr "059"].
Proof.
  destruct (index_right_becomes_county (L := Sample.library)
              Examples.overlays (Frames.PGeo (L := Sample.library) Examples.listings_counties)
              (Frames.frame Examples.listings_counties)
              eq_refl eq_refl eq_refl) as [_ H].
  destruct (H eq_refl) as (H1 & d' & oc & _ & _ & _ & _ & _ & H2 & H3).
  split; [exact H1|]. exists oc. split; [exact H2|].
  rewrite H3. split; reflexivity.
Defined.



(** X24 on four census tracts. *)
Lemma the_second_set_index_fails :
  exists d',
    Charts.cell_6 (L := Sample.library) Examples.charts
    = (<["df" := Subsets.Py (Subsets.with_table
                               (Frames.PFrame (L := Sample.library) Examples.census) d')]>
         Examples.charts, None)
    /\ Frames.nrows d' = 4%nat
    /\ Charts.cell_6
         (fst (Charts.cell_6 (L := Sample.library) Examples.charts))
       = (fst (Charts.cell_6 (L := Sample.library) Examples.charts),
          Some (KeyError "GEOID10")).
Proof.
  destruct (the_index_is_set_once (L := Sample.library) Examples.charts
              (Frames.PFrame (L := Sample.library) Examples.census) Examples.census
              eq_refl eq_refl eq_refl) as (d' & H1 & _ & _ & H4 & H5).
  exists d'. split; [exact H1|]. split; [exact H4|exact H5].
Defined.

(** X9 on the [x = 5] of cell 17: three runs of cell 21 leave 14. *)
Lemma three_runs_of_cell_21 :
  rerun 3 NameCells.cell_21 (fst (NameCells.cell_17 NameCells.fresh))
  = (NameCells.set_x 14 (fst (NameCells.cell_17 NameCells.fresh)), None).
Proof.
  destruct (each_run_adds_three 2 (fst (NameCells.cell_17 NameCells.fresh)))
    as [H _].
  exact (H 5 eq_refl).
Defined.

(** X20 on the three joined listings of the sample. *)
Lemma the_dummy_computed_twice :
  exists k',
    Models.cell_25 (L := Sample.library) Sample.after_join = Ok k'
    /\ Models.cell_25 k' = Ok k'.
Proof.
  destruct (Models.cell_25 (L := Sample.library) Sample.after_join)
    as [k'|e] eqn:E; [|discriminate E].
  exists k'. split; [reflexivity|].
  apply (derived_columns_can_be_recomputed (L := Sample.library)
           Sample.after_join k').
  exact E.
Defined.

(** X23 on two joined listings: the first fit is the same with a stale
    [data] in the kernel. *)
Lemma a_stale_name_changes_no_fit :
  match Models.simple_fit (L := Sample.library) Examples.fitting,
        Models.simple_fit (L := Sample.library)
          (<["data" := Frames.PStr "stale"]> Examples.fitting) with
  | Ok a, Ok b =>
      forall x, In x ["data"; "X"; "y"; "model"; "result"] -> a !! x = b !! x
  | Raise e1, Raise e2 => e1 = e2
  | _, _ => False
  end.
Proof.
  pose proof (fits_read_nothing_but_gdf (L := Sample.library)) as H.
  apply List.Forall_inv in H.
  apply (H Examples.fitting
           (<["data" := Frames.PStr "stale"]> Examples.fitting)).
  reflexivity.
Defined.

(** X26 on the sample: the three listings, each with its point. *)
Lemma listings_frame_on_the_sample :
  exists g d,
    (k <- Models.cell_8 (L := Sample.library) ∅ ;;
     Frames.get_geo k "gdf_listings") = Ok g
    /\ Frames.read_csv (Library := Sample.library) listings_csv = Ok d
    /\ Frames.crs g = Some "epsg:4326"
    /\ length (Frames.rows (Frames.frame g)) = length (Frames.rows d).
Proof.
  destruct (listings_frame_is_built_the_same_way (L := Sample.library) ∅ ∅)
    as [_ H].
  destruct (k <- Models.cell_8 (L := Sample.library) ∅ ;;
            Frames.get_geo k "gdf_listings") as [g|e] eqn:E;
    [|discriminate E].
  destruct (H g eq_refl) as (d & Hd & Hcrs & _ & Hrows).
  exists g, d. split; [reflexivity|]. split; [exact Hd|].
  split; [exact Hcrs|]. symmetry. apply (Forall2_length _ _ _ Hrows).
Defined.
